(** * Smart Student Hub: document review, scoring, visibility and discovery

    A shallow embedding of the parts of the application that decide
    who may read a profile, how a student's achievement points are
    totalled and banded into levels, how the student directory is fetched,
    filtered and ordered, and how documents and collaboration requests
    change state.

    Tables are lists of rows in the store's iteration order, SQL conditions
    are written in SQL's three-valued logic, and every handler of the
    TypeScript front end is a function from the state it reads to the state
    it leaves and the toast it shows. *)

From Corelib Require Import PrimFloat.
From Corelib Require FloatOps SpecFloat.
From Stdlib Require Import ZArith QArith Qabs List String Ascii Bool Lia.
From Stdlib Require Import Permutation Sorted.
From Stdlib Require OrderedTypeEx.
From Stdlib Require DecimalString DecimalPos DecimalZ.
Import ListNotations.

Local Open Scope string_scope.
Local Open Scope list_scope.
Local Open Scope Z_scope.

(** ** SQL: three-valued conditions, aggregates *)

Module Sql.

(** A condition is TRUE, FALSE or NULL ([None]). *)
Definition tv := option bool.

Definition AND (a b : tv) : tv :=
  match a, b with
  | Some false, _ | _, Some false => Some false
  | Some true, Some true => Some true
  | _, _ => None
  end.

Definition OR (a b : tv) : tv :=
  match a, b with
  | Some true, _ | _, Some true => Some true
  | Some false, Some false => Some false
  | _, _ => None
  end.

Definition IS_NOT_NULL {A} (x : option A) : tv :=
  Some (match x with Some _ => true | None => false end).

(** [x = y]: NULL as soon as one side is NULL. *)
Definition EQ {A} (eqb : A -> A -> bool) (x y : option A) : tv :=
  match x, y with
  | Some a, Some b => Some (eqb a b)
  | _, _ => None
  end.

Definition NEQ {A} (eqb : A -> A -> bool) (x y : option A) : tv :=
  option_map negb (EQ eqb x y).

Definition GT (x y : option Z) : tv :=
  match x, y with
  | Some a, Some b => Some (b <? a)
  | _, _ => None
  end.

(** WHERE, USING and WITH CHECK keep a row only when the condition is
    TRUE: FALSE and NULL both drop it. *)
Definition holds (c : tv) : bool :=
  match c with Some true => true | _ => false end.

Definition select_where {A} (c : A -> tv) (rows : list A) : list A :=
  filter (fun r => holds (c r)) rows.

Definition EXISTS {A} (rows : list A) : tv :=
  Some (match rows with [] => false | _ :: _ => true end).

(** [x IN (subquery)] over a subquery without NULLs. *)
Definition IN {A} (eqb : A -> A -> bool) (x : option A) (sub : list A) : tv :=
  match x with
  | Some a => Some (existsb (eqb a) sub)
  | None => match sub with [] => Some false | _ :: _ => None end
  end.

(** SUM skips NULL inputs and is NULL when no input is left. *)
Definition SUM (xs : list (option Z)) : option Z :=
  fold_left
    (fun acc x =>
       match x with
       | None => acc
       | Some v => Some (match acc with None => v | Some a => a + v end)
       end)
    xs None.

Definition COALESCE {A} (x : option A) (d : A) : A :=
  match x with Some v => v | None => d end.

(** The type [integer]: 32 bits, signed. *)
Definition int4 (z : Z) : bool :=
  (-2147483648 <=? z) && (z <=? 2147483647).

(** The cast of a number to [integer].  [None] is not NULL here: it is the
    error "integer out of range", on which the statement ends. *)
Definition to_integer (z : Z) : option Z :=
  if int4 z then Some z else None.

End Sql.

(** ** Schema *)

Definition uuid := string.
Definition timestamptz := string.

Module Profile.

(** [user_type text CHECK (user_type IN ('student', 'faculty'))]. *)
Inductive user_type_t := student | faculty.

Definition user_type_eqb (a b : user_type_t) : bool :=
  match a, b with
  | student, student | faculty, faculty => true
  | _, _ => false
  end.

(** The [privacy_settings] JSON document, with the three boolean keys of
    the column default
    [{"profile_visible": true, "skills_visible": true, "contact_visible": false}]. *)
Record privacy := {
  profile_visible : bool;
  skills_visible : bool;
  contact_visible : bool
}.

Record row := {
  id : uuid;
  user_id : uuid;
  full_name : string;
  email : string;
  user_type : user_type_t;
  department : option string;
  college : option string;
  year_of_study : option Z;
  bio : option string;
  privacy_settings : option privacy   (* the column is nullable *)
}.

(** [privacy_settings -> key], a JSON boolean or NULL. *)
Definition json_get (key : privacy -> bool) (p : row) : option bool :=
  option_map key (privacy_settings p).

(** [privacy_settings ->> key], the text of the JSON value or NULL. *)
Definition json_get_text (key : privacy -> bool) (p : row) : option string :=
  option_map (fun b : bool => if b then "true" else "false") (json_get key p).

End Profile.

Module StudentSkill.

(** A [student_skills] row with its [skills] row embedded, as the
    directory query selects it:
    [student_skills(skills(name, category), proficiency_level)]. *)
Record skills_row := { name : string; category : option string }.

Record row := {
  student_id : uuid;
  skills : option skills_row;
  proficiency_level : string
}.

End StudentSkill.

Module Document.

(** [status text CHECK (status IN ('pending', 'approved', 'rejected'))]. *)
Inductive status_t := pending | approved | rejected.

Definition status_eqb (a b : status_t) : bool :=
  match a, b with
  | pending, pending | approved, approved | rejected, rejected => true
  | _, _ => false
  end.

Record row := {
  id : uuid;
  student_id : uuid;
  title : string;
  description : option string;
  file_url : string;
  file_type : string;
  file_size : option Z;
  status : status_t;
  uploaded_at : timestamptz;
  approved_by : option uuid;
  approved_at : option timestamptz;
  rejection_reason : option string;
  points_awarded : option Z        (* integer DEFAULT 0, nullable, no CHECK *)
}.

End Document.

Module CollaborationRequest.

(** [status text CHECK (status IN ('pending', 'accepted', 'declined'))]. *)
Inductive status_t := pending | accepted | declined.

Definition status_eqb (a b : status_t) : bool :=
  match a, b with
  | pending, pending | accepted, accepted | declined, declined => true
  | _, _ => false
  end.

(** The CHECK constraint, as a partial reading of the text written. *)
Definition status_of_text (s : string) : option status_t :=
  if String.eqb s "pending" then Some pending
  else if String.eqb s "accepted" then Some accepted
  else if String.eqb s "declined" then Some declined
  else None.

Record row := {
  id : uuid;
  requester_id : uuid;
  requested_id : uuid;
  project_title : string;
  project_description : option string;
  skills_needed : list string;
  status : status_t;
  created_at : timestamptz;
  updated_at : timestamptz
}.

End CollaborationRequest.

(** The database: one list of rows per table, in iteration order. *)
Record Db := {
  profiles : list Profile.row;
  student_skills : list StudentSkill.row;
  documents : list Document.row;
  collaboration_requests : list CollaborationRequest.row
}.

(** ** Row level security

    Every policy is PERMISSIVE: a row passes a command when one of the
    command's policies is TRUE on it.  [auth_uid] is [auth.uid()], NULL for
    a request without a session. *)

Module Rls.
Section Policies.

Variable db : Db.
Variable auth_uid : option uuid.

(** [SELECT id FROM profiles WHERE user_id = auth.uid()] *)
Definition own_profile_ids : list uuid :=
  map Profile.id
    (Sql.select_where
       (fun p => Sql.EQ String.eqb (Some (Profile.user_id p)) auth_uid)
       (profiles db)).

(** [EXISTS (SELECT 1 FROM profiles WHERE user_id = auth.uid()
    AND user_type = 'faculty')] *)
Definition is_faculty : Sql.tv :=
  Sql.EXISTS
    (Sql.select_where
       (fun p =>
          Sql.AND (Sql.EQ String.eqb (Some (Profile.user_id p)) auth_uid)
                  (Sql.EQ Profile.user_type_eqb
                     (Some (Profile.user_type p)) (Some Profile.faculty)))
       (profiles db)).

(** "Users can view their own profile": [auth.uid() = user_id]. *)
Definition users_can_view_their_own_profile (p : Profile.row) : Sql.tv :=
  Sql.EQ String.eqb auth_uid (Some (Profile.user_id p)).

(** "Users can view limited public profile data":
    [privacy_settings->>'profile_visible' = 'true'
     AND auth.uid() IS NOT NULL AND auth.uid() != user_id]. *)
Definition users_can_view_limited_public_profile_data
    (p : Profile.row) : Sql.tv :=
  Sql.AND
    (Sql.AND
       (Sql.EQ String.eqb
          (Profile.json_get_text Profile.profile_visible p) (Some "true"))
       (Sql.IS_NOT_NULL auth_uid))
    (Sql.NEQ String.eqb auth_uid (Some (Profile.user_id p))).

Definition profiles_select (p : Profile.row) : bool :=
  Sql.holds (users_can_view_their_own_profile p)
  || Sql.holds (users_can_view_limited_public_profile_data p).

(** "Students can view their own skills". *)
Definition students_can_view_their_own_skills
    (ss : StudentSkill.row) : Sql.tv :=
  Sql.EXISTS
    (Sql.select_where
       (fun p =>
          Sql.AND
            (Sql.EQ String.eqb (Some (Profile.id p))
               (Some (StudentSkill.student_id ss)))
            (Sql.EQ String.eqb (Some (Profile.user_id p)) auth_uid))
       (profiles db)).

(** A sub-select inside a policy runs with the rights of the caller: on
    [profiles] it reads the rows that pass the SELECT policies of
    [profiles].  The sub-selects that ask for [user_id = auth.uid()] read
    rows of the caller only, which always pass, and are written on
    [profiles db]. *)
Definition readable_profiles : list Profile.row :=
  filter profiles_select (profiles db).

(** "Others can view skills if privacy allows":
    [auth.uid() IS NOT NULL
     AND EXISTS (SELECT 1 FROM profiles
                 WHERE profiles.id = student_skills.student_id
                 AND profiles.privacy_settings->>'skills_visible' = 'true')]. *)
Definition others_can_view_skills_if_privacy_allows
    (ss : StudentSkill.row) : Sql.tv :=
  Sql.AND
    (Sql.IS_NOT_NULL auth_uid)
    (Sql.EXISTS
       (Sql.select_where
          (fun p =>
             Sql.AND
               (Sql.EQ String.eqb (Some (Profile.id p))
                  (Some (StudentSkill.student_id ss)))
               (Sql.EQ String.eqb
                  (Profile.json_get_text Profile.skills_visible p)
                  (Some "true")))
          readable_profiles)).

Definition student_skills_select (ss : StudentSkill.row) : bool :=
  Sql.holds (students_can_view_their_own_skills ss)
  || Sql.holds (others_can_view_skills_if_privacy_allows ss).

(** "Users can view their own documents": the owner, or any faculty. *)
Definition documents_select (d : Document.row) : bool :=
  Sql.holds
    (Sql.AND
       (Sql.IS_NOT_NULL auth_uid)
       (Sql.OR
          (Sql.IN String.eqb (Some (Document.student_id d)) own_profile_ids)
          is_faculty)).

(** "Users can upload documents" (WITH CHECK on the new row). *)
Definition documents_insert (d : Document.row) : bool :=
  Sql.holds
    (Sql.AND
       (Sql.IS_NOT_NULL auth_uid)
       (Sql.IN String.eqb (Some (Document.student_id d)) own_profile_ids)).

(** "Faculty can update documents": the only condition on an UPDATE of
    [documents]; it does not read the row. *)
Definition documents_update (d : Document.row) : bool :=
  Sql.holds (Sql.AND (Sql.IS_NOT_NULL auth_uid) is_faculty).

(** "Users can update their received requests":
    [EXISTS (SELECT 1 FROM profiles
             WHERE id = collaboration_requests.requested_id
             AND user_id = auth.uid())]. *)
Definition collaboration_requests_update
    (r : CollaborationRequest.row) : bool :=
  Sql.holds
    (Sql.EXISTS
       (Sql.select_where
          (fun p =>
             Sql.AND
               (Sql.EQ String.eqb (Some (Profile.id p))
                  (Some (CollaborationRequest.requested_id r)))
               (Sql.EQ String.eqb (Some (Profile.user_id p)) auth_uid))
          (profiles db))).

End Policies.
End Rls.

(** ** Score aggregation *)

(** [get_student_achievement_points(student_profile_id uuid)], a SECURITY
    DEFINER function: it reads [documents] without row level security.

    [SELECT COALESCE(SUM(points_awarded), 0) FROM documents
     WHERE student_id = student_profile_id AND status = 'approved'
     AND points_awarded > 0]

    [SUM] over an [integer] column is a [bigint]; the function RETURNS
    [integer], so its result is the sum cast to [integer], and the call
    ends in the error "integer out of range" ([None]) when the sum does
    not fit. *)
Definition get_student_achievement_points
    (db : Db) (student_profile_id : uuid) : option Z :=
  Sql.to_integer (Sql.COALESCE
    (Sql.SUM
       (map Document.points_awarded
          (Sql.select_where
             (fun d =>
                Sql.AND
                  (Sql.AND
                     (Sql.EQ String.eqb (Some (Document.student_id d))
                        (Some student_profile_id))
                     (Sql.EQ Document.status_eqb (Some (Document.status d))
                        (Some Document.approved)))
                  (Sql.GT (Document.points_awarded d) (Some 0)))
             (documents db))))
    0).

(** The total as the specification words it: the sum of [pointsAwarded]
    over the documents of the student that are approved and carry more than
    zero points. *)
Definition pointsAwarded (d : Document.row) : Z :=
  match Document.points_awarded d with Some p => p | None => 0 end.

Definition counts_for (student : uuid) (d : Document.row) : bool :=
  String.eqb (Document.student_id d) student
  && Document.status_eqb (Document.status d) Document.approved
  && (0 <? pointsAwarded d).

Definition totalScore_spec (docs : list Document.row) (student : uuid) : Z :=
  fold_right Z.add 0 (map pointsAwarded (filter (counts_for student) docs)).

(** ** JavaScript numbers *)

(** A JavaScript number is an IEEE 754 double.  [number_of_int z] is the
    double of the integer [z]: [z] itself when it has at most 53 bits. *)
Definition number_of_int (z : Z) : float :=
  FloatOps.SF2Prim
    (SpecFloat.binary_normalize FloatOps.prec FloatOps.emax z 0 false).

(** The value of a finite double, as a rational. *)
Definition Q_of_number (x : float) : option Q :=
  match FloatOps.Prim2SF x with
  | SpecFloat.S754_zero _ => Some 0%Q
  | SpecFloat.S754_finite negative m e =>
      Some (inject_Z (if negative then Z.neg m else Z.pos m) * Qpower 2 e)%Q
  | _ => None
  end.

(** ** AnalyticsDashboard.tsx *)

Module AnalyticsDashboard.

Inductive level_t := Newcomer | Beginner | Intermediate | Advanced | Expert.

Record points_level := {
  level : level_t;
  color : string;
  progress : float
}.

(** [getPointsLevel(points)].  [points] is the integer total returned by
    the RPC, or the 0 the state starts with: an integer of at most 31
    bits, which a JavaScript number holds exactly, so the [>=] tests are
    tests on the integer.  [/] and [*] are the operations of doubles. *)
Definition getPointsLevel (points : Z) : points_level :=
  if points >=? 1000 then
    {| level := Expert; color := "text-purple-600"; progress := 100%float |}
  else if points >=? 500 then
    {| level := Advanced; color := "text-blue-600";
       progress := ((number_of_int points / 1000) * 100)%float |}
  else if points >=? 200 then
    {| level := Intermediate; color := "text-green-600";
       progress := ((number_of_int points / 500) * 100)%float |}
  else if points >=? 50 then
    {| level := Beginner; color := "text-yellow-600";
       progress := ((number_of_int points / 200) * 100)%float |}
  else
    {| level := Newcomer; color := "text-gray-600";
       progress := ((number_of_int points / 50) * 100)%float |}.

(** The bands of the specification: lower bound inclusive, upper bound
    exclusive; [None] is the open end of Expert. *)
Definition band_lower (l : level_t) : Z :=
  match l with
  | Newcomer => 0 | Beginner => 50 | Intermediate => 200
  | Advanced => 500 | Expert => 1000
  end.

Definition band_upper (l : level_t) : option Z :=
  match l with
  | Newcomer => Some 50 | Beginner => Some 200 | Intermediate => Some 500
  | Advanced => Some 1000 | Expert => None
  end.

Definition in_band (l : level_t) (score : Z) : Prop :=
  band_lower l <= score /\
  match band_upper l with Some u => score < u | None => True end.

(** How far the double is from the exact quotient: the check of one total,
    and the check of every total below 1000. *)
Definition close_to_quotient (s upper : Z) : bool :=
  match Q_of_number
          (number_of_int s / number_of_int upper * number_of_int 100)%float
  with
  | Some q =>
      Qle_bool (Qabs (q - inject_Z s / inject_Z upper * 100))
        (1 # 70368744177664)
  | None => false
  end.

Definition close_in_band (s : Z) : bool :=
  forallb
    (fun l =>
       match band_upper l with
       | Some upper =>
           negb ((band_lower l <=? s) && (s <? upper))
           || close_to_quotient s upper
       | None => true
       end)
    [Newcomer; Beginner; Intermediate; Advanced; Expert].

End AnalyticsDashboard.

(** ** JavaScript values and array operations *)

Module Js.

(** [x || 0] for [x] a number or [null]: the falsy numbers are [0] (and
    NaN, which no integer column holds). *)
Definition or0 (x : option Z) : Z :=
  match x with
  | Some v => if v =? 0 then 0 else v
  | None => 0
  end.

(** [s.includes(sub)]. *)
Fixpoint includes (s sub : string) : bool :=
  String.prefix sub s
  || match s with
     | EmptyString => false
     | String _ s' => includes s' sub
     end.

(** What [s.includes(sub)] decides: [sub] occurs in [s]. *)
Definition occurs_in (sub s : string) : Prop :=
  exists before after : string, s = (before ++ sub ++ after)%string.

(** A non-empty string is truthy. *)
Definition truthy_string (s : string) : bool :=
  negb (String.eqb s "").

Section ArraySort.

Variable A : Type.
Variable comparefn : A -> A -> Z.

(** [Array.prototype.sort(comparefn)]: the sort is stable, so for a
    consistent comparator its result is fixed by the language: the elements
    in comparator order, elements that compare equal in their order of
    arrival ([sort_unique] proves that one list only has these properties).
    Insertion from the right, before the first element that does not come
    before the new one, computes that list. *)
Fixpoint insert (x : A) (l : list A) : list A :=
  match l with
  | [] => [x]
  | y :: l' => if comparefn x y <=? 0 then x :: l else y :: insert x l'
  end.

Definition sort (l : list A) : list A := fold_right insert [] l.

(** [a] may stand before [b]; and the two are tied when each may stand
    before the other. *)
Definition before (a b : A) : Prop := comparefn a b <= 0.

Definition tied (a b : A) : bool :=
  (comparefn a b <=? 0) && (comparefn b a <=? 0).

End ArraySort.

Arguments insert {A} comparefn x l.
Arguments sort {A} comparefn l.
Arguments before {A} comparefn a b.
Arguments tied {A} comparefn a b.

End Js.

(** ** StudentSearch.tsx: the student directory *)

Module StudentSearch.

Record skill := {
  skill_name : string;
  proficiency_level : string;
  category : string
}.

Record Student := {
  id : uuid;
  full_name : string;
  email : string;
  department : option string;
  college : option string;
  year_of_study : option Z;
  bio : option string;
  achievement_points : Z;
  skills : list skill
}.

Section FetchStudents.

Variable db : Db.
Variable auth_uid : option uuid.

(** The profile query:
    [from('profiles').select(...).eq('user_type', 'student')
       .eq('privacy_settings->profile_visible', 'true')],
    answered under the SELECT policies of [profiles]. *)
Definition data : list Profile.row :=
  filter (Rls.profiles_select auth_uid)
    (Sql.select_where
       (fun p =>
          Sql.AND
            (Sql.EQ Profile.user_type_eqb (Some (Profile.user_type p))
               (Some Profile.student))
            (Sql.EQ Bool.eqb (Profile.json_get Profile.profile_visible p)
               (Some true)))
       (profiles db)).

(** The embedded [student_skills(...)] of one profile, under the SELECT
    policies of [student_skills]. *)
Definition embedded_student_skills (student : Profile.row)
  : list StudentSkill.row :=
  filter
    (fun ss =>
       String.eqb (StudentSkill.student_id ss) (Profile.id student)
       && Rls.student_skills_select db auth_uid ss)
    (student_skills db).

(** [from('documents').select('points_awarded')
      .eq('student_id', student.id).eq('status', 'approved')],
    answered under the SELECT policies of [documents]. *)
Definition pointsData (student : Profile.row) : list (option Z) :=
  map Document.points_awarded
    (filter (Rls.documents_select db auth_uid)
       (Sql.select_where
          (fun d =>
             Sql.AND
               (Sql.EQ String.eqb (Some (Document.student_id d))
                  (Some (Profile.id student)))
               (Sql.EQ Document.status_eqb (Some (Document.status d))
                  (Some Document.approved)))
          (documents db))).

(** [pointsData?.reduce((sum, doc) => sum + (doc.points_awarded || 0), 0) || 0] *)
Definition totalPoints (student : Profile.row) : Z :=
  Js.or0
    (Some (fold_left (fun sum points_awarded => sum + Js.or0 points_awarded)
             (pointsData student) 0)).

Definition studentWithPoints (student : Profile.row) : Student :=
  {| id := Profile.id student;
     full_name := Profile.full_name student;
     email := Profile.email student;
     department := Profile.department student;
     college := Profile.college student;
     year_of_study := Profile.year_of_study student;
     bio := Profile.bio student;
     achievement_points := totalPoints student;
     skills :=
       map (fun ss =>
              {| skill_name :=
                   match StudentSkill.skills ss with
                   | Some sk => StudentSkill.name sk
                   | None => ""
                   end;
                 proficiency_level := StudentSkill.proficiency_level ss;
                 category :=
                   match StudentSkill.skills ss with
                   | Some {| StudentSkill.category := Some c |} => c
                   | _ => ""
                   end |})
           (embedded_student_skills student) |}.

(** [fetchStudents]: the list put in the [students] state when the queries
    answer. *)
Definition fetchStudents : list Student := map studentWithPoints data.

End FetchStudents.

Section FilterStudents.

(** [String.prototype.toLowerCase] and [String.prototype.localeCompare]
    belong to the JavaScript engine and its locale data. *)
Variable toLowerCase : string -> string.
Variable localeCompare : string -> string -> Z.

Definition matches_searchTerm (searchTerm : string) (student : Student) : bool :=
  Js.includes (toLowerCase (full_name student)) (toLowerCase searchTerm)
  || Js.includes (toLowerCase (email student)) (toLowerCase searchTerm)
  || match bio student with
     | Some b => Js.includes (toLowerCase b) (toLowerCase searchTerm)
     | None => false
     end
  || existsb
       (fun skill =>
          Js.includes (toLowerCase (skill_name skill)) (toLowerCase searchTerm))
       (skills student).

(** [student.department === selectedDepartment], a missing department
    being equal to no selection. *)
Definition strict_equal (field : option string) (selected : string) : bool :=
  match field with
  | Some v => String.eqb v selected
  | None => false
  end.

(** The comparator handed to [filtered.sort]. *)
Definition comparefn (a b : Student) : Z :=
  if negb (achievement_points b =? achievement_points a) then
    Js.or0 (Some (achievement_points b)) - Js.or0 (Some (achievement_points a))
  else localeCompare (full_name a) (full_name b).

(** [filterStudents], on the [students] state and the four filter states;
    the result is what [setFilteredStudents] receives. *)
Definition filterStudents
    (students : list Student)
    (searchTerm selectedDepartment selectedCollege selectedSkill : string)
  : list Student :=
  let filtered := students in
  let filtered :=
    if Js.truthy_string searchTerm
    then filter (matches_searchTerm searchTerm) filtered
    else filtered in
  let filtered :=
    if negb (String.eqb selectedDepartment "all")
    then filter (fun student => strict_equal (department student) selectedDepartment)
           filtered
    else filtered in
  let filtered :=
    if negb (String.eqb selectedCollege "all")
    then filter (fun student => strict_equal (college student) selectedCollege)
           filtered
    else filtered in
  let filtered :=
    if negb (String.eqb selectedSkill "all")
    then filter
           (fun student =>
              existsb (fun skill => String.eqb (skill_name skill) selectedSkill)
                (skills student))
           filtered
    else filtered in
  Js.sort comparefn filtered.

(** The four filters as one test. *)
Definition kept
    (searchTerm selectedDepartment selectedCollege selectedSkill : string)
    (student : Student) : bool :=
  (if Js.truthy_string searchTerm
   then matches_searchTerm searchTerm student else true)
  && (if negb (String.eqb selectedDepartment "all")
      then strict_equal (department student) selectedDepartment else true)
  && (if negb (String.eqb selectedCollege "all")
      then strict_equal (college student) selectedCollege else true)
  && (if negb (String.eqb selectedSkill "all")
      then existsb (fun skill => String.eqb (skill_name skill) selectedSkill)
             (skills student)
      else true).

End FilterStudents.

End StudentSearch.

(** ** DocumentApproval.tsx: the review of documents *)

Definition set_documents (db : Db) (docs : list Document.row) : Db :=
  {| profiles := profiles db;
     student_skills := student_skills db;
     documents := docs;
     collaboration_requests := collaboration_requests db |}.

Definition set_collaboration_requests
    (db : Db) (reqs : list CollaborationRequest.row) : Db :=
  {| profiles := profiles db;
     student_skills := student_skills db;
     documents := documents db;
     collaboration_requests := reqs |}.

Module DocumentApproval.

(** The toast a call of [handleApproval] ends with.  The description of
    "Document approved" names the points when [points] is truthy. *)
Inductive toast :=
| Document_approved (with_points : option Z)
| Document_rejected
| Error_processing_document (message : string).

(** The number [parseInt] returns. *)
Inductive number := NaN | Num (z : Z).

Section Handlers.

Variable db : Db.
Variable auth_uid : option uuid.

(** [fetchFacultyProfile]:
    [from('profiles').select('id, user_type').eq('user_id', user?.id).single()];
    [single] is an error unless exactly one row comes back, and the state
    stays [null] on an error. *)
Definition fetchFacultyProfile : option Profile.row :=
  match
    filter (Rls.profiles_select auth_uid)
      (Sql.select_where
         (fun p => Sql.EQ String.eqb (Some (Profile.user_id p)) auth_uid)
         (profiles db))
  with
  | [p] => Some p
  | _ => None
  end.

(** The order of two instants, as the database compares them. *)
Variable timestamptz_compare : timestamptz -> timestamptz -> Z.

(** [ORDER BY uploaded_at ASC]: earlier instants first.  The database
    fixes no order among rows of the same instant; they are left in table
    order here, and no statement on the list depends on it. *)
Definition uploaded_at_asc (a b : Document.row) : Z :=
  timestamptz_compare (Document.uploaded_at a) (Document.uploaded_at b).

(** [fetchPendingDocuments]:
    [from('documents').select(...).eq('status', 'pending')
       .order('uploaded_at', { ascending: true })]. *)
Definition fetchPendingDocuments : list Document.row :=
  Js.sort uploaded_at_asc
    (filter (Rls.documents_select db auth_uid)
       (Sql.select_where
          (fun d =>
             Sql.EQ Document.status_eqb (Some (Document.status d))
               (Some Document.pending))
          (documents db))).

(** The object handed to [update]: [status], [approved_by] and
    [approved_at] always, [rejection_reason] when [reason] is truthy,
    [points_awarded] when [approved && points] is truthy. *)
Definition updated_row
    (facultyProfile_id : uuid) (now : timestamptz)
    (approved : bool) (reason : option string) (points : option Z)
    (d : Document.row) : Document.row :=
  {| Document.id := Document.id d;
     Document.student_id := Document.student_id d;
     Document.title := Document.title d;
     Document.description := Document.description d;
     Document.file_url := Document.file_url d;
     Document.file_type := Document.file_type d;
     Document.file_size := Document.file_size d;
     Document.status :=
       if approved then Document.approved else Document.rejected;
     Document.uploaded_at := Document.uploaded_at d;
     Document.approved_by := Some facultyProfile_id;
     Document.approved_at := Some now;
     Document.rejection_reason :=
       match reason with
       | Some r => if Js.truthy_string r then Some r
                   else Document.rejection_reason d
       | None => Document.rejection_reason d
       end;
     Document.points_awarded :=
       match points with
       | Some p => if approved && negb (p =? 0) then Some p
                   else Document.points_awarded d
       | None => Document.points_awarded d
       end |}.

(** The rows [update(...).eq('id', documentId)] writes: those with the id
    that pass the UPDATE policy (whoever passes it is faculty and passes
    the SELECT policy too).  No other condition is sent. *)
Definition update_target (documentId : uuid) (d : Document.row) : bool :=
  String.eqb (Document.id d) documentId && Rls.documents_update db auth_uid d.

(** The [points_awarded] of the update object, when it has one, and
    whether the column [points_awarded integer] can hold it. *)
Definition sent_points (approved : bool) (points : option Z) : option Z :=
  match points with
  | Some p => if approved && negb (p =? 0) then Some p else None
  | None => None
  end.

Definition points_fit (approved : bool) (points : option Z) : bool :=
  match sent_points approved points with
  | Some p => Sql.int4 p
  | None => true
  end.

(** [handleApproval(documentId, approved, reason?, points?)], with the
    [facultyProfile] state and the clock as arguments.  The errors of the
    statement are taken on the rows it writes: a [points_awarded] that the
    [integer] column cannot hold, and, [approved_by] being a reference to
    [profiles(id)], an unknown profile id.  On an error nothing is written
    and the toast shows the message. *)
Definition handleApproval
    (facultyProfile : option Profile.row) (now : timestamptz)
    (documentId : uuid) (approved : bool)
    (reason : option string) (points : option Z) : Db * toast :=
  match facultyProfile with
  | None =>
      (db, Error_processing_document
             "Faculty profile not found. Please refresh the page.")
  | Some fp =>
      if negb (Js.truthy_string (Profile.id fp)) then
        (db, Error_processing_document
               "Faculty profile not found. Please refresh the page.")
      else if existsb (update_target documentId) (documents db)
              && negb (points_fit approved points)
      then
        (db, Error_processing_document "out of range for type integer")
      else if existsb (update_target documentId) (documents db)
              && negb (existsb (fun p => String.eqb (Profile.id p) (Profile.id fp))
                         (profiles db))
      then
        (db, Error_processing_document
               "violates foreign key constraint documents_approved_by_fkey")
      else
        (set_documents db
           (map (fun d =>
                   if update_target documentId d
                   then updated_row (Profile.id fp) now approved reason points d
                   else d)
              (documents db)),
         if approved
         then Document_approved
                match points with
                | Some p => if p =? 0 then None else Some p
                | None => None
                end
         else Document_rejected)
  end.

(** The approve form: [points = parseInt(formData.get('points')) || 0],
    then [handleApproval(doc.id, true, undefined, points)]. *)
Definition approve_onSubmit
    (facultyProfile : option Profile.row) (now : timestamptz)
    (doc : Document.row) (parsed : number) : Db * toast :=
  let points :=
    match parsed with
    | NaN => 0
    | Num z => if z =? 0 then 0 else z
    end in
  handleApproval facultyProfile now (Document.id doc) true None (Some points).

(** The [points] field of the approve form,
    [<Input name="points" type="number" min="0" max="100" />], which is
    not required.  [parseInt] belongs to the JavaScript engine, and so
    does the number that a number field reads from the text typed into it
    ([None] when the text is no number). *)
Variable parseInt : string -> number.
Variable number_of_field : string -> option Q.

Definition is_integer (x : Q) : bool :=
  (Qnum x mod Z.pos (Qden x)) =? 0.

(** Whether the browser lets the form submit with [typed] in the field.
    An empty field passes.  Other text must be a number that is not below
    [min], not above [max], and a whole number of steps (of 1, the default
    step) away from [min]. *)
Definition points_field_valid (typed : string) : bool :=
  if String.eqb typed "" then true
  else
    match number_of_field typed with
    | None => false
    | Some x => Qle_bool 0 x && Qle_bool x 100 && is_integer x
    end.

(** A submit of the approve form: when the browser refuses the field the
    submit event is not sent and nothing happens; else [onSubmit] runs on
    the text of the field. *)
Definition approve_form_submit
    (facultyProfile : option Profile.row) (now : timestamptz)
    (doc : Document.row) (typed : string) : option (Db * toast) :=
  if points_field_valid typed
  then Some (approve_onSubmit facultyProfile now doc (parseInt typed))
  else None.

(** The reject form: [handleApproval(doc.id, false, reason)]. *)
Definition reject_onSubmit
    (facultyProfile : option Profile.row) (now : timestamptz)
    (doc : Document.row) (reason : string) : Db * toast :=
  handleApproval facultyProfile now (Document.id doc) false (Some reason) None.

End Handlers.

End DocumentApproval.

(** ** CollaborationRequests.tsx *)

Module CollaborationRequests.

Inductive toast :=
| Request_updated (status : string)
| Error (message : string).

Section Handlers.

Variable db : Db.
Variable auth_uid : option uuid.

(** The rows [update({ status }).eq('id', requestId)] writes: those with
    the id that pass the UPDATE policy (whoever passes it is a party of the
    request and passes the SELECT policy too).  No other condition is
    sent. *)
Definition update_target
    (requestId : uuid) (r : CollaborationRequest.row) : bool :=
  String.eqb (CollaborationRequest.id r) requestId
  && Rls.collaboration_requests_update db auth_uid r.

(** The written row; the trigger [update_collaboration_requests_updated_at]
    stamps [updated_at]. *)
Definition updated_row
    (now : timestamptz) (status : CollaborationRequest.status_t)
    (r : CollaborationRequest.row) : CollaborationRequest.row :=
  {| CollaborationRequest.id := CollaborationRequest.id r;
     CollaborationRequest.requester_id := CollaborationRequest.requester_id r;
     CollaborationRequest.requested_id := CollaborationRequest.requested_id r;
     CollaborationRequest.project_title := CollaborationRequest.project_title r;
     CollaborationRequest.project_description :=
       CollaborationRequest.project_description r;
     CollaborationRequest.skills_needed := CollaborationRequest.skills_needed r;
     CollaborationRequest.status := status;
     CollaborationRequest.created_at := CollaborationRequest.created_at r;
     CollaborationRequest.updated_at := now |}.

(** [updateRequestStatus(requestId, status)].  An UPDATE that the policy
    leaves without rows is no error: the handler then shows the same toast
    as after a write.  The CHECK constraint on [status] is tested on the
    rows written. *)
Definition updateRequestStatus
    (now : timestamptz) (requestId : uuid) (status : string) : Db * toast :=
  if existsb (update_target requestId) (collaboration_requests db) then
    match CollaborationRequest.status_of_text status with
    | None =>
        (db, Error "violates check constraint collaboration_requests_status_check")
    | Some st =>
        (set_collaboration_requests db
           (map (fun r =>
                   if update_target requestId r then updated_row now st r else r)
              (collaboration_requests db)),
         Request_updated status)
    end
  else (db, Request_updated status).

End Handlers.

(** The Accept and Decline buttons of a request card are rendered when
    [!isRequestedByMe && request.status === 'pending'], with
    [isRequestedByMe = request.requester_profile?.id === profile?.id]. *)
Definition isRequestedByMe
    (profile : Profile.row) (requester_profile : option Profile.row) : bool :=
  match requester_profile with
  | Some rp => String.eqb (Profile.id rp) (Profile.id profile)
  | None => false
  end.

Definition respond_buttons_rendered
    (profile : Profile.row) (requester_profile : option Profile.row)
    (request : CollaborationRequest.row) : bool :=
  negb (isRequestedByMe profile requester_profile)
  && CollaborationRequest.status_eqb (CollaborationRequest.status request)
       CollaborationRequest.pending.

End CollaborationRequests.

(** ** DocumentUpload.tsx: uploading a document *)

Module DocumentUpload.

Record File := {
  name : string;
  type : string;
  size : Z
}.

(** The object name [`${user?.id}/${Date.now()}.${fileExt}`], kept as its
    three parts. *)
Record object_name := {
  folder : string;
  stamp : Z;
  ext : string
}.

Definition object_name_eqb (a b : object_name) : bool :=
  String.eqb (folder a) (folder b)
  && (stamp a =? stamp b)
  && String.eqb (ext a) (ext b).

(** The bucket [documents] and the database. *)
Record World := {
  db : Db;
  storage : list (object_name * File)
}.

(** What the backend answers beyond what the state decides: the error, if
    any, of the upload, of the insert and of the removal. *)
Record backend := {
  upload_error : option string;
  insert_error : option string;
  remove_error : option string
}.

Inductive toast :=
| Profile_not_found
| No_file_selected
| Document_uploaded
| Upload_failed (message : string).

(** What the handler does, in program order. *)
Inductive event :=
| storage_upload (fileName : object_name) (error : option string)
| db_insert (error : option string)
| storage_remove (fileName : object_name) (error : option string)
| toast_shown (t : toast)
| form_reset
| fetchDocuments.

(** [file.name.split('.').pop()]. *)
Fixpoint last_segment (acc s : string) : string :=
  match s with
  | EmptyString => acc
  | String c s' =>
      if Ascii.eqb c "."%char then last_segment "" s'
      else last_segment (acc ++ String c "") s'
  end.

Definition fileExt (file : File) : string := last_segment "" (name file).

Definition has_object (fileName : object_name) (w : World) : bool :=
  existsb (fun o => object_name_eqb (fst o) fileName) (storage w).

Section Handler.

Variable getPublicUrl : object_name -> string.
Variable be : backend.

(** [storage.from('documents').upload(fileName, file, { upsert: false })]:
    refused without a session (the INSERT policy wants the folder to be
    [auth.uid()]) and when the name is taken. *)
Definition upload (user : option uuid) (fileName : object_name) (file : File)
    (w : World) : World * option string :=
  match user with
  | None => (w, Some "new row violates row-level security policy")
  | Some _ =>
      if has_object fileName w then (w, Some "The resource already exists")
      else
        match upload_error be with
        | Some e => (w, Some e)
        | None =>
            ({| db := db w; storage := storage w ++ [(fileName, file)] |}, None)
        end
  end.

(** [from('documents').insert(documentData)]: the columns not given take
    their defaults ([status] pending, [points_awarded] 0, [uploaded_at]
    now, a fresh [id]). *)
Definition insert (user : option uuid) (documentData : Document.row)
    (w : World) : World * option string :=
  if negb (Rls.documents_insert (db w) user documentData) then
    (w, Some "new row violates row-level security policy")
  else
    match insert_error be with
    | Some e => (w, Some e)
    | None =>
        ({| db := set_documents (db w) (documents (db w) ++ [documentData]);
            storage := storage w |}, None)
    end.

(** [storage.from('documents').remove([fileName])]. *)
Definition remove (fileName : object_name) (w : World)
  : World * option string :=
  match remove_error be with
  | Some e => (w, Some e)
  | None =>
      ({| db := db w;
          storage :=
            filter (fun o => negb (object_name_eqb (fst o) fileName))
              (storage w) |}, None)
  end.

(** [handleFileUpload], with the [profile] prop, the session user, the
    form fields and the clock as arguments. *)
Definition handleFileUpload
    (profile : option Profile.row) (user : option uuid)
    (file : option File) (title description : string)
    (Date_now : Z) (now : timestamptz) (new_id : uuid)
    (w : World) : World * list event :=
  match profile with
  | None => (w, [toast_shown Profile_not_found])
  | Some profile =>
      match file with
      | None => (w, [toast_shown No_file_selected])
      | Some file =>
          let fileName :=
            {| folder := match user with Some u => u | None => "undefined" end;
               stamp := Date_now;
               ext := fileExt file |} in
          match upload user fileName file w with
          | (w1, Some uploadError) =>
              (w1, [storage_upload fileName (Some uploadError);
                    toast_shown (Upload_failed uploadError)])
          | (w1, None) =>
              let documentData :=
                {| Document.id := new_id;
                   Document.student_id := Profile.id profile;
                   Document.title := title;
                   Document.description := Some description;
                   Document.file_url := getPublicUrl fileName;
                   Document.file_type := type file;
                   Document.file_size := Some (size file);
                   Document.status := Document.pending;
                   Document.uploaded_at := now;
                   Document.approved_by := None;
                   Document.approved_at := None;
                   Document.rejection_reason := None;
                   Document.points_awarded := Some 0 |} in
              match insert user documentData w1 with
              | (w2, Some dbError) =>
                  (* If DB insert fails, try to clean up the uploaded file *)
                  let (w3, removed) := remove fileName w2 in
                  (w3, [storage_upload fileName None;
                        db_insert (Some dbError);
                        storage_remove fileName removed;
                        toast_shown (Upload_failed dbError)])
              | (w2, None) =>
                  (w2, [storage_upload fileName None;
                        db_insert None;
                        toast_shown Document_uploaded;
                        form_reset;
                        fetchDocuments])
              end
          end
      end
  end.

End Handler.

End DocumentUpload.

(** ** StudentSearch.tsx: the filter menus and the state behind them *)

Module FilterOptions.

(** [[...new Set(xs)]]: the values of [xs], each once, in the order of
    their first occurrence. *)
Fixpoint Set_values (seen xs : list string) : list string :=
  match xs with
  | [] => []
  | x :: xs' =>
      if existsb (String.eqb x) seen then Set_values seen xs'
      else x :: Set_values (x :: seen) xs'
  end.

Definition spread_Set (xs : list string) : list string := Set_values [] xs.

(** [xs.filter(Boolean)] on strings and [null]: [null] and the empty
    string go. *)
Definition filter_Boolean (xs : list (option string)) : list string :=
  flat_map
    (fun x =>
       match x with
       | Some s => if Js.truthy_string s then [s] else []
       | None => []
       end)
    xs.

(** The three menus [fetchStudents] builds from [studentsWithPoints]. *)
Definition uniqueDepartments
    (studentsWithPoints : list StudentSearch.Student) : list string :=
  spread_Set (filter_Boolean (map StudentSearch.department studentsWithPoints)).

Definition uniqueColleges
    (studentsWithPoints : list StudentSearch.Student) : list string :=
  spread_Set (filter_Boolean (map StudentSearch.college studentsWithPoints)).

Definition uniqueSkills
    (studentsWithPoints : list StudentSearch.Student) : list string :=
  spread_Set
    (flat_map
       (fun s =>
          filter Js.truthy_string
            (map StudentSearch.skill_name (StudentSearch.skills s)))
       studentsWithPoints).

Section Effect.

Variable toLowerCase : string -> string.
Variable localeCompare : string -> string -> Z.

(** One run of [filterStudents] as the effect on the two states.
    [filtered] starts as the [students] array itself and is replaced by a
    new array by every filter that is active; [filtered.sort] sorts in
    place, so with no active filter it is the [students] array that is
    sorted.  The result is the pair of [students] after the run and of the
    list given to [setFilteredStudents]. *)
Definition filterStudents_effect
    (students : list StudentSearch.Student)
    (searchTerm selectedDepartment selectedCollege selectedSkill : string)
  : list StudentSearch.Student * list StudentSearch.Student :=
  let shown :=
    StudentSearch.filterStudents toLowerCase localeCompare students
      searchTerm selectedDepartment selectedCollege selectedSkill in
  let some_filter_active :=
    Js.truthy_string searchTerm
    || negb (String.eqb selectedDepartment "all")
    || negb (String.eqb selectedCollege "all")
    || negb (String.eqb selectedSkill "all") in
  (if some_filter_active then students else shown, shown).

End Effect.

End FilterOptions.

(** ** PlacementDashboard.tsx: the directory of the placement portal *)

Module PlacementDashboard.

Record skill := {
  skill_name : string;
  proficiency_level : string;
  category : option string
}.

Record Student := {
  id : uuid;
  full_name : string;
  email : string;
  department : option string;
  college : option string;
  year_of_study : option Z;
  bio : option string;
  achievement_points : Z;
  skills : list skill
}.

(** [xs.map(f)] for an [f] that may throw: the first exception ends the
    whole map. *)
Fixpoint map_or_throw {A B} (f : A -> option B) (xs : list A)
  : option (list B) :=
  match xs with
  | [] => Some []
  | x :: xs' =>
      match f x with
      | None => None
      | Some y =>
          match map_or_throw f xs' with
          | None => None
          | Some ys => Some (y :: ys)
          end
      end
  end.

Section FetchStudents.

Variable db : Db.
Variable auth_uid : option uuid.

(** The same profile query as in StudentSearch.tsx. *)
Definition studentsData : list Profile.row := StudentSearch.data db auth_uid.

(** [ss.skills.name] and [ss.skills.category] throw when the embedded
    [skills] row is [null]. *)
Definition skill_of (ss : StudentSkill.row) : option skill :=
  match StudentSkill.skills ss with
  | None => None
  | Some sk =>
      Some {| skill_name := StudentSkill.name sk;
              proficiency_level := StudentSkill.proficiency_level ss;
              category := StudentSkill.category sk |}
  end.

(** One student with the points of the RPC:
    [rpc('get_student_achievement_points', { student_profile_id: student.id })]
    and [achievement_points: pointsData || 0]; the error of the call is not
    read, and [pointsData] is [null] when the call has failed. *)
Definition studentWithPoints (student : Profile.row) : option Student :=
  match
    map_or_throw skill_of (StudentSearch.embedded_student_skills db auth_uid student)
  with
  | None => None
  | Some skills =>
      Some {| id := Profile.id student;
              full_name := Profile.full_name student;
              email := Profile.email student;
              department := Profile.department student;
              college := Profile.college student;
              year_of_study := Profile.year_of_study student;
              bio := Profile.bio student;
              achievement_points :=
                Js.or0 (get_student_achievement_points db (Profile.id student));
              skills := skills |}
  end.

(** [fetchStudents]: the list put in the [students] state, or [None] when
    the mapping throws and the error toast is shown instead. *)
Definition fetchStudents : option (list Student) :=
  map_or_throw studentWithPoints studentsData.

End FetchStudents.

End PlacementDashboard.

(** ** formatFileSize (DocumentApproval.tsx and DocumentUpload.tsx) *)

Module FileSize.

(** The decimal notation of an integer. *)
Definition decimal (n : Z) : string :=
  DecimalString.NilZero.string_of_int (Z.to_int n).

(** [(bytes / unit).toFixed(1)] for [0 <= bytes] and [unit] a power of two:
    the quotient is exact in binary floating point, and [toFixed(1)]
    takes the integer number of tenths nearest to it, the larger one of
    two equally near. *)
Definition tenths (bytes unit : Z) : Z := (20 * bytes + unit) / (2 * unit).

Definition toFixed_1 (bytes unit : Z) : string :=
  decimal (tenths bytes unit / 10) ++ "." ++ decimal (tenths bytes unit mod 10).

Definition formatFileSize (bytes : Z) : string :=
  if bytes <? 1024 then decimal bytes ++ " B"
  else if bytes <? 1024 * 1024 then toFixed_1 bytes 1024 ++ " KB"
  else toFixed_1 bytes (1024 * 1024) ++ " MB".

End FileSize.

(** ** AnalyticsDashboard.tsx: the three queries of the dashboard *)

Module AnalyticsQueries.

Record stats_t := {
  totalDocuments : Z;
  approvedDocuments : Z;
  pendingDocuments : Z;
  rejectedDocuments : Z
}.

Section Queries.

Variable db : Db.
Variable auth_uid : option uuid.

(** The order of two instants, as the database compares them. *)
Variable timestamptz_compare : timestamptz -> timestamptz -> Z.

Variable profile : Profile.row.

(** [from('documents').select('status').eq('student_id', profile.id)],
    under the SELECT policy of [documents]. *)
Definition fetchStats_data : list Document.status_t :=
  map Document.status
    (filter (Rls.documents_select db auth_uid)
       (Sql.select_where
          (fun d =>
             Sql.EQ String.eqb (Some (Document.student_id d))
               (Some (Profile.id profile)))
          (documents db))).

Definition count_status (st : Document.status_t) : Z :=
  Js.or0
    (Some (Z.of_nat
             (List.length (filter (fun d => Document.status_eqb d st) fetchStats_data)))).

(** [fetchStats]: the object given to [setStats]. *)
Definition fetchStats : stats_t :=
  {| totalDocuments := Js.or0 (Some (Z.of_nat (List.length fetchStats_data)));
     approvedDocuments := count_status Document.approved;
     pendingDocuments := count_status Document.pending;
     rejectedDocuments := count_status Document.rejected |}.

(** [ORDER BY approved_at DESC]: NULL first, later instants before earlier
    ones; rows with the same instant are left in table order. *)
Definition approved_at_desc (a b : Document.row) : Z :=
  match Document.approved_at a, Document.approved_at b with
  | None, None => 0
  | None, Some _ => -1
  | Some _, None => 1
  | Some x, Some y => timestamptz_compare y x
  end.

(** [fetchAchievements]:
    [from('documents').select('id, title, description, points_awarded,
       approved_at, file_type').eq('student_id', profile.id)
       .eq('status', 'approved').gt('points_awarded', 0)
       .order('approved_at', { ascending: false })];
    the rows are kept whole, the selected columns being among theirs. *)
Definition fetchAchievements : list Document.row :=
  Js.sort approved_at_desc
    (filter (Rls.documents_select db auth_uid)
       (Sql.select_where
          (fun d =>
             Sql.AND
               (Sql.AND
                  (Sql.EQ String.eqb (Some (Document.student_id d))
                     (Some (Profile.id profile)))
                  (Sql.EQ Document.status_eqb (Some (Document.status d))
                     (Some Document.approved)))
               (Sql.GT (Document.points_awarded d) (Some 0)))
          (documents db))).

(** [fetchTotalPoints], as the [totalPoints] state after the call:
    [rpc('get_student_achievement_points', { student_profile_id: profile.id })],
    then [if (error) throw error] and [setTotalPoints(data || 0)].  The
    error is caught and logged, and the state keeps what it held, which
    is the 0 of [useState(0)] on the first call. *)
Definition fetchTotalPoints (totalPoints : Z) : Z :=
  match get_student_achievement_points db (Profile.id profile) with
  | Some data => Js.or0 (Some data)
  | None => totalPoints
  end.

End Queries.

End AnalyticsQueries.

(** ** CollaborationRequests.tsx: whom to invite, and the invitation *)

Module CollaborationInvite.

Inductive toast :=
| Request_sent
| Error (message : string).

Section Handlers.

Variable db : Db.
Variable auth_uid : option uuid.

(** [fetchStudents]:
    [from('profiles').select('id, full_name, user_type, department')
       .eq('user_type', 'student').neq('id', profile?.id)],
    under the SELECT policies of [profiles]. *)
Definition fetchStudents (profile : Profile.row) : list Profile.row :=
  filter (Rls.profiles_select auth_uid)
    (Sql.select_where
       (fun p =>
          Sql.AND
            (Sql.EQ Profile.user_type_eqb (Some (Profile.user_type p))
               (Some Profile.student))
            (Sql.NEQ String.eqb (Some (Profile.id p))
               (Some (Profile.id profile))))
       (profiles db)).

(** "Users can create collaboration requests" (WITH CHECK on the new row):
    [EXISTS (SELECT 1 FROM profiles
             WHERE id = collaboration_requests.requester_id
             AND user_id = auth.uid())]. *)
Definition collaboration_requests_insert
    (r : CollaborationRequest.row) : bool :=
  Sql.holds
    (Sql.EXISTS
       (Sql.select_where
          (fun p =>
             Sql.AND
               (Sql.EQ String.eqb (Some (Profile.id p))
                  (Some (CollaborationRequest.requester_id r)))
               (Sql.EQ String.eqb (Some (Profile.user_id p)) auth_uid))
          (profiles db))).

(** [createRequest(formData)], with the [profile] prop, the form fields,
    the clock and the id the database draws as arguments.  The columns not
    given take their defaults ([status] pending, both timestamps now).
    Without a profile the handler returns at once and shows nothing. *)
Definition createRequest
    (profile : option Profile.row)
    (requestedId projectTitle projectDescription : string)
    (selectedSkills : list string)
    (now : timestamptz) (new_id : uuid) : Db * option toast :=
  match profile with
  | None => (db, None)
  | Some profile =>
      let request :=
        {| CollaborationRequest.id := new_id;
           CollaborationRequest.requester_id := Profile.id profile;
           CollaborationRequest.requested_id := requestedId;
           CollaborationRequest.project_title := projectTitle;
           CollaborationRequest.project_description := Some projectDescription;
           CollaborationRequest.skills_needed := selectedSkills;
           CollaborationRequest.status := CollaborationRequest.pending;
           CollaborationRequest.created_at := now;
           CollaborationRequest.updated_at := now |} in
      if collaboration_requests_insert request then
        (set_collaboration_requests db (collaboration_requests db ++ [request]),
         Some Request_sent)
      else
        (db, Some (Error "new row violates row-level security policy"))
  end.

End Handlers.

End CollaborationInvite.

(** ** JavaScript strings: split, slice, join *)

Module JsString.

(** [s.split(sep)] for a separator of one character; [cur] is the piece
    being read. *)
Fixpoint split_from (sep : ascii) (cur s : string) : list string :=
  match s with
  | EmptyString => [cur]
  | String c s' =>
      if Ascii.eqb c sep then cur :: split_from sep "" s'
      else split_from sep (cur ++ String c "") s'
  end.

Definition split (sep : ascii) (s : string) : list string :=
  split_from sep "" s.

(** [xs.slice(-n)]: the last [n] elements, all of them when there are
    fewer. *)
Definition slice_last {A} (n : nat) (xs : list A) : list A :=
  skipn (List.length xs - n) xs.

(** [xs.join(sep)]. *)
Definition join (sep : string) (xs : list string) : string :=
  String.concat sep xs.

(** Whether [c] occurs in [s]. *)
Fixpoint has_char (c : ascii) (s : string) : bool :=
  match s with
  | EmptyString => false
  | String c' s' => Ascii.eqb c' c || has_char c s'
  end.

End JsString.

(** ** DocumentUpload.tsx: deleting a document *)

Module DocumentDelete.

(** The object name as the text handed to the storage:
    [`${user?.id}/${Date.now()}.${fileExt}`]. *)
Definition render (n : DocumentUpload.object_name) : string :=
  DocumentUpload.folder n ++ "/"
  ++ FileSize.decimal (DocumentUpload.stamp n) ++ "."
  ++ DocumentUpload.ext n.

(** [url.pathname.split('/').slice(-2).join('/')]. *)
Definition filePath_of (pathname : string) : string :=
  JsString.join "/" (JsString.slice_last 2 (JsString.split "/"%char pathname)).

(** What the backend answers beyond what the state decides: the error, if
    any, of the delete and of the removal. *)
Record backend := {
  delete_error : option string;
  remove_error : option string
}.

Inductive toast :=
| Document_deleted
| Delete_failed (message : string).

(** What the handler does, in program order. *)
Inductive event :=
| db_delete (documentId : uuid) (error : option string)
| storage_remove (filePath : string) (error : option string)
| toast_shown (t : toast)
| fetchDocuments.

Section Handler.

(** [new URL(fileUrl).pathname]; [None] when the constructor throws. *)
Variable URL_pathname : string -> option string.
Variable be : backend.

(** "Users can delete their own documents" (COMPLETE_RLS_FIX.sql), the one
    DELETE policy of [documents]:
    [auth.uid() IS NOT NULL AND
     student_id IN (SELECT id FROM public.profiles WHERE user_id = auth.uid())]. *)
Definition documents_delete
    (db : Db) (auth_uid : option uuid) (d : Document.row) : bool :=
  Sql.holds
    (Sql.AND
       (Sql.IS_NOT_NULL auth_uid)
       (Sql.IN String.eqb (Some (Document.student_id d))
          (Rls.own_profile_ids db auth_uid))).

(** The rows [delete().eq('id', documentId)] removes. *)
Definition delete_target
    (db : Db) (auth_uid : option uuid) (documentId : uuid)
    (d : Document.row) : bool :=
  String.eqb (Document.id d) documentId && documents_delete db auth_uid d.

(** "Users can delete own files" (COMPLETE_RLS_FIX.sql), the DELETE policy
    of the bucket:
    [auth.uid() IS NOT NULL AND (storage.foldername(name))[1] = auth.uid()::text]. *)
Definition objects_delete
    (auth_uid : option uuid) (n : DocumentUpload.object_name) : bool :=
  Sql.holds
    (Sql.AND
       (Sql.IS_NOT_NULL auth_uid)
       (Sql.EQ String.eqb (Some (DocumentUpload.folder n)) auth_uid)).

(** [storage.from('documents').remove([filePath])]: the objects of that
    name that the caller may delete go; a name that matches none is no
    error. *)
Definition remove_path
    (auth_uid : option uuid) (filePath : string) (w : DocumentUpload.World)
  : DocumentUpload.World * option string :=
  match remove_error be with
  | Some e => (w, Some e)
  | None =>
      ({| DocumentUpload.db := DocumentUpload.db w;
          DocumentUpload.storage :=
            filter
              (fun o =>
                 negb (String.eqb (render (fst o)) filePath
                       && objects_delete auth_uid (fst o)))
              (DocumentUpload.storage w) |}, None)
  end.

(** [handleDeleteDocument(documentId, fileUrl)], with the answer to the
    [confirm] dialog and the session user as arguments.  The row goes
    first; an error of the removal from the storage is logged and not
    thrown. *)
Definition handleDeleteDocument
    (confirmed : bool) (user : option uuid)
    (documentId : uuid) (fileUrl : string)
    (w : DocumentUpload.World) : DocumentUpload.World * list event :=
  if negb confirmed then (w, [])
  else
    match URL_pathname fileUrl with
    | None => (w, [toast_shown (Delete_failed "Invalid URL")])
    | Some pathname =>
        let filePath := filePath_of pathname in
        match delete_error be with
        | Some dbError =>
            (w, [db_delete documentId (Some dbError);
                 toast_shown
                   (Delete_failed
                      (if Js.truthy_string dbError then dbError
                       else "Failed to delete the document."))])
        | None =>
            let w1 :=
              {| DocumentUpload.db :=
                   set_documents (DocumentUpload.db w)
                     (filter
                        (fun d =>
                           negb (delete_target (DocumentUpload.db w) user
                                   documentId d))
                        (documents (DocumentUpload.db w)));
                 DocumentUpload.storage := DocumentUpload.storage w |} in
            let (w2, storageError) := remove_path user filePath w1 in
            (w2, [db_delete documentId None;
                  storage_remove filePath storageError;
                  toast_shown Document_deleted;
                  fetchDocuments])
        end
    end.

End Handler.

End DocumentDelete.

(** ** Accounts: the trigger [handle_new_user] and Dashboard.tsx *)

Module Signup.

(** The keys of [raw_user_meta_data] that are read; [None] is a missing
    key. *)
Record raw_user_meta_data := {
  user_type : option string;
  full_name : option string;
  college : option string;
  organization : option string
}.

(** A row of [auth.users]. *)
Record auth_user := {
  id : uuid;
  email : string;
  user_metadata : raw_user_meta_data
}.

Record placement_officer := {
  officer_id : uuid;
  officer_user_id : uuid;
  officer_full_name : string;
  officer_email : string;
  officer_organization : option string
}.

Record State := {
  db : Db;
  placement_officers : list placement_officer
}.

(** [user_type text NOT NULL CHECK (user_type IN ('student', 'faculty'))]. *)
Definition user_type_of_text (s : string) : option Profile.user_type_t :=
  if String.eqb s "student" then Some Profile.student
  else if String.eqb s "faculty" then Some Profile.faculty
  else None.

(** The default of the column [privacy_settings]. *)
Definition default_privacy_settings : Profile.privacy :=
  {| Profile.profile_visible := true;
     Profile.skills_visible := true;
     Profile.contact_visible := false |}.

Definition set_profiles (d : Db) (ps : list Profile.row) : Db :=
  {| profiles := ps;
     student_skills := student_skills d;
     documents := documents d;
     collaboration_requests := collaboration_requests d |}.

(** The trigger function [handle_new_user()], run after an insert of [NEW]
    into [auth.users]; [new_id] is the id the database draws.  [None] is an
    exception of the insert (a CHECK or UNIQUE violation), which undoes the
    signup. *)
Definition handle_new_user
    (new_id : uuid) (NEW : auth_user) (st : State) : option State :=
  if Sql.holds
       (Sql.EQ String.eqb (user_type (user_metadata NEW))
          (Some "placement_officer"))
  then
    if existsb (fun o => String.eqb (officer_user_id o) (id NEW))
         (placement_officers st)
    then None
    else
      Some {| db := db st;
              placement_officers :=
                placement_officers st
                ++ [{| officer_id := new_id;
                       officer_user_id := id NEW;
                       officer_full_name :=
                         Sql.COALESCE (full_name (user_metadata NEW)) "";
                       officer_email := email NEW;
                       officer_organization :=
                         Some (Sql.COALESCE (organization (user_metadata NEW)) "")
                    |}] |}
  else
    match
      user_type_of_text (Sql.COALESCE (user_type (user_metadata NEW)) "student")
    with
    | None => None
    | Some ut =>
        if existsb (fun p => String.eqb (Profile.user_id p) (id NEW))
             (profiles (db st))
        then None
        else
          Some {| db :=
                    set_profiles (db st)
                      (profiles (db st)
                       ++ [{| Profile.id := new_id;
                              Profile.user_id := id NEW;
                              Profile.full_name :=
                                Sql.COALESCE (full_name (user_metadata NEW)) "";
                              Profile.email := email NEW;
                              Profile.user_type := ut;
                              Profile.department := None;
                              Profile.college :=
                                Some (Sql.COALESCE (college (user_metadata NEW)) "");
                              Profile.year_of_study := None;
                              Profile.bio := None;
                              Profile.privacy_settings :=
                                Some default_privacy_settings |}]);
                  placement_officers := placement_officers st |}
    end.

(** [a || b] on a string that may be missing: the first when it is there
    and not empty. *)
Definition or_else (a : option string) (b : string) : string :=
  match a with
  | Some s => if Js.truthy_string s then s else b
  | None => b
  end.

(** [fetchProfile] of Dashboard.tsx for the session user [user]:
    [from('profiles').select('*').eq('user_id', user?.id).single()], and
    when [single] finds no one row (PGRST116) an insert of a new profile
    followed by [.select().single()].  The result is the database after
    the call and the [profile] state. *)
Definition fetchProfile
    (user : auth_user) (new_id : uuid) (d : Db) : Db * option Profile.row :=
  match
    filter (Rls.profiles_select (Some (id user)))
      (Sql.select_where
         (fun p => Sql.EQ String.eqb (Some (Profile.user_id p)) (Some (id user)))
         (profiles d))
  with
  | [p] => (d, Some p)
  | _ =>
      match
        user_type_of_text (or_else (user_type (user_metadata user)) "student")
      with
      | None => (d, None)
      | Some ut =>
          if existsb (fun p => String.eqb (Profile.user_id p) (id user))
               (profiles d)
          then (d, None)
          else
            let newProfile :=
              {| Profile.id := new_id;
                 Profile.user_id := id user;
                 Profile.full_name :=
                   or_else (full_name (user_metadata user))
                     (or_else
                        (Some (hd "" (JsString.split "@"%char (email user))))
                        "New User");
                 Profile.email := email user;
                 Profile.user_type := ut;
                 Profile.department := None;
                 Profile.college :=
                   Some (or_else (college (user_metadata user)) "");
                 Profile.year_of_study := None;
                 Profile.bio := None;
                 Profile.privacy_settings := Some default_privacy_settings |} in
            (set_profiles d (profiles d ++ [newProfile]), Some newProfile)
      end
  end.

End Signup.

(** ** Parts of rows, for stating what a handler leaves alone *)

(** The columns of a document that the submission fixes. *)
Definition submitted_part (d : Document.row) :=
  (Document.id d, Document.student_id d, Document.title d,
   Document.description d, Document.file_url d, Document.file_type d,
   Document.file_size d, Document.uploaded_at d).

(** What a document adds to the total of a student. *)
Definition contribution (student : uuid) (d : Document.row) : Z :=
  if counts_for student d then pointsAwarded d else 0.

(** The columns of a collaboration request that its creation fixes. *)
Definition invitation_part (r : CollaborationRequest.row) :=
  (CollaborationRequest.id r, CollaborationRequest.requester_id r,
   CollaborationRequest.requested_id r, CollaborationRequest.project_title r,
   CollaborationRequest.project_description r,
   CollaborationRequest.skills_needed r, CollaborationRequest.created_at r).

(** ** Example data *)

(** A small directory used by the examples: two students, one of them
    hidden, and a faculty member. *)
Definition visible_settings : Profile.privacy :=
  {| Profile.profile_visible := true;
     Profile.skills_visible := true;
     Profile.contact_visible := false |}.

Definition hidden_settings : Profile.privacy :=
  {| Profile.profile_visible := false;
     Profile.skills_visible := true;
     Profile.contact_visible := false |}.

Definition make_profile
    (id user_id full_name : string) (user_type : Profile.user_type_t)
    (settings : Profile.privacy) : Profile.row :=
  {| Profile.id := id;
     Profile.user_id := user_id;
     Profile.full_name := full_name;
     Profile.email := full_name ++ "@example.edu";
     Profile.user_type := user_type;
     Profile.department := None;
     Profile.college := None;
     Profile.year_of_study := None;
     Profile.bio := None;
     Profile.privacy_settings := Some settings |}.

Definition student_A := make_profile "pA" "uA" "Asha" Profile.student visible_settings.
Definition student_B := make_profile "pB" "uB" "Bela" Profile.student hidden_settings.
Definition student_C := make_profile "pC" "uC" "Chen" Profile.student visible_settings.
Definition faculty_F := make_profile "pF" "uF" "Farid" Profile.faculty visible_settings.

Definition make_document
    (id student_id : string) (status : Document.status_t)
    (points_awarded : option Z) : Document.row :=
  {| Document.id := id;
     Document.student_id := student_id;
     Document.title := "Certificate " ++ id;
     Document.description := None;
     Document.file_url := "https://files.example.edu/" ++ id;
     Document.file_type := "application/pdf";
     Document.file_size := Some 1024;
     Document.status := status;
     Document.uploaded_at := "2025-09-14T10:00:00Z";
     Document.approved_by :=
       match status with Document.pending => None | _ => Some "pF" end;
     Document.approved_at :=
       match status with
       | Document.pending => None
       | _ => Some "2025-09-15T10:00:00Z"
       end;
     Document.rejection_reason := None;
     Document.points_awarded := points_awarded |}.

Definition directory : list Profile.row :=
  [student_A; student_B; student_C; faculty_F].

(** Student A with two approved documents, of 30 and of -5 points, a
    pending and a rejected one. *)
Definition score_db : Db :=
  {| profiles := directory;
     student_skills := [];
     documents :=
       [make_document "d1" "pA" Document.approved (Some 30);
        make_document "d2" "pA" Document.approved (Some (-5));
        make_document "d3" "pA" Document.pending (Some 0);
        make_document "d4" "pA" Document.rejected (Some 0)];
     collaboration_requests := [] |}.

(** Stand-ins for the engine's string functions in the examples: ASCII
    lower-casing, and comparison by code units. *)
Definition toLowerCase_ascii_char (c : ascii) : ascii :=
  let n := nat_of_ascii c in
  if (Nat.leb 65 n && Nat.leb n 90)%bool then ascii_of_nat (n + 32) else c.

Fixpoint toLowerCase_ascii (s : string) : string :=
  match s with
  | EmptyString => EmptyString
  | String c s' => String (toLowerCase_ascii_char c) (toLowerCase_ascii s')
  end.

Definition compare_code_units (a b : string) : Z :=
  match String.compare a b with
  | Lt => -1
  | Eq => 0
  | Gt => 1
  end.

(** The directory with no documents at all. *)
Definition directory_db : Db :=
  {| profiles := directory;
     student_skills := [];
     documents := [];
     collaboration_requests := [] |}.

(** The directory with one pending document of student A. *)
Definition review_db : Db :=
  {| profiles := directory;
     student_skills := [];
     documents := [make_document "d1" "pA" Document.pending (Some 0)];
     collaboration_requests := [] |}.

(** Student D has asked student E to collaborate; the request is
    pending. *)
Definition student_D := make_profile "pD" "uD" "Dana" Profile.student visible_settings.
Definition student_E := make_profile "pE" "uE" "Eli" Profile.student visible_settings.

Definition request_D_to_E : CollaborationRequest.row :=
  {| CollaborationRequest.id := "r1";
     CollaborationRequest.requester_id := "pD";
     CollaborationRequest.requested_id := "pE";
     CollaborationRequest.project_title := "Campus map";
     CollaborationRequest.project_description := None;
     CollaborationRequest.skills_needed := ["React"];
     CollaborationRequest.status := CollaborationRequest.pending;
     CollaborationRequest.created_at := "2025-09-14T10:00:00Z";
     CollaborationRequest.updated_at := "2025-09-14T10:00:00Z" |}.

Definition collaboration_db : Db :=
  {| profiles := [student_D; student_E];
     student_skills := [];
     documents := [];
     collaboration_requests := [request_D_to_E] |}.

(** An upload by student A into an empty bucket. *)
Definition certificate_pdf : DocumentUpload.File :=
  {| DocumentUpload.name := "certificate.final.pdf";
     DocumentUpload.type := "application/pdf";
     DocumentUpload.size := 2048 |}.

Definition empty_world : DocumentUpload.World :=
  {| DocumentUpload.db := directory_db; DocumentUpload.storage := [] |}.

Definition publicUrl_of (n : DocumentUpload.object_name) : string :=
  "https://files.example.edu/documents/" ++ DocumentUpload.folder n
  ++ "/upload." ++ DocumentUpload.ext n.

(** The insert fails; the removal succeeds in the first backend and fails
    in the second. *)
Definition insert_fails : DocumentUpload.backend :=
  {| DocumentUpload.upload_error := None;
     DocumentUpload.insert_error := Some "connection lost";
     DocumentUpload.remove_error := None |}.

Definition insert_and_remove_fail : DocumentUpload.backend :=
  {| DocumentUpload.upload_error := None;
     DocumentUpload.insert_error := Some "connection lost";
     DocumentUpload.remove_error := Some "connection lost" |}.

(** Students as listed in the directory. *)
Definition make_student (id full_name : string) (achievement_points : Z)
  : StudentSearch.Student :=
  {| StudentSearch.id := id;
     StudentSearch.full_name := full_name;
     StudentSearch.email := id ++ "@example.edu";
     StudentSearch.department := None;
     StudentSearch.college := None;
     StudentSearch.year_of_study := None;
     StudentSearch.bio := None;
     StudentSearch.achievement_points := achievement_points;
     StudentSearch.skills := [] |}.

Definition amy := make_student "s3" "amy" 10.
Definition bob := make_student "s4" "Bob" 10.
Definition cy := make_student "s5" "Cy" 40.
Definition sam_1 := make_student "s1" "Sam" 20.
Definition sam_2 := make_student "s2" "Sam" 20.

(** A collation that, as locale collations do, compares letters before
    case. *)
Definition compare_ignoring_case (a b : string) : Z :=
  compare_code_units (toLowerCase_ascii a) (toLowerCase_ascii b).

(** Stand-ins for the engine in the examples on the approve form, for
    texts of decimal digits with an optional sign and an optional exponent:
    [parseInt] reads the sign and the digits before the first other
    character; the number field reads the digits times the power of ten. *)
Definition digit_of (c : ascii) : option Z :=
  let n := Z.of_nat (nat_of_ascii c) in
  if (48 <=? n) && (n <=? 57) then Some (n - 48) else None.

Fixpoint leading_digits (acc : option Z) (s : string) : option Z * string :=
  match s with
  | EmptyString => (acc, s)
  | String c s' =>
      match digit_of c with
      | Some d =>
          leading_digits
            (Some (10 * match acc with Some a => a | None => 0 end + d)) s'
      | None => (acc, s)
      end
  end.

Definition unsigned_part (s : string) : bool * string :=
  match s with
  | String c s' => if Ascii.eqb c "-" then (true, s') else (false, s)
  | EmptyString => (false, s)
  end.

Definition parseInt_ascii (s : string) : DocumentApproval.number :=
  let (negative, digits) := unsigned_part s in
  match fst (leading_digits None digits) with
  | Some z => DocumentApproval.Num (if negative then - z else z)
  | None => DocumentApproval.NaN
  end.

Definition number_of_field_ascii (s : string) : option Q :=
  let (negative, digits) := unsigned_part s in
  match leading_digits None digits with
  | (Some m, rest) =>
      let m := if negative then - m else m in
      match rest with
      | EmptyString => Some (inject_Z m)
      | String c exponent =>
          if Ascii.eqb c "e" then
            let (down, k) := unsigned_part exponent in
            match leading_digits None k with
            | (Some e, EmptyString) =>
                Some (Qred (if down then inject_Z m / inject_Z (10 ^ e)
                            else inject_Z (m * 10 ^ e)))
            | _ => None
            end
          else None
      end
  | (None, _) => None
  end.

(** Student G shows the profile and hides the skills. *)
Definition skills_hidden_settings : Profile.privacy :=
  {| Profile.profile_visible := true;
     Profile.skills_visible := false;
     Profile.contact_visible := false |}.

Definition student_G :=
  make_profile "pG" "uG" "Gita" Profile.student skills_hidden_settings.

Definition make_skill (student_id name : string) : StudentSkill.row :=
  {| StudentSkill.student_id := student_id;
     StudentSkill.skills :=
       Some {| StudentSkill.name := name;
               StudentSkill.category := Some "Programming" |};
     StudentSkill.proficiency_level := "advanced" |}.

Definition skills_db : Db :=
  {| profiles := [student_A; student_G; student_C];
     student_skills := [make_skill "pA" "React"; make_skill "pG" "Rust"];
     documents := [];
     collaboration_requests := [] |}.

(** Backends that answer without an error, and a storage whose public
    URLs end in the object name. *)
Definition upload_succeeds : DocumentUpload.backend :=
  {| DocumentUpload.upload_error := None;
     DocumentUpload.insert_error := None;
     DocumentUpload.remove_error := None |}.

Definition delete_succeeds : DocumentDelete.backend :=
  {| DocumentDelete.delete_error := None;
     DocumentDelete.remove_error := None |}.

Definition storage_url (n : DocumentUpload.object_name) : string :=
  "https://files.example.edu/storage/v1/object/public/documents/"
  ++ DocumentDelete.render n.

Definition pathname_of (url : string) : option string :=
  if String.prefix "https://files.example.edu" url
  then Some (String.substring 25 (String.length url - 25) url)
  else None.

Definition certificate_object : DocumentUpload.object_name :=
  {| DocumentUpload.folder := "uA";
     DocumentUpload.stamp := 1757844000000;
     DocumentUpload.ext := "pdf" |}.

(** Two signups: one without a user type, one with a user type that no
    table takes. *)
Definition new_student : Signup.auth_user :=
  {| Signup.id := "uN";
     Signup.email := "nia@example.edu";
     Signup.user_metadata :=
       {| Signup.user_type := None;
          Signup.full_name := Some "Nia";
          Signup.college := None;
          Signup.organization := None |} |}.

Definition new_intern : Signup.auth_user :=
  {| Signup.id := "uI";
     Signup.email := "ian@example.edu";
     Signup.user_metadata :=
       {| Signup.user_type := Some "intern";
          Signup.full_name := Some "Ian";
          Signup.college := None;
          Signup.organization := None |} |}.

Definition signup_state : Signup.State :=
  {| Signup.db := directory_db; Signup.placement_officers := [] |}.

(* ================================================================= *)
(** * Properties *)

(** ** Levels and progress (AnalyticsDashboard.tsx) *)

Section Levels.

Import AnalyticsDashboard.

(** The chain of [>=] tests of [getPointsLevel], read as a case analysis. *)
Lemma getPointsLevel_cases (points : Z) :
  (1000 <= points /\ getPointsLevel points =
     {| level := Expert; color := "text-purple-600"; progress := 100%float |})
  \/ (500 <= points < 1000 /\ getPointsLevel points =
     {| level := Advanced; color := "text-blue-600";
        progress := ((number_of_int points / 1000) * 100)%float |})
  \/ (200 <= points < 500 /\ getPointsLevel points =
     {| level := Intermediate; color := "text-green-600";
        progress := ((number_of_int points / 500) * 100)%float |})
  \/ (50 <= points < 200 /\ getPointsLevel points =
     {| level := Beginner; color := "text-yellow-600";
        progress := ((number_of_int points / 200) * 100)%float |})
  \/ (points < 50 /\ getPointsLevel points =
     {| level := Newcomer; color := "text-gray-600";
        progress := ((number_of_int points / 50) * 100)%float |}).
Proof.
  unfold getPointsLevel.
  rewrite !Z.geb_leb.
  destruct (Z.leb_spec 1000 points); [left; split; [lia | reflexivity] | right].
  destruct (Z.leb_spec 500 points); [left; split; [lia | reflexivity] | right].
  destruct (Z.leb_spec 200 points); [left; split; [lia | reflexivity] | right].
  destruct (Z.leb_spec 50 points); [left; split; [lia | reflexivity] | right].
  split; [lia | reflexivity].
Qed.

(** C6.  For every non-negative total score the level returned by
    [getPointsLevel] is the one whose band, lower bound inclusive and upper
    bound exclusive, holds the score: Newcomer [0,50), Beginner [50,200),
    Intermediate [200,500), Advanced [500,1000), Expert [1000,..). *)
Theorem getPointsLevel_level_bands :
  forall totalScore : Z, 0 <= totalScore ->
  forall l : level_t,
    level (getPointsLevel totalScore) = l <-> in_band l totalScore.
Proof.
  intros s Hs l.
  destruct (getPointsLevel_cases s)
    as [[H E] | [[H E] | [[H E] | [[H E] | [H E]]]]];
    rewrite E; cbn [level]; unfold in_band;
    destruct l; cbn [band_lower band_upper];
    split; intro G; try discriminate; try reflexivity; lia.
Qed.

Lemma getPointsLevel_level_bands_witness :
  level (getPointsLevel 55) = Beginner /\ level (getPointsLevel 30) = Newcomer.
Proof.
  split.
  - apply (proj2 (getPointsLevel_level_bands 55 ltac:(lia) Beginner)).
    unfold in_band; cbn; lia.
  - apply (proj2 (getPointsLevel_level_bands 30 ltac:(lia) Newcomer)).
    unfold in_band; cbn; lia.
Defined.

(** The progress of a total in the band with upper bound [upper] is the
    double [total / upper * 100]. *)
Lemma getPointsLevel_progress_in_band (s : Z) (l : level_t) (upper : Z) :
  in_band l s -> band_upper l = Some upper ->
  progress (getPointsLevel s)
  = (number_of_int s / number_of_int upper * number_of_int 100)%float.
Proof.
  unfold in_band. intros [Hlo Hup] Hu.
  destruct (getPointsLevel_cases s)
    as [[H E] | [[H E] | [[H E] | [[H E] | [H E]]]]];
    rewrite E; cbn [progress];
    destruct l; cbn [band_lower band_upper] in Hlo, Hup, Hu;
    try discriminate Hu; injection Hu as <-; try lia; reflexivity.
Qed.

Lemma close_below_1000 :
  forallb close_in_band (map Z.of_nat (seq 0 1000)) = true.
Proof. vm_compute. reflexivity. Qed.

Lemma close_in_band_sound (s : Z) (l : level_t) (upper : Z) :
  in_band l s -> band_upper l = Some upper ->
  close_to_quotient s upper = true.
Proof.
  unfold in_band. intros [Hlo Hup] Hu. rewrite Hu in Hup.
  assert (Hs : 0 <= s < 1000).
  { destruct l; cbn [band_lower band_upper] in Hlo, Hu;
      try discriminate Hu; injection Hu as <-; lia. }
  pose proof close_below_1000 as Hall.
  rewrite forallb_forall in Hall.
  assert (Hin : In s (map Z.of_nat (seq 0 1000))).
  { rewrite <- (Z2Nat.id s) by lia. apply in_map. apply in_seq. lia. }
  specialize (Hall s Hin). unfold close_in_band in Hall.
  rewrite forallb_forall in Hall.
  assert (Hl : In l [Newcomer; Beginner; Intermediate; Advanced; Expert])
    by (destruct l; cbn; tauto).
  specialize (Hall l Hl). rewrite Hu in Hall.
  apply orb_true_iff in Hall. destruct Hall as [Hout | Hc]; [| exact Hc].
  apply negb_true_iff, andb_false_iff in Hout.
  destruct Hout as [Hout | Hout];
    [apply Z.leb_gt in Hout | apply Z.ltb_ge in Hout]; lia.
Qed.

(** C7.  For a total in a band of the specification with an upper bound,
    so below 1000, the progress is the total divided by that upper bound,
    times 100, as JavaScript computes it: in doubles, the division first.
    The double is the exact quotient times 100 up to rounding, within
    2^-46 of it (for 55 it is 27.500000000000004).  Every total from 0 to
    999 is in such a band.  From 1000 on the progress is exactly 100. *)
Theorem getPointsLevel_progress :
  forall totalScore : Z,
    (forall (l : level_t) (upper : Z),
       in_band l totalScore -> band_upper l = Some upper ->
       progress (getPointsLevel totalScore)
       = (number_of_int totalScore / number_of_int upper
          * number_of_int 100)%float
       /\ exists q : Q,
            Q_of_number (progress (getPointsLevel totalScore)) = Some q
            /\ (Qabs (q - inject_Z totalScore / inject_Z upper * 100)
                <= 1 # 70368744177664)%Q)
    /\ (0 <= totalScore < 1000 ->
        exists (l : level_t) (upper : Z),
          in_band l totalScore /\ band_upper l = Some upper)
    /\ (1000 <= totalScore ->
        progress (getPointsLevel totalScore) = 100%float).
Proof.
  intro s. split; [| split].
  - intros l upper Hband Hu.
    pose proof (getPointsLevel_progress_in_band s l upper Hband Hu) as Hp.
    split; [exact Hp |].
    pose proof (close_in_band_sound s l upper Hband Hu) as Hc.
    unfold close_to_quotient in Hc. rewrite Hp.
    destruct (Q_of_number _) as [q |]; [| discriminate Hc].
    exists q. split; [reflexivity |].
    apply Qle_bool_iff. exact Hc.
  - intro Hs. unfold in_band.
    destruct (Z_lt_le_dec s 50);
      [exists Newcomer, 50; cbn; split; [lia | reflexivity] |].
    destruct (Z_lt_le_dec s 200);
      [exists Beginner, 200; cbn; split; [lia | reflexivity] |].
    destruct (Z_lt_le_dec s 500);
      [exists Intermediate, 500; cbn; split; [lia | reflexivity] |].
    exists Advanced, 1000; cbn; split; [lia | reflexivity].
  - intro Hs.
    destruct (getPointsLevel_cases s)
      as [[H E] | [[H E] | [[H E] | [[H E] | [H E]]]]];
      try lia. rewrite E. reflexivity.
Qed.

(** The double [0x1.b800000000001p+4] is printed 27.500000000000004. *)
Lemma getPointsLevel_progress_witness :
  progress (getPointsLevel 55) = 0x1.b800000000001p+4%float
  /\ progress (getPointsLevel 750) = 75%float
  /\ progress (getPointsLevel 1200) = 100%float.
Proof.
  split; [| split].
  - rewrite (proj1 (proj1 (getPointsLevel_progress 55) Beginner 200
                      ltac:(unfold in_band; cbn; lia) eq_refl)).
    vm_compute. reflexivity.
  - rewrite (proj1 (proj1 (getPointsLevel_progress 750) Advanced 1000
                      ltac:(unfold in_band; cbn; lia) eq_refl)).
    vm_compute. reflexivity.
  - apply (proj2 (proj2 (getPointsLevel_progress 1200))). lia.
Defined.

End Levels.

(** ** Reading profiles (row level security of [profiles]) *)

Section ProfileVisibility.

(** Without a session no profile can be read. *)
Lemma profiles_select_anonymous (p : Profile.row) :
  Rls.profiles_select None p = false.
Proof.
  unfold Rls.profiles_select, Rls.users_can_view_their_own_profile,
    Rls.users_can_view_limited_public_profile_data.
  cbn. destruct (Profile.json_get_text Profile.profile_visible p); cbn;
    try destruct (String.eqb _ _); reflexivity.
Qed.

Lemma profiles_select_owner (p : Profile.row) :
  Rls.profiles_select (Some (Profile.user_id p)) p = true.
Proof.
  unfold Rls.profiles_select, Rls.users_can_view_their_own_profile.
  cbn. rewrite String.eqb_refl. reflexivity.
Qed.

Lemma profiles_select_other (viewer : uuid) (p : Profile.row) :
  viewer <> Profile.user_id p ->
  Rls.profiles_select (Some viewer) p
  = match Profile.json_get Profile.profile_visible p with
    | Some true => true
    | _ => false
    end.
Proof.
  intro Hne. apply String.eqb_neq in Hne.
  unfold Rls.profiles_select, Rls.users_can_view_their_own_profile,
    Rls.users_can_view_limited_public_profile_data,
    Profile.json_get_text, Profile.json_get.
  cbn. rewrite Hne. cbn.
  destruct (Profile.privacy_settings p) as [ps |]; cbn; [| reflexivity].
  destruct (Profile.profile_visible ps); reflexivity.
Qed.

(** C4.  The owner can always read the own profile, whatever the flag;
    a signed-in viewer who is not the owner can read a profile exactly when
    its [profile_visible] flag is true. *)
Theorem profiles_select_owner_always_others_iff_visible :
  forall (viewer : uuid) (p : Profile.row),
    (viewer = Profile.user_id p ->
     Rls.profiles_select (Some viewer) p = true)
    /\ (viewer <> Profile.user_id p ->
        (Rls.profiles_select (Some viewer) p = true
         <-> Profile.json_get Profile.profile_visible p = Some true)).
Proof.
  intros viewer p. split.
  - intros ->. apply profiles_select_owner.
  - intro Hne. rewrite (profiles_select_other viewer p Hne).
    destruct (Profile.json_get Profile.profile_visible p) as [[|] |];
      split; congruence.
Qed.

End ProfileVisibility.

Lemma profiles_select_owner_always_others_iff_visible_witness :
  Rls.profiles_select (Some "uB") student_B = true
  /\ Rls.profiles_select (Some "uC") student_B = false
  /\ Rls.profiles_select (Some "uC") student_A = true.
Proof.
  split; [| split].
  - apply (proj1 (profiles_select_owner_always_others_iff_visible "uB" student_B)).
    reflexivity.
  - destruct (Rls.profiles_select (Some "uC") student_B) eqn:E; [| reflexivity].
    apply (proj2 (profiles_select_owner_always_others_iff_visible "uC" student_B))
      in E; [discriminate E | discriminate].
  - apply (proj2 (profiles_select_owner_always_others_iff_visible "uC" student_A)).
    + discriminate.
    + reflexivity.
Defined.

(** ** The total score *)

Section TotalScore.

(** [COALESCE(SUM(..), 0)] is the plain sum with NULL read as 0. *)
Lemma SUM_fold_left (xs : list (option Z)) (acc : option Z) :
  Sql.COALESCE
    (fold_left
       (fun acc x =>
          match x with
          | None => acc
          | Some v => Some (match acc with None => v | Some a => a + v end)
          end) xs acc) 0
  = Sql.COALESCE acc 0
    + fold_right Z.add 0 (map (fun x => Sql.COALESCE x 0) xs).
Proof.
  revert acc. induction xs as [| x xs IH]; intro acc; cbn [fold_left map fold_right].
  - lia.
  - rewrite IH. destruct x as [v |], acc as [a |]; cbn [Sql.COALESCE]; lia.
Qed.

Lemma COALESCE_SUM (xs : list (option Z)) :
  Sql.COALESCE (Sql.SUM xs) 0
  = fold_right Z.add 0 (map (fun x => Sql.COALESCE x 0) xs).
Proof. unfold Sql.SUM. rewrite SUM_fold_left. reflexivity. Qed.

(** The WHERE clause of the function keeps exactly the documents that
    count. *)
Lemma where_counts_for (student : uuid) (d : Document.row) :
  Sql.holds
    (Sql.AND
       (Sql.AND
          (Sql.EQ String.eqb (Some (Document.student_id d)) (Some student))
          (Sql.EQ Document.status_eqb (Some (Document.status d))
             (Some Document.approved)))
       (Sql.GT (Document.points_awarded d) (Some 0)))
  = counts_for student d.
Proof.
  unfold counts_for, pointsAwarded. cbn.
  destruct (String.eqb _ _), (Document.status_eqb _ _),
    (Document.points_awarded d) as [p |]; cbn;
    try destruct (0 <? p); reflexivity.
Qed.

(** The function [get_student_achievement_points] returns, for every
    student and every content of [documents], the sum of [pointsAwarded]
    over exactly the approved documents of the student with more than zero
    points. *)
Lemma get_student_achievement_points_spec (db : Db) (student : uuid) :
  get_student_achievement_points db student
  = Sql.to_integer (totalScore_spec (documents db) student).
Proof.
  unfold get_student_achievement_points, totalScore_spec, Sql.select_where.
  rewrite COALESCE_SUM, map_map.
  rewrite (filter_ext _ _ (where_counts_for student)).
  reflexivity.
Qed.

(** The specified total is never negative, and the function answers with
    it whenever it fits an [integer]. *)
Lemma totalScore_spec_nonneg (docs : list Document.row) (student : uuid) :
  0 <= totalScore_spec docs student.
Proof.
  unfold totalScore_spec.
  induction docs as [| d docs IH]; cbn [filter map fold_right]; [lia |].
  destruct (counts_for student d) eqn:E; [| exact IH].
  cbn [map fold_right]. unfold counts_for in E.
  apply andb_prop in E. destruct E as [_ E]. apply Z.ltb_lt in E. lia.
Qed.

Lemma to_integer_Some (z : Z) :
  -2147483648 <= z <= 2147483647 -> Sql.to_integer z = Some z.
Proof.
  intro Hz. unfold Sql.to_integer, Sql.int4.
  destruct (Z.leb_spec (-2147483648) z), (Z.leb_spec z 2147483647);
    try lia; reflexivity.
Qed.

Lemma to_integer_None (z : Z) :
  2147483647 < z -> Sql.to_integer z = None.
Proof.
  intro Hz. unfold Sql.to_integer, Sql.int4.
  destruct (Z.leb_spec z 2147483647); [lia |].
  rewrite andb_false_r. reflexivity.
Qed.

Lemma to_integer_inv (z t : Z) :
  Sql.to_integer z = Some t -> t = z /\ -2147483648 <= z <= 2147483647.
Proof.
  unfold Sql.to_integer, Sql.int4.
  destruct (Z.leb_spec (-2147483648) z), (Z.leb_spec z 2147483647);
    cbn [andb]; try discriminate.
  intro Hz. injection Hz as <-. lia.
Qed.

(** One more document changes the total by its points when it counts and
    not at all otherwise: pending and rejected documents add nothing. *)
Lemma totalScore_spec_app (docs1 docs2 : list Document.row)
    (d : Document.row) (student : uuid) :
  totalScore_spec (docs1 ++ d :: docs2) student
  = totalScore_spec (docs1 ++ docs2) student
    + (if counts_for student d then pointsAwarded d else 0).
Proof.
  unfold totalScore_spec.
  induction docs1 as [| x docs1 IH]; cbn [app filter].
  - destruct (counts_for student d); cbn [map fold_right]; lia.
  - destruct (counts_for student x); cbn [map fold_right]; lia.
Qed.

Lemma not_approved_counts_for (d : Document.row) (student : uuid) :
  Document.status d <> Document.approved -> counts_for student d = false.
Proof.
  unfold counts_for. intro H.
  destruct (Document.status d); try congruence; cbn;
    rewrite ?andb_false_r; reflexivity.
Qed.

Lemma or0_Some (v : Z) : Js.or0 (Some v) = v.
Proof. unfold Js.or0. destruct (Z.eqb_spec v 0); congruence. Qed.

Lemma reduce_sum (xs : list (option Z)) (acc : Z) :
  fold_left (fun sum points_awarded => sum + Js.or0 points_awarded) xs acc
  = acc + fold_right Z.add 0 (map Js.or0 xs).
Proof.
  revert acc. induction xs as [| x xs IH]; intro acc; cbn [fold_left map fold_right].
  - lia.
  - rewrite IH. lia.
Qed.

(** The sum of the directory, over any list of documents and any reading
    filter, against the specified total. *)
Lemma inline_sum_agrees (visible : Document.row -> bool) (student : uuid)
    (docs : list Document.row) :
  (forall d, In d docs ->
     Document.student_id d = student ->
     Document.status d = Document.approved ->
     visible d = true /\ 0 <= pointsAwarded d) ->
  fold_right Z.add 0
    (map Js.or0
       (map Document.points_awarded
          (filter visible
             (Sql.select_where
                (fun d =>
                   Sql.AND
                     (Sql.EQ String.eqb (Some (Document.student_id d))
                        (Some student))
                     (Sql.EQ Document.status_eqb (Some (Document.status d))
                        (Some Document.approved)))
                docs))))
  = totalScore_spec docs student.
Proof.
  unfold totalScore_spec, Sql.select_where.
  set (sel := fun d : Document.row => Sql.holds _).
  induction docs as [| d docs IH]; intro H; [reflexivity |].
  assert (IH' := IH (fun d' Hd' => H d' (or_intror Hd'))).
  specialize (H d (or_introl eq_refl)).
  assert (Hsel : sel d
                 = String.eqb (Document.student_id d) student
                   && Document.status_eqb (Document.status d) Document.approved).
  { subst sel. cbn.
    destruct (String.eqb _ _), (Document.status_eqb _ _); reflexivity. }
  assert (Hcf : counts_for student d = sel d && (0 <? pointsAwarded d)).
  { rewrite Hsel. reflexivity. }
  cbn [filter]. rewrite Hcf, Hsel.
  destruct (String.eqb_spec (Document.student_id d) student) as [Hs | Hs];
    cbn [andb]; [| exact IH'].
  destruct (Document.status d) eqn:Hst;
    cbn [Document.status_eqb andb]; try exact IH'.
  destruct (H Hs eq_refl) as [Hv Hp].
  cbn [filter]. rewrite Hv. cbn [map fold_right]. rewrite IH'.
  unfold pointsAwarded in *.
  destruct (Document.points_awarded d) as [p |] eqn:Epts; cbn [Js.or0].
  - destruct (Z.eqb_spec p 0), (Z.ltb_spec 0 p); cbn [map fold_right];
      rewrite ?Epts; lia.
  - reflexivity.
Qed.

(** The inline sum of [fetchStudents] is the total of the student when
    the caller may read the student's approved documents and none of them
    carries negative points. *)
Lemma totalPoints_agrees (db : Db) (auth_uid : option uuid)
    (student : Profile.row) :
  (forall d, In d (documents db) ->
     Document.student_id d = Profile.id student ->
     Document.status d = Document.approved ->
     Rls.documents_select db auth_uid d = true /\ 0 <= pointsAwarded d) ->
  StudentSearch.totalPoints db auth_uid student
  = totalScore_spec (documents db) (Profile.id student).
Proof.
  intro H.
  unfold StudentSearch.totalPoints, StudentSearch.pointsData.
  rewrite or0_Some, reduce_sum, Z.add_0_l.
  apply inline_sum_agrees. exact H.
Qed.

End TotalScore.

(** C1.  The total of student A is 30 by the specified sum and by
    [get_student_achievement_points], while the sum that [fetchStudents]
    attaches to A is 25 for a faculty caller (the approved document of -5
    points is added) and 0 for another student (the caller's reading
    rights on [documents] limit what is added). *)
Theorem fetchStudents_achievement_points_differ_from_totalScore :
  totalScore_spec (documents score_db) "pA" = 30
  /\ get_student_achievement_points score_db "pA" = Some 30
  /\ map (fun s => (StudentSearch.id s, StudentSearch.achievement_points s))
       (StudentSearch.fetchStudents score_db (Some "uF"))
     = [("pA", 25); ("pC", 0)]
  /\ map (fun s => (StudentSearch.id s, StudentSearch.achievement_points s))
       (StudentSearch.fetchStudents score_db (Some "uC"))
     = [("pA", 0); ("pC", 0)].
Proof. repeat split; vm_compute; reflexivity. Qed.

(** ** [Array.prototype.sort]: what holds for every comparator *)

Section SortPermutation.

Variable A : Type.
Variable comparefn : A -> A -> Z.

Lemma insert_Permutation (x : A) (l : list A) :
  Permutation (Js.insert comparefn x l) (x :: l).
Proof.
  induction l as [| y l IH]; cbn [Js.insert].
  - apply Permutation_refl.
  - destruct (comparefn x y <=? 0).
    + apply Permutation_refl.
    + eapply perm_trans; [apply perm_skip, IH | apply perm_swap].
Qed.

Lemma sort_Permutation (l : list A) : Permutation (Js.sort comparefn l) l.
Proof.
  induction l as [| x l IH]; cbn [Js.sort fold_right].
  - apply perm_nil.
  - eapply perm_trans; [apply insert_Permutation |].
    apply perm_skip, IH.
Qed.

Lemma In_sort (x : A) (l : list A) : In x (Js.sort comparefn l) <-> In x l.
Proof.
  split; apply Permutation_in;
    [apply sort_Permutation | apply Permutation_sym, sort_Permutation].
Qed.

End SortPermutation.

(** ** The student directory: who is listed *)

Section Directory.

Variable toLowerCase : string -> string.
Variable localeCompare : string -> string -> Z.

(** The rows of the profile query are the student profiles whose
    [profile_visible] flag is true that the caller may read. *)
Lemma In_data (db : Db) (auth_uid : option uuid) (p : Profile.row) :
  In p (StudentSearch.data db auth_uid)
  <-> In p (profiles db)
      /\ Profile.user_type p = Profile.student
      /\ Profile.json_get Profile.profile_visible p = Some true
      /\ Rls.profiles_select auth_uid p = true.
Proof.
  unfold StudentSearch.data, Sql.select_where.
  rewrite !filter_In. cbn [Sql.EQ].
  destruct (Profile.user_type p);
    destruct (Profile.json_get Profile.profile_visible p) as [[|] |];
    cbn; intuition congruence.
Qed.

(** A signed-in caller may read every profile whose flag is true. *)
Lemma profiles_select_visible (viewer : uuid) (p : Profile.row) :
  Profile.json_get Profile.profile_visible p = Some true ->
  Rls.profiles_select (Some viewer) p = true.
Proof.
  intro Hv.
  destruct (String.eqb_spec viewer (Profile.user_id p)) as [-> | Hne].
  - apply profiles_select_owner.
  - rewrite (profiles_select_other viewer p Hne), Hv. reflexivity.
Qed.

Lemma filterStudents_incl
    (students : list StudentSearch.Student)
    (searchTerm selectedDepartment selectedCollege selectedSkill : string)
    (s : StudentSearch.Student) :
  In s (StudentSearch.filterStudents toLowerCase localeCompare students
          searchTerm selectedDepartment selectedCollege selectedSkill) ->
  In s students.
Proof.
  unfold StudentSearch.filterStudents. rewrite In_sort.
  repeat match goal with
         | |- context [if ?b then _ else _] => destruct b
         end;
    rewrite ?filter_In; tauto.
Qed.

Lemma filterStudents_no_filter (students : list StudentSearch.Student) :
  StudentSearch.filterStudents toLowerCase localeCompare students
    "" "all" "all" "all"
  = Js.sort (StudentSearch.comparefn localeCompare) students.
Proof. reflexivity. Qed.

(** C3, as the code has it.  Whatever the caller and the filters, every
    student the search lists comes from a student profile whose
    [profile_visible] flag is true, the caller's own profile included; and
    with no filter set, a signed-in caller is shown every student profile
    whose flag is true, the caller's own among them. *)
Theorem search_lists_the_visible_student_profiles :
  forall db : Db,
    (forall (auth_uid : option uuid)
            (searchTerm selectedDepartment selectedCollege selectedSkill : string)
            (s : StudentSearch.Student),
        In s (StudentSearch.filterStudents toLowerCase localeCompare
                (StudentSearch.fetchStudents db auth_uid)
                searchTerm selectedDepartment selectedCollege selectedSkill) ->
        exists p : Profile.row,
          In p (profiles db)
          /\ s = StudentSearch.studentWithPoints db auth_uid p
          /\ Profile.user_type p = Profile.student
          /\ Profile.json_get Profile.profile_visible p = Some true)
    /\ (forall (viewer : uuid) (p : Profile.row),
        In p (profiles db) ->
        Profile.user_type p = Profile.student ->
        Profile.json_get Profile.profile_visible p = Some true ->
        In (StudentSearch.studentWithPoints db (Some viewer) p)
           (StudentSearch.filterStudents toLowerCase localeCompare
              (StudentSearch.fetchStudents db (Some viewer))
              "" "all" "all" "all")).
Proof.
  intro db. split.
  - intros auth_uid term dep col skill s Hs.
    apply filterStudents_incl in Hs.
    unfold StudentSearch.fetchStudents in Hs.
    apply in_map_iff in Hs. destruct Hs as [p [<- Hp]].
    apply In_data in Hp. destruct Hp as [Hin [Hst [Hv _]]].
    exists p. auto.
  - intros viewer p Hin Hst Hv.
    rewrite filterStudents_no_filter, In_sort.
    unfold StudentSearch.fetchStudents. apply in_map.
    apply In_data. repeat split; auto.
    apply profiles_select_visible. exact Hv.
Qed.

End Directory.



Lemma search_lists_the_visible_student_profiles_witness :
  In (StudentSearch.studentWithPoints directory_db (Some "uC") student_A)
     (StudentSearch.filterStudents toLowerCase_ascii compare_code_units
        (StudentSearch.fetchStudents directory_db (Some "uC"))
        "" "all" "all" "all")
  /\ exists p : Profile.row,
       In p (profiles directory_db)
       /\ StudentSearch.studentWithPoints directory_db (Some "uA") student_A
          = StudentSearch.studentWithPoints directory_db (Some "uA") p
       /\ Profile.user_type p = Profile.student
       /\ Profile.json_get Profile.profile_visible p = Some true.
Proof.
  pose proof (search_lists_the_visible_student_profiles
                toLowerCase_ascii compare_code_units directory_db) as [H1 H2].
  split.
  - apply H2; [cbn; auto | reflexivity | reflexivity].
  - apply (H1 (Some "uA") "asha" "all" "all" "all").
    vm_compute. left. reflexivity.
Defined.

(** C3, as the specification words it, fails for the hidden student B:
    B is a student, opens the directory with no filter set, and is not in
    the list. *)
Lemma hidden_caller_is_not_in_own_search :
  In student_B (profiles directory_db)
  /\ Profile.user_type student_B = Profile.student
  /\ Profile.user_id student_B = "uB"
  /\ ~ In (Profile.id student_B)
         (map StudentSearch.id
            (StudentSearch.filterStudents toLowerCase_ascii compare_code_units
               (StudentSearch.fetchStudents directory_db (Some "uB"))
               "" "all" "all" "all")).
Proof.
  repeat split; try (cbn; tauto).
  vm_compute. intros [H | [H | []]]; discriminate H.
Qed.

(** ** Reviewing documents (DocumentApproval.tsx) *)

Section Review.

Import DocumentApproval.

Variable timestamptz_compare : timestamptz -> timestamptz -> Z.
Variable parseInt : string -> number.
Variable number_of_field : string -> option Q.

Lemma filter_nonempty {A} (f : A -> bool) (l : list A) (x : A) :
  In x l -> f x = true -> filter f l <> [].
Proof.
  intros Hin Hf E.
  assert (In x (filter f l)) as H by (apply filter_In; auto).
  rewrite E in H. exact H.
Qed.

(** The [facultyProfile] state, once fetched, is the caller's own profile. *)
Lemma fetchFacultyProfile_Some (db : Db) (auth_uid : option uuid)
    (fp : Profile.row) :
  fetchFacultyProfile db auth_uid = Some fp ->
  In fp (profiles db) /\ auth_uid = Some (Profile.user_id fp).
Proof.
  unfold fetchFacultyProfile, Sql.select_where.
  destruct (filter _ (filter _ _)) as [| p [| q l]] eqn:E; try discriminate.
  intro H. injection H as ->.
  assert (Hin : In fp [fp]) by (left; reflexivity).
  rewrite <- E in Hin. apply filter_In in Hin. destruct Hin as [Hin _].
  apply filter_In in Hin. destruct Hin as [Hin Hu]. split; [exact Hin |].
  destruct auth_uid as [u |]; cbn in Hu; [| discriminate].
  destruct (String.eqb_spec (Profile.user_id fp) u); congruence.
Qed.

(** A faculty caller passes the UPDATE policy of [documents] on every row. *)
Lemma documents_update_faculty (db : Db) (fp : Profile.row) (d : Document.row) :
  In fp (profiles db) ->
  Profile.user_type fp = Profile.faculty ->
  Rls.documents_update db (Some (Profile.user_id fp)) d = true.
Proof.
  intros Hin Hty.
  unfold Rls.documents_update, Rls.is_faculty, Sql.select_where, Sql.EXISTS.
  destruct (filter _ (profiles db)) as [| p l] eqn:E; [| reflexivity].
  exfalso. revert E. apply (filter_nonempty _ _ fp Hin).
  cbn. rewrite String.eqb_refl, Hty. reflexivity.
Qed.

Lemma profile_id_known (db : Db) (fp : Profile.row) :
  In fp (profiles db) ->
  existsb (fun p => String.eqb (Profile.id p) (Profile.id fp)) (profiles db)
  = true.
Proof.
  intro Hin. apply existsb_exists. exists fp. split; [exact Hin |].
  apply String.eqb_refl.
Qed.

(** What [handleApproval] does for a faculty reviewer: every row with the
    id is rewritten, whatever it holds, and the toast reports success. *)
Lemma handleApproval_faculty
    (db : Db) (auth_uid : option uuid) (fp : Profile.row)
    (now : timestamptz) (documentId : uuid) (approved : bool)
    (reason : option string) (points : option Z) :
  fetchFacultyProfile db auth_uid = Some fp ->
  Profile.user_type fp = Profile.faculty ->
  Profile.id fp <> "" ->
  points_fit approved points = true ->
  handleApproval db auth_uid (Some fp) now documentId approved reason points
  = (set_documents db
       (map (fun d =>
               if String.eqb (Document.id d) documentId
               then updated_row (Profile.id fp) now approved reason points d
               else d)
          (documents db)),
     if approved
     then Document_approved
            match points with
            | Some p => if p =? 0 then None else Some p
            | None => None
            end
     else Document_rejected).
Proof.
  intros Hfetch Hty Hid Hfit.
  destruct (fetchFacultyProfile_Some _ _ _ Hfetch) as [Hin ->].
  unfold handleApproval, Js.truthy_string.
  apply String.eqb_neq in Hid. rewrite Hid. cbn [negb].
  rewrite Hfit. cbn [negb]. rewrite andb_false_r.
  rewrite (profile_id_known db fp Hin). cbn [negb]. rewrite andb_false_r.
  f_equal. f_equal. apply map_ext. intro d.
  unfold update_target. rewrite (documents_update_faculty db fp d Hin Hty).
  rewrite andb_true_r. reflexivity.
Qed.

(** What [handleApproval] does for a faculty reviewer with points that the
    column cannot hold: the statement fails on the document with the id,
    nothing is written and the toast shows the error. *)
Lemma handleApproval_out_of_range
    (db : Db) (auth_uid : option uuid) (fp : Profile.row)
    (now : timestamptz) (documentId : uuid) (approved : bool)
    (reason : option string) (points : option Z) (d : Document.row) :
  fetchFacultyProfile db auth_uid = Some fp ->
  Profile.user_type fp = Profile.faculty ->
  Profile.id fp <> "" ->
  points_fit approved points = false ->
  In d (documents db) ->
  Document.id d = documentId ->
  handleApproval db auth_uid (Some fp) now documentId approved reason points
  = (db, Error_processing_document "out of range for type integer").
Proof.
  intros Hfetch Hty Hid Hfit Hd Hdid.
  destruct (fetchFacultyProfile_Some _ _ _ Hfetch) as [Hin ->].
  unfold handleApproval, Js.truthy_string.
  apply String.eqb_neq in Hid. rewrite Hid. cbn [negb].
  rewrite Hfit. cbn [negb].
  assert (Hex : existsb (update_target db (Some (Profile.user_id fp)) documentId)
                  (documents db) = true).
  { apply existsb_exists. exists d. split; [exact Hd |].
    unfold update_target.
    rewrite Hdid, String.eqb_refl, (documents_update_faculty db fp d Hin Hty).
    reflexivity. }
  rewrite Hex. reflexivity.
Qed.

(** Points are within the column's range when none are sent, and when
    they are between the bounds of [integer]. *)
Lemma points_fit_rejection (points : option Z) : points_fit false points = true.
Proof. unfold points_fit, sent_points. destruct points; reflexivity. Qed.

Lemma points_fit_int4 (approved : bool) (p : Z) :
  -2147483648 <= p <= 2147483647 -> points_fit approved (Some p) = true.
Proof.
  intro Hp. unfold points_fit, sent_points.
  destruct (approved && negb (p =? 0)); [| reflexivity].
  unfold Sql.int4.
  destruct (Z.leb_spec (-2147483648) p), (Z.leb_spec p 2147483647);
    try lia; reflexivity.
Qed.

Lemma points_fit_false (approved : bool) (points : option Z) :
  points_fit approved points = false ->
  exists p, points = Some p /\ approved = true
            /\ (p < -2147483648 \/ 2147483647 < p).
Proof.
  unfold points_fit, sent_points.
  destruct points as [p |]; [| discriminate].
  destruct approved; cbn [andb]; [| discriminate].
  destruct (p =? 0); cbn [negb]; [discriminate |].
  unfold Sql.int4. intro H. exists p. split; [reflexivity |].
  split; [reflexivity |].
  destruct (Z.leb_spec (-2147483648) p), (Z.leb_spec p 2147483647);
    cbn [andb] in H; try discriminate; lia.
Qed.

(** The review list holds pending documents only. *)
Lemma fetchPendingDocuments_pending (db : Db) (auth_uid : option uuid)
    (d : Document.row) :
  In d (fetchPendingDocuments db auth_uid timestamptz_compare) ->
  In d (documents db) /\ Document.status d = Document.pending.
Proof.
  unfold fetchPendingDocuments, Sql.select_where.
  rewrite In_sort, !filter_In. cbn. intros [[Hin Hst] _].
  split; [exact Hin |].
  destruct (Document.status d); cbn in Hst; congruence.
Qed.

Lemma updated_rows_In
    (docs : list Document.row) (documentId : uuid)
    (g : Document.row -> Document.row) (d : Document.row) :
  In d docs ->
  In (if String.eqb (Document.id d) documentId then g d else d)
     (map (fun d => if String.eqb (Document.id d) documentId then g d else d)
        docs).
Proof.
  intro H.
  exact (in_map
           (fun d => if String.eqb (Document.id d) documentId then g d else d)
           docs d H).
Qed.

(** No call of [handleApproval] touches [profiles], so the
    [facultyProfile] of the caller is the same after it. *)
Lemma handleApproval_profiles
    (db : Db) (auth_uid : option uuid) (facultyProfile : option Profile.row)
    (now : timestamptz) (documentId : uuid) (approved : bool)
    (reason : option string) (points : option Z) :
  profiles
    (fst (handleApproval db auth_uid facultyProfile now documentId approved
            reason points))
  = profiles db.
Proof.
  unfold handleApproval.
  destruct facultyProfile as [fp |]; [| reflexivity].
  destruct (negb _); [reflexivity |].
  destruct (_ && negb (points_fit _ _)); [reflexivity |].
  destruct (_ && negb (existsb _ _)); reflexivity.
Qed.

Lemma fetchFacultyProfile_profiles (db db' : Db) (auth_uid : option uuid) :
  profiles db' = profiles db ->
  fetchFacultyProfile db' auth_uid = fetchFacultyProfile db auth_uid.
Proof. unfold fetchFacultyProfile. intros ->. reflexivity. Qed.

(** Points that the update sends are within the range of [integer], or
    are not. *)
Lemma points_fit_true (approved : bool) (points : option Z) :
  (forall p, approved = true -> points = Some p ->
     -2147483648 <= p <= 2147483647) ->
  points_fit approved points = true.
Proof.
  intro H. destruct points as [p |]; [| reflexivity].
  destruct approved; [| apply points_fit_rejection].
  apply points_fit_int4. apply H; reflexivity.
Qed.

Lemma points_fit_out (p : Z) :
  p < -2147483648 \/ 2147483647 < p -> points_fit true (Some p) = false.
Proof.
  intro H. unfold points_fit, sent_points. cbn [andb].
  destruct (Z.eqb_spec p 0) as [-> | _]; [lia |]. cbn [negb].
  unfold Sql.int4.
  destruct (Z.leb_spec (-2147483648) p), (Z.leb_spec p 2147483647);
    try lia; reflexivity.
Qed.


Lemma Qle_bool_inject_Z (a b : Z) :
  Qle_bool (inject_Z a) (inject_Z b) = (a <=? b).
Proof. unfold Qle_bool, inject_Z. cbn. rewrite !Z.mul_1_r. reflexivity. Qed.

Lemma is_integer_inject_Z (z : Z) : is_integer (inject_Z z) = true.
Proof. unfold is_integer, inject_Z. cbn. rewrite Z.mod_1_r. reflexivity. Qed.


End Review.





(** ** Answering collaboration requests (CollaborationRequests.tsx) *)

Section Collaboration.

Import CollaborationRequests.

(** The UPDATE policy passes exactly for the profile named in
    [requested_id]. *)
Lemma collaboration_requests_update_iff
    (db : Db) (auth_uid : option uuid) (r : CollaborationRequest.row) :
  Rls.collaboration_requests_update db auth_uid r = true
  <-> exists p : Profile.row,
        In p (profiles db)
        /\ Profile.id p = CollaborationRequest.requested_id r
        /\ auth_uid = Some (Profile.user_id p).
Proof.
  unfold Rls.collaboration_requests_update, Sql.select_where, Sql.EXISTS.
  split.
  - destruct (filter _ (profiles db)) as [| p l] eqn:E; [discriminate |].
    intros _. exists p.
    assert (Hin : In p (p :: l)) by (left; reflexivity).
    rewrite <- E in Hin. apply filter_In in Hin. destruct Hin as [Hin Hc].
    split; [exact Hin |].
    destruct auth_uid as [u |]; cbn in Hc.
    + destruct (String.eqb_spec (Profile.id p)
                  (CollaborationRequest.requested_id r));
        destruct (String.eqb_spec (Profile.user_id p) u);
        cbn in Hc; try discriminate. split; congruence.
    + destruct (String.eqb _ _); discriminate.
  - intros [p [Hin [Hid ->]]].
    destruct (filter _ (profiles db)) as [| q l] eqn:E; [| reflexivity].
    exfalso. revert E. apply (filter_nonempty _ _ p Hin).
    cbn. rewrite Hid, !String.eqb_refl. reflexivity.
Qed.

Lemma requests_rewritten_In
    (reqs : list CollaborationRequest.row)
    (g : CollaborationRequest.row -> CollaborationRequest.row)
    (r : CollaborationRequest.row) :
  In r reqs -> In (g r) (map g reqs).
Proof. apply in_map. Qed.


End Collaboration.



(** ** Uploading a document (DocumentUpload.tsx) *)

Section Upload.

Import DocumentUpload.

Lemma object_name_eqb_refl (n : object_name) : object_name_eqb n n = true.
Proof.
  unfold object_name_eqb. rewrite !String.eqb_refl, Z.eqb_refl. reflexivity.
Qed.

(** Removing a name that was not in the bucket before it was added gives
    the bucket back. *)
Lemma remove_fresh_object (fileName : object_name) (file : File)
    (objects : list (object_name * File)) :
  existsb (fun o => object_name_eqb (fst o) fileName) objects = false ->
  filter (fun o => negb (object_name_eqb (fst o) fileName))
    (objects ++ [(fileName, file)])
  = objects.
Proof.
  intro Hfresh. rewrite filter_app. cbn [filter fst].
  rewrite object_name_eqb_refl. cbn [negb]. rewrite app_nil_r.
  induction objects as [| o objects IH]; [reflexivity |].
  cbn [existsb] in Hfresh. apply orb_false_elim in Hfresh.
  destruct Hfresh as [Ho Hrest].
  cbn [filter]. rewrite Ho. cbn [negb]. f_equal. apply IH. exact Hrest.
Qed.

(** A successful upload adds the object under a name that was free. *)
Lemma upload_success (be : backend) (user : option uuid)
    (fileName : object_name) (file : File) (w w1 : World) :
  upload be user fileName file w = (w1, None) ->
  has_object fileName w = false
  /\ w1 = {| db := db w; storage := storage w ++ [(fileName, file)] |}.
Proof.
  unfold upload. destruct user as [u |]; [| discriminate].
  destruct (has_object fileName w); [discriminate |].
  destruct (upload_error be); [discriminate |].
  intro H. injection H as <-. auto.
Qed.

(** A failed insert leaves the world as it was. *)
Lemma insert_failure (be : backend) (user : option uuid)
    (documentData : Document.row) (w w2 : World) (dbError : string) :
  insert be user documentData w = (w2, Some dbError) -> w2 = w.
Proof.
  unfold insert. destruct (negb _).
  - intro H. injection H as <- _. reflexivity.
  - destruct (insert_error be); [| discriminate].
    intro H. injection H as <- _. reflexivity.
Qed.

Variable getPublicUrl : object_name -> string.

(** C10, as the code has it.  When the upload has succeeded and the insert
    fails, [handleFileUpload] asks the storage to remove the object it has
    just uploaded and then shows "Upload failed" with the error of the
    insert, in this order; no document row is added; the bucket is as it
    was before the call when the removal succeeds, and still holds the new
    object when the removal fails, which the handler does not look at. *)
Theorem handleFileUpload_cleans_up_after_failed_insert :
  forall (be : backend) (profile : Profile.row) (user : option uuid)
         (file : File) (title description : string)
         (Date_now : Z) (now : timestamptz) (new_id : uuid) (w : World),
    let fileName :=
      {| folder := match user with Some u => u | None => "undefined" end;
         stamp := Date_now;
         ext := fileExt file |} in
    let documentData :=
      {| Document.id := new_id;
         Document.student_id := Profile.id profile;
         Document.title := title;
         Document.description := Some description;
         Document.file_url := getPublicUrl fileName;
         Document.file_type := type file;
         Document.file_size := Some (size file);
         Document.status := Document.pending;
         Document.uploaded_at := now;
         Document.approved_by := None;
         Document.approved_at := None;
         Document.rejection_reason := None;
         Document.points_awarded := Some 0 |} in
    forall (w1 w2 : World) (dbError : string),
      upload be user fileName file w = (w1, None) ->
      insert be user documentData w1 = (w2, Some dbError) ->
      forall (w' : World) (events : list event),
        handleFileUpload getPublicUrl be (Some profile) user (Some file)
          title description Date_now now new_id w = (w', events) ->
        events = [storage_upload fileName None;
                  db_insert (Some dbError);
                  storage_remove fileName (remove_error be);
                  toast_shown (Upload_failed dbError)]
        /\ db w' = db w
        /\ (remove_error be = None -> storage w' = storage w)
        /\ (remove_error be <> None ->
            storage w' = storage w ++ [(fileName, file)]).
Proof.
  intros be profile user file title description Date_now now new_id w
    fileName documentData w1 w2 dbError Hup Hins w' events Hcall.
  unfold handleFileUpload in Hcall.
  fold fileName in Hcall. rewrite Hup in Hcall.
  fold documentData in Hcall. rewrite Hins in Hcall.
  apply insert_failure in Hins. subst w2.
  apply upload_success in Hup. destruct Hup as [Hfresh ->].
  unfold remove in Hcall. cbn [db storage] in Hcall.
  destruct (remove_error be) as [e |]; injection Hcall as <- <-;
    cbn [db storage].
  - repeat split; try reflexivity. intro H. discriminate H.
  - repeat split; try reflexivity.
    + intros _. apply remove_fresh_object. exact Hfresh.
    + intro H. contradiction H. reflexivity.
Qed.

End Upload.

Lemma handleFileUpload_cleans_up_after_failed_insert_witness :
  let result :=
    DocumentUpload.handleFileUpload publicUrl_of insert_fails
      (Some student_A) (Some "uA") (Some certificate_pdf)
      "Certificate" "Course certificate" 1757844000000
      "2025-09-14T10:00:00Z" "d9" empty_world in
  DocumentUpload.db (fst result) = DocumentUpload.db empty_world
  /\ DocumentUpload.storage (fst result) = DocumentUpload.storage empty_world.
Proof.
  intro result.
  destruct (DocumentUpload.upload insert_fails (Some "uA")
              {| DocumentUpload.folder := "uA";
                 DocumentUpload.stamp := 1757844000000;
                 DocumentUpload.ext := DocumentUpload.fileExt certificate_pdf |}
              certificate_pdf empty_world) as [w1 e1] eqn:Hup.
  vm_compute in Hup. injection Hup as <- <-.
  pose proof (handleFileUpload_cleans_up_after_failed_insert
                publicUrl_of insert_fails student_A (Some "uA")
                certificate_pdf "Certificate" "Course certificate"
                1757844000000 "2025-09-14T10:00:00Z" "d9" empty_world
                _ _ "connection lost" eq_refl eq_refl
                (fst result) (snd result) eq_refl)
    as [_ [Hdb [Hst _]]].
  split; [exact Hdb | exact (Hst eq_refl)].
Defined.

(** C10, as the specification words it, fails when the removal fails too:
    the upload has succeeded, the insert and then the removal fail, the
    handler reports the error of the insert, no document row exists, and
    the uploaded file is still in the bucket. *)
Lemma failed_cleanup_leaves_the_file :
  let result :=
    DocumentUpload.handleFileUpload publicUrl_of insert_and_remove_fail
      (Some student_A) (Some "uA") (Some certificate_pdf)
      "Certificate" "Course certificate" 1757844000000
      "2025-09-14T10:00:00Z" "d9" empty_world in
  let fileName :=
    {| DocumentUpload.folder := "uA";
       DocumentUpload.stamp := 1757844000000;
       DocumentUpload.ext := "pdf" |} in
  snd result
  = [DocumentUpload.storage_upload fileName None;
     DocumentUpload.db_insert (Some "connection lost");
     DocumentUpload.storage_remove fileName (Some "connection lost");
     DocumentUpload.toast_shown (DocumentUpload.Upload_failed "connection lost")]
  /\ documents (DocumentUpload.db (fst result)) = []
  /\ DocumentUpload.storage empty_world = []
  /\ DocumentUpload.storage (fst result) = [(fileName, certificate_pdf)].
Proof. vm_compute. repeat split. Qed.

(** ** The order of the directory *)

Section SortOrder.

Variable A : Type.
Variable comparefn : A -> A -> Z.

Hypothesis comparefn_total :
  forall a b, comparefn a b <= 0 \/ comparefn b a <= 0.
Hypothesis comparefn_trans :
  forall a b c, comparefn a b <= 0 -> comparefn b c <= 0 -> comparefn a c <= 0.

Lemma In_insert (x y : A) (l : list A) :
  In y (Js.insert comparefn x l) <-> x = y \/ In y l.
Proof.
  split; intro H.
  - apply (Permutation_in _ (insert_Permutation A comparefn x l)) in H.
    exact H.
  - apply (Permutation_in _ (Permutation_sym (insert_Permutation A comparefn x l))).
    exact H.
Qed.

Lemma insert_StronglySorted (x : A) (l : list A) :
  StronglySorted (Js.before comparefn) l ->
  StronglySorted (Js.before comparefn) (Js.insert comparefn x l).
Proof.
  induction l as [| y l IH]; intro Hs; cbn [Js.insert].
  - constructor; constructor.
  - apply StronglySorted_inv in Hs. destruct Hs as [Hl Hy].
    destruct (Z.leb_spec (comparefn x y) 0) as [Hxy | Hxy].
    + constructor; [constructor; assumption |].
      constructor; [exact Hxy |].
      rewrite Forall_forall in *. intros z Hz.
      apply (comparefn_trans x y z Hxy). apply Hy. exact Hz.
    + constructor; [apply IH; exact Hl |].
      rewrite Forall_forall in *. intros z Hz.
      apply In_insert in Hz. destruct Hz as [<- | Hz].
      * destruct (comparefn_total x y) as [H | H]; [lia | exact H].
      * apply Hy. exact Hz.
Qed.

Lemma sort_StronglySorted (l : list A) :
  StronglySorted (Js.before comparefn) (Js.sort comparefn l).
Proof.
  induction l as [| x l IH]; cbn [Js.sort fold_right].
  - constructor.
  - apply insert_StronglySorted. exact IH.
Qed.

(** Stability: the elements tied with [z] leave the sort in the order in
    which they entered. *)
Lemma insert_tied (z x : A) (l : list A) :
  filter (Js.tied comparefn z) (Js.insert comparefn x l)
  = filter (Js.tied comparefn z) (x :: l).
Proof.
  induction l as [| y l IH]; cbn [Js.insert]; [reflexivity |].
  destruct (Z.leb_spec (comparefn x y) 0) as [Hxy | Hxy]; [reflexivity |].
  cbn [filter] in *. rewrite IH.
  destruct (Js.tied comparefn z x) eqn:Hx;
    destruct (Js.tied comparefn z y) eqn:Hy; try reflexivity.
  exfalso. unfold Js.tied in Hx, Hy.
  apply andb_prop in Hx. destruct Hx as [_ Hxz].
  apply andb_prop in Hy. destruct Hy as [Hzy _].
  apply Z.leb_le in Hxz, Hzy.
  pose proof (comparefn_trans x z y Hxz Hzy). lia.
Qed.

Lemma sort_stable (z : A) (l : list A) :
  filter (Js.tied comparefn z) (Js.sort comparefn l)
  = filter (Js.tied comparefn z) l.
Proof.
  induction l as [| x l IH]; cbn [Js.sort fold_right]; [reflexivity |].
  rewrite insert_tied. cbn [filter]. fold (Js.sort comparefn l).
  rewrite IH. reflexivity.
Qed.

Lemma comparefn_refl (a : A) : comparefn a a <= 0.
Proof. destruct (comparefn_total a a); assumption. Qed.

Lemma tied_refl (a : A) : Js.tied comparefn a a = true.
Proof.
  unfold Js.tied. pose proof (comparefn_refl a) as H.
  apply Z.leb_le in H. rewrite H. reflexivity.
Qed.

Lemma tied_sym (a b : A) : Js.tied comparefn a b = Js.tied comparefn b a.
Proof. unfold Js.tied. apply andb_comm. Qed.

Lemma tied_trans (a b c : A) :
  Js.tied comparefn a b = true ->
  Js.tied comparefn b c = true ->
  Js.tied comparefn a c = true.
Proof.
  unfold Js.tied. rewrite !andb_true_iff, !Z.leb_le.
  intros [Hab Hba] [Hbc Hcb]. split.
  - apply (comparefn_trans a b c); assumption.
  - apply (comparefn_trans c b a); assumption.
Qed.

(** The head of a sorted list may stand before every element of a
    rearrangement of the list. *)
Lemma head_before (a : A) (l l' : list A) (b : A) :
  StronglySorted (Js.before comparefn) (a :: l) ->
  Permutation (a :: l) l' ->
  In b l' ->
  comparefn a b <= 0.
Proof.
  intros Hs Hp Hb.
  apply StronglySorted_inv in Hs. destruct Hs as [_ Ha].
  apply (Permutation_in _ (Permutation_sym Hp)) in Hb.
  destruct Hb as [<- | Hb].
  - apply comparefn_refl.
  - rewrite Forall_forall in Ha. apply Ha. exact Hb.
Qed.

(** A list has one sorted rearrangement that keeps tied elements in
    their order: being sorted and stable fixes the result of a sort. *)
Lemma sorted_stable_unique (l1 l2 : list A) :
  Permutation l1 l2 ->
  StronglySorted (Js.before comparefn) l1 ->
  StronglySorted (Js.before comparefn) l2 ->
  (forall z, filter (Js.tied comparefn z) l1 = filter (Js.tied comparefn z) l2) ->
  l1 = l2.
Proof.
  revert l2. induction l1 as [| a l1 IH]; intros l2 Hp Hs1 Hs2 Hst.
  - symmetry. apply Permutation_nil. exact Hp.
  - destruct l2 as [| b l2].
    + apply Permutation_sym, Permutation_nil in Hp. discriminate Hp.
    + assert (Hab : Js.tied comparefn a b = true).
      { unfold Js.tied. apply andb_true_iff. rewrite !Z.leb_le. split.
        - apply (head_before a l1 (b :: l2) b Hs1 Hp). left. reflexivity.
        - apply (head_before b l2 (a :: l1) a Hs2 (Permutation_sym Hp)).
          left. reflexivity. }
      assert (a = b) as <-.
      { pose proof (Hst a) as H. cbn [filter] in H.
        rewrite tied_refl, Hab in H. injection H as H _. exact H. }
      f_equal. apply IH.
      * apply (Permutation_cons_inv Hp).
      * apply StronglySorted_inv in Hs1. apply Hs1.
      * apply StronglySorted_inv in Hs2. apply Hs2.
      * intro z. pose proof (Hst z) as H. cbn [filter] in H.
        destruct (Js.tied comparefn z a); [injection H as H |]; exact H.
Qed.

Lemma sort_unique (l l' : list A) :
  Permutation l' l ->
  StronglySorted (Js.before comparefn) l' ->
  (forall z, filter (Js.tied comparefn z) l' = filter (Js.tied comparefn z) l) ->
  l' = Js.sort comparefn l.
Proof.
  intros Hp Hs Hst. apply sorted_stable_unique.
  - apply (perm_trans Hp). apply Permutation_sym, sort_Permutation.
  - exact Hs.
  - apply sort_StronglySorted.
  - intro z. rewrite sort_stable. apply Hst.
Qed.

Lemma filter_Permutation (f : A -> bool) (l l' : list A) :
  Permutation l l' -> Permutation (filter f l) (filter f l').
Proof.
  induction 1 as [| x l l' _ IH | x y l | l l' l'' _ IH1 _ IH2]; cbn [filter].
  - apply perm_nil.
  - destruct (f x); [apply perm_skip |]; exact IH.
  - destruct (f x), (f y); try apply Permutation_refl. apply perm_swap.
  - apply (perm_trans IH1 IH2).
Qed.

Lemma Permutation_of_equals (l l' : list A) :
  Permutation l l' ->
  (forall x y, In x l -> In y l -> x = y) ->
  l = l'.
Proof.
  induction 1 as [| x l l' _ IH | x y l | l l' l'' _ IH1 _ IH2]; intro Heq.
  - reflexivity.
  - f_equal. apply IH. intros a b Ha Hb. apply Heq; right; assumption.
  - rewrite (Heq x y); [reflexivity | right; left | left]; reflexivity.
  - rewrite (IH1 Heq) in Heq |- *. apply IH2. exact Heq.
Qed.

(** Without two different tied elements, the sort does not depend on the
    order of its input. *)
Lemma sort_order_independent (l1 l2 : list A) :
  Permutation l1 l2 ->
  (forall x y, In x l1 -> In y l1 -> Js.tied comparefn x y = true -> x = y) ->
  Js.sort comparefn l1 = Js.sort comparefn l2.
Proof.
  intros Hp Hties. apply sorted_stable_unique.
  - apply (perm_trans (sort_Permutation A comparefn l1)).
    apply (perm_trans Hp). apply Permutation_sym, sort_Permutation.
  - apply sort_StronglySorted.
  - apply sort_StronglySorted.
  - intro z. rewrite !sort_stable.
    apply Permutation_of_equals.
    + apply filter_Permutation. exact Hp.
    + intros x y Hx Hy. apply filter_In in Hx, Hy.
      destruct Hx as [Hx Hzx], Hy as [Hy Hzy].
      apply (Hties x y Hx Hy).
      apply (tied_trans x z y); [rewrite tied_sym |]; assumption.
Qed.

End SortOrder.

Lemma StronglySorted_impl {A} (R S : A -> A -> Prop) (l : list A) :
  (forall a b, R a b -> S a b) -> StronglySorted R l -> StronglySorted S l.
Proof.
  intros HRS Hl. induction Hl as [| a l Hl IH Ha]; constructor.
  - exact IH.
  - apply (Forall_impl _ (HRS a) Ha).
Qed.

Lemma filter_filter_andb {A} (f g : A -> bool) (l : list A) :
  filter g (filter f l) = filter (fun x => f x && g x) l.
Proof.
  induction l as [| x l IH]; [reflexivity |].
  cbn [filter]. destruct (f x); cbn [filter andb]; rewrite IH; reflexivity.
Qed.

Lemma optional_filter {A} (b : bool) (f : A -> bool) (l : list A) :
  (if b then filter f l else l) = filter (fun x => if b then f x else true) l.
Proof.
  destruct b; [reflexivity |].
  induction l as [| x l IH]; [reflexivity |].
  cbn [filter]. rewrite <- IH. reflexivity.
Qed.

Section DirectoryOrder.

Import StudentSearch.

Variable toLowerCase : string -> string.
Variable localeCompare : string -> string -> Z.

(** [filterStudents] sorts the students that pass the four filters. *)
Lemma filterStudents_sort_kept
    (students : list Student)
    (searchTerm selectedDepartment selectedCollege selectedSkill : string) :
  filterStudents toLowerCase localeCompare students
    searchTerm selectedDepartment selectedCollege selectedSkill
  = Js.sort (comparefn localeCompare)
      (filter (kept toLowerCase searchTerm selectedDepartment selectedCollege
                 selectedSkill) students).
Proof.
  unfold filterStudents. f_equal.
  rewrite !optional_filter, !filter_filter_andb.
  apply filter_ext. intro student.
  unfold kept. rewrite !andb_assoc. reflexivity.
Qed.

(** The comparator puts [a] before [b] when [a] has more points, or as
    many and a name that [localeCompare] does not put after. *)
Lemma comparefn_before (a b : Student) :
  comparefn localeCompare a b <= 0
  <-> achievement_points b < achievement_points a
      \/ (achievement_points a = achievement_points b
          /\ localeCompare (full_name a) (full_name b) <= 0).
Proof.
  unfold comparefn. rewrite !or0_Some.
  destruct (Z.eqb_spec (achievement_points b) (achievement_points a));
    cbn [negb]; lia.
Qed.

Lemma comparefn_tied (a b : Student) :
  Js.tied (comparefn localeCompare) a b = true
  <-> achievement_points a = achievement_points b
      /\ localeCompare (full_name a) (full_name b) <= 0
      /\ localeCompare (full_name b) (full_name a) <= 0.
Proof.
  unfold Js.tied. rewrite andb_true_iff, !Z.leb_le, !comparefn_before. lia.
Qed.

Hypothesis localeCompare_total :
  forall a b, localeCompare a b <= 0 \/ localeCompare b a <= 0.
Hypothesis localeCompare_trans :
  forall a b c,
    localeCompare a b <= 0 -> localeCompare b c <= 0 -> localeCompare a c <= 0.

Lemma comparefn_total (a b : Student) :
  comparefn localeCompare a b <= 0 \/ comparefn localeCompare b a <= 0.
Proof.
  rewrite !comparefn_before.
  destruct (localeCompare_total (full_name a) (full_name b)); lia.
Qed.

Lemma comparefn_trans (a b c : Student) :
  comparefn localeCompare a b <= 0 ->
  comparefn localeCompare b c <= 0 ->
  comparefn localeCompare a c <= 0.
Proof.
  rewrite !comparefn_before.
  intros [H1 | [H1 L1]] [H2 | [H2 L2]]; try lia.
  right. split; [lia |].
  apply (localeCompare_trans _ _ _ L1 L2).
Qed.

(** C5, as the code has it.  The list shown is a rearrangement of the
    students that pass the filters, in descending order of
    [achievement_points]; of two students with the same points the one
    placed first has a name that [localeCompare] does not put after the
    other's; the students that neither the points nor [localeCompare]
    tell apart stand in the order in which the fetched list has them; and
    when no two different students that pass the filters are tied in this
    way, every order of the fetched list gives the same list shown. *)
Theorem filterStudents_sorted_and_stable :
  forall (students : list Student)
         (searchTerm selectedDepartment selectedCollege selectedSkill : string),
    let passed :=
      filter (kept toLowerCase searchTerm selectedDepartment selectedCollege
                selectedSkill) students in
    let shown :=
      filterStudents toLowerCase localeCompare students
        searchTerm selectedDepartment selectedCollege selectedSkill in
    Permutation shown passed
    /\ StronglySorted
         (fun a b =>
            achievement_points b <= achievement_points a
            /\ (achievement_points a = achievement_points b ->
                localeCompare (full_name a) (full_name b) <= 0))
         shown
    /\ (forall x : Student,
          filter (Js.tied (comparefn localeCompare) x) shown
          = filter (Js.tied (comparefn localeCompare) x) passed)
    /\ (forall x y : Student,
          Js.tied (comparefn localeCompare) x y = true
          <-> achievement_points x = achievement_points y
              /\ localeCompare (full_name x) (full_name y) <= 0
              /\ localeCompare (full_name y) (full_name x) <= 0)
    /\ (forall students' : list Student,
          Permutation students students' ->
          (forall x y, In x passed -> In y passed ->
             Js.tied (comparefn localeCompare) x y = true -> x = y) ->
          filterStudents toLowerCase localeCompare students'
            searchTerm selectedDepartment selectedCollege selectedSkill
          = shown).
Proof.
  intros students searchTerm selectedDepartment selectedCollege selectedSkill
    passed shown.
  subst shown. rewrite filterStudents_sort_kept. fold passed.
  split; [| split; [| split; [| split; [exact comparefn_tied |]]]].
  4: { intros students' Hp Hties. rewrite filterStudents_sort_kept.
       symmetry.
       apply (sort_order_independent _ _ comparefn_total comparefn_trans).
       - apply filter_Permutation. exact Hp.
       - exact Hties. }
  - apply sort_Permutation.
  - apply (StronglySorted_impl (Js.before (comparefn localeCompare))).
    + intros a b H. unfold Js.before in H. apply comparefn_before in H. lia.
    + apply sort_StronglySorted; [exact comparefn_total | exact comparefn_trans].
  - intro x. apply sort_stable. exact comparefn_trans.
Qed.

End DirectoryOrder.

(** Comparison by code units is a total preorder. *)
Lemma compare_code_units_before (a b : string) :
  compare_code_units a b <= 0 <-> String.compare a b <> Gt.
Proof.
  unfold compare_code_units.
  destruct (String.compare a b); split; intro H; try lia; congruence.
Qed.

Lemma compare_code_units_total (a b : string) :
  compare_code_units a b <= 0 \/ compare_code_units b a <= 0.
Proof.
  rewrite !compare_code_units_before, (String.compare_antisym a b).
  destruct (String.compare b a); cbn; [left | right | left]; congruence.
Qed.

Lemma compare_code_units_trans (a b c : string) :
  compare_code_units a b <= 0 ->
  compare_code_units b c <= 0 ->
  compare_code_units a c <= 0.
Proof.
  rewrite !compare_code_units_before. intros Hab Hbc.
  destruct (String.compare a b) eqn:Eab; [| | congruence].
  - apply OrderedTypeEx.String_as_OT.cmp_eq in Eab. subst b. exact Hbc.
  - destruct (String.compare b c) eqn:Ebc; [| | congruence].
    + apply OrderedTypeEx.String_as_OT.cmp_eq in Ebc. subst c.
      rewrite Eab. discriminate.
    + apply OrderedTypeEx.String_as_OT.cmp_lt in Eab, Ebc.
      pose proof (OrderedTypeEx.String_as_OT.lt_trans _ _ _ Eab Ebc) as H.
      apply OrderedTypeEx.String_as_OT.cmp_lt in H.
      unfold OrderedTypeEx.String_as_OT.cmp in H. rewrite H. discriminate.
Qed.

Lemma filterStudents_sorted_and_stable_witness :
  Permutation
    (StudentSearch.filterStudents toLowerCase_ascii compare_code_units
       [amy; sam_1; cy; bob; sam_2] "" "all" "all" "all")
    [amy; sam_1; cy; bob; sam_2]
  /\ map StudentSearch.id
       (filter (Js.tied (StudentSearch.comparefn compare_code_units) sam_2)
          (StudentSearch.filterStudents toLowerCase_ascii compare_code_units
             [amy; sam_1; cy; bob; sam_2] "" "all" "all" "all"))
     = ["s1"; "s2"].
Proof.
  pose proof (filterStudents_sorted_and_stable
                toLowerCase_ascii compare_code_units
                compare_code_units_total compare_code_units_trans
                [amy; sam_1; cy; bob; sam_2] "" "all" "all" "all")
    as [Hperm [_ [Hstable _]]].
  split.
  - exact Hperm.
  - rewrite (Hstable sam_2). reflexivity.
Defined.

(** C5, as the specification words it, fails.  Two students with the same
    points and the same name are shown in the order of the fetched list, so
    the order of the result follows the order of the store; and the order
    of two names is the one the collation gives, which for a collation that
    compares letters before case is not the order of the code units. *)
Lemma order_follows_store_and_collation :
  (StudentSearch.achievement_points sam_1 = StudentSearch.achievement_points sam_2
   /\ StudentSearch.full_name sam_1 = StudentSearch.full_name sam_2
   /\ map StudentSearch.id
        (StudentSearch.filterStudents toLowerCase_ascii compare_code_units
           [sam_1; sam_2] "" "all" "all" "all") = ["s1"; "s2"]
   /\ map StudentSearch.id
        (StudentSearch.filterStudents toLowerCase_ascii compare_code_units
           [sam_2; sam_1] "" "all" "all" "all") = ["s2"; "s1"])
  /\ (StudentSearch.achievement_points amy = StudentSearch.achievement_points bob
      /\ String.compare (StudentSearch.full_name bob) (StudentSearch.full_name amy)
         = Lt
      /\ map StudentSearch.full_name
           (StudentSearch.filterStudents toLowerCase_ascii compare_ignoring_case
              [bob; amy] "" "all" "all" "all") = ["amy"; "Bob"]).
Proof. vm_compute. repeat split. Qed.

(* ================================================================= *)
(** * Further properties of the code *)

(** ** The filters of the directory and their menus (StudentSearch.tsx) *)

Section DirectoryFilters.

Import StudentSearch.

Variable toLowerCase : string -> string.
Variable localeCompare : string -> string -> Z.

Lemma active_searchTerm (searchTerm : string) (m : bool) :
  (if Js.truthy_string searchTerm then m else true) = true
  <-> searchTerm = "" \/ m = true.
Proof.
  unfold Js.truthy_string.
  destruct (String.eqb_spec searchTerm ""); cbn [negb]; intuition congruence.
Qed.

Lemma active_selection (selected : string) (field : option string) :
  (if negb (String.eqb selected "all") then strict_equal field selected
   else true) = true
  <-> selected = "all" \/ field = Some selected.
Proof.
  destruct (String.eqb_spec selected "all") as [-> | Hne]; cbn [negb].
  - intuition.
  - destruct field as [v |]; cbn [strict_equal].
    + destruct (String.eqb_spec v selected); intuition congruence.
    + intuition congruence.
Qed.

Lemma active_skill (selected : string) (s : Student) :
  (if negb (String.eqb selected "all")
   then existsb (fun skill => String.eqb (skill_name skill) selected) (skills s)
   else true) = true
  <-> selected = "all"
      \/ exists k, In k (skills s) /\ skill_name k = selected.
Proof.
  destruct (String.eqb_spec selected "all") as [-> | Hne]; cbn [negb].
  - intuition.
  - rewrite existsb_exists. split.
    + intros [k [Hk He]]. right. exists k. apply String.eqb_eq in He. auto.
    + intros [H | [k [Hk He]]]; [contradiction |].
      exists k. split; [exact Hk | apply String.eqb_eq; exact He].
Qed.

(** Who is shown: the fetched students that pass every filter that is
    set. *)
Lemma filterStudents_In
    (students : list Student)
    (searchTerm selectedDepartment selectedCollege selectedSkill : string)
    (s : Student) :
  In s (filterStudents toLowerCase localeCompare students
          searchTerm selectedDepartment selectedCollege selectedSkill)
  <-> In s students
      /\ (searchTerm = "" \/ matches_searchTerm toLowerCase searchTerm s = true)
      /\ (selectedDepartment = "all" \/ department s = Some selectedDepartment)
      /\ (selectedCollege = "all" \/ college s = Some selectedCollege)
      /\ (selectedSkill = "all"
          \/ exists k, In k (skills s) /\ skill_name k = selectedSkill).
Proof.
  rewrite filterStudents_sort_kept, In_sort, filter_In.
  unfold kept. rewrite !andb_true_iff.
  rewrite active_searchTerm, !active_selection, active_skill.
  tauto.
Qed.

Lemma prefix_occurs (sub s : string) :
  String.prefix sub s = true <-> exists after, s = (sub ++ after)%string.
Proof.
  revert s. induction sub as [| c sub IH]; intro s.
  - cbn. split; [intros _; exists s; reflexivity | destruct s; reflexivity].
  - destruct s as [| c' s]; cbn [String.prefix String.append].
    + split; [discriminate | intros [after H]; discriminate H].
    + destruct (Ascii.ascii_dec c c') as [-> | Hne].
      * rewrite IH. split; intros [after H]; exists after; congruence.
      * split; [discriminate | intros [after H]; congruence].
Qed.

(** [includes] finds exactly the strings that occur. *)
Lemma includes_occurs (s sub : string) :
  Js.includes s sub = true <-> Js.occurs_in sub s.
Proof.
  unfold Js.occurs_in. induction s as [| c s IH]; cbn [Js.includes].
  - rewrite orb_false_r, prefix_occurs. split.
    + intros [after H]. exists "", after. exact H.
    + intros [[| c before] [after H]]; [exists after; exact H |].
      discriminate H.
  - rewrite orb_true_iff, prefix_occurs, IH. split.
    + intros [[after H] | [before [after H]]].
      * exists "", after. exact H.
      * exists (String c before), after. cbn. rewrite H. reflexivity.
    + intros [[| c' before] [after H]].
      * left. exists after. exact H.
      * right. exists before, after. cbn in H. congruence.
Qed.

(** What the search box asks for: the term, in lower case, occurs in the
    lower-cased name, email, bio, or name of a skill of the student. *)
Lemma matches_searchTerm_occurs (searchTerm : string) (s : Student) :
  matches_searchTerm toLowerCase searchTerm s = true
  <-> Js.occurs_in (toLowerCase searchTerm) (toLowerCase (full_name s))
      \/ Js.occurs_in (toLowerCase searchTerm) (toLowerCase (email s))
      \/ (exists b, bio s = Some b
           /\ Js.occurs_in (toLowerCase searchTerm) (toLowerCase b))
      \/ (exists k, In k (skills s)
           /\ Js.occurs_in (toLowerCase searchTerm)
                (toLowerCase (skill_name k))).
Proof.
  unfold matches_searchTerm.
  rewrite !orb_true_iff, existsb_exists, !includes_occurs.
  assert (Hbio :
    match bio s with
    | Some b => Js.includes (toLowerCase b) (toLowerCase searchTerm)
    | None => false
    end = true
    <-> exists b, bio s = Some b
        /\ Js.occurs_in (toLowerCase searchTerm) (toLowerCase b)).
  { destruct (bio s) as [b |].
    - rewrite includes_occurs. split.
      + intro H. exists b. auto.
      + intros [b' [E H]]. injection E as <-. exact H.
    - split; [discriminate | intros [b [E _]]; discriminate E]. }
  rewrite Hbio.
  assert (Hskill :
    (exists k, In k (skills s)
       /\ Js.includes (toLowerCase (skill_name k)) (toLowerCase searchTerm)
          = true)
    <-> exists k, In k (skills s)
        /\ Js.occurs_in (toLowerCase searchTerm)
             (toLowerCase (skill_name k))).
  { split; intros [k [Hk H]]; exists k; (split; [exact Hk |]);
      apply includes_occurs; exact H. }
  rewrite Hskill. tauto.
Qed.

(** X1.  A student is shown exactly when the student is in the fetched
    list and passes each filter that is set; the empty search term and the
    selection "all" set no filter.  The search term passes when, both in
    lower case, it occurs in the name, in the email, in the bio or in the
    name of a skill of the student.  The department and the college are
    compared for equality, the skill against the names of the student's
    skills. *)
Theorem filterStudents_shows_who_passes :
  forall (students : list Student)
         (searchTerm selectedDepartment selectedCollege selectedSkill : string)
         (s : Student),
    In s (filterStudents toLowerCase localeCompare students
            searchTerm selectedDepartment selectedCollege selectedSkill)
    <-> In s students
        /\ (searchTerm = ""
            \/ Js.occurs_in (toLowerCase searchTerm)
                 (toLowerCase (full_name s))
            \/ Js.occurs_in (toLowerCase searchTerm) (toLowerCase (email s))
            \/ (exists b, bio s = Some b
                 /\ Js.occurs_in (toLowerCase searchTerm) (toLowerCase b))
            \/ (exists k, In k (skills s)
                 /\ Js.occurs_in (toLowerCase searchTerm)
                      (toLowerCase (skill_name k))))
        /\ (selectedDepartment = "all" \/ department s = Some selectedDepartment)
        /\ (selectedCollege = "all" \/ college s = Some selectedCollege)
        /\ (selectedSkill = "all"
            \/ exists k, In k (skills s) /\ skill_name k = selectedSkill).
Proof.
  intros students searchTerm selectedDepartment selectedCollege selectedSkill s.
  rewrite filterStudents_In, matches_searchTerm_occurs. reflexivity.
Qed.

Lemma existsb_eqb_In (x : string) (seen : list string) :
  existsb (String.eqb x) seen = true <-> In x seen.
Proof.
  rewrite existsb_exists. split.
  - intros [y [Hy He]]. apply String.eqb_eq in He. subst y. exact Hy.
  - intro H. exists x. split; [exact H | apply String.eqb_refl].
Qed.

Lemma In_Set_values (x : string) (seen xs : list string) :
  In x (FilterOptions.Set_values seen xs) <-> In x xs /\ ~ In x seen.
Proof.
  revert seen. induction xs as [| y xs IH]; intro seen;
    cbn [FilterOptions.Set_values].
  - cbn. tauto.
  - destruct (existsb (String.eqb y) seen) eqn:E.
    + apply existsb_eqb_In in E. rewrite IH. cbn [In].
      split; [tauto |]. intros [[-> | H] Hn]; tauto.
    + assert (Hy : ~ In y seen).
      { intro H. apply existsb_eqb_In in H. congruence. }
      cbn [In]. rewrite IH. cbn [In].
      destruct (string_dec y x) as [-> | Hne]; tauto.
Qed.

Lemma NoDup_Set_values (seen xs : list string) :
  NoDup (FilterOptions.Set_values seen xs).
Proof.
  revert seen. induction xs as [| y xs IH]; intro seen;
    cbn [FilterOptions.Set_values].
  - constructor.
  - destruct (existsb (String.eqb y) seen); [apply IH |].
    constructor; [| apply IH].
    rewrite In_Set_values. cbn [In]. tauto.
Qed.

Lemma In_filter_Boolean (d : string) (xs : list (option string)) :
  In d (FilterOptions.filter_Boolean xs) <-> In (Some d) xs /\ d <> "".
Proof.
  unfold FilterOptions.filter_Boolean. rewrite in_flat_map. split.
  - intros [[v |] [Hx Hd]]; [| contradiction].
    unfold Js.truthy_string in Hd.
    destruct (String.eqb_spec v ""); cbn in Hd; [contradiction |].
    destruct Hd as [-> | []]. auto.
  - intros [Hx Hd]. exists (Some d). split; [exact Hx |].
    unfold Js.truthy_string. apply String.eqb_neq in Hd. rewrite Hd.
    left. reflexivity.
Qed.

Lemma In_menu (field : Student -> option string) (students : list Student)
    (d : string) :
  In d (FilterOptions.spread_Set
          (FilterOptions.filter_Boolean (map field students)))
  <-> d <> "" /\ exists s, In s students /\ field s = Some d.
Proof.
  unfold FilterOptions.spread_Set.
  rewrite In_Set_values, In_filter_Boolean, in_map_iff. cbn [In].
  split.
  - intros [[[s [Hf Hs]] Hd] _]. eauto.
  - intros [Hd [s [Hs Hf]]]. repeat split; eauto.
Qed.

(** X2.  The department menu and the college menu list, each once and
    none of them the empty text, exactly the departments and colleges that
    fetched students have.  With the search box empty and the other menus
    on "all", choosing an entry other than the text "all" shows a list
    that is not empty and holds exactly the fetched students of that
    department or college. *)
Theorem department_and_college_menus :
  forall students : list Student,
    NoDup (FilterOptions.uniqueDepartments students)
    /\ NoDup (FilterOptions.uniqueColleges students)
    /\ (forall d,
          In d (FilterOptions.uniqueDepartments students)
          <-> d <> "" /\ exists s, In s students /\ department s = Some d)
    /\ (forall c,
          In c (FilterOptions.uniqueColleges students)
          <-> c <> "" /\ exists s, In s students /\ college s = Some c)
    /\ (forall d,
          In d (FilterOptions.uniqueDepartments students) -> d <> "all" ->
          filterStudents toLowerCase localeCompare students "" d "all" "all"
          <> []
          /\ forall s,
               In s (filterStudents toLowerCase localeCompare students
                       "" d "all" "all")
               <-> In s students /\ department s = Some d)
    /\ (forall c,
          In c (FilterOptions.uniqueColleges students) -> c <> "all" ->
          filterStudents toLowerCase localeCompare students "" "all" c "all"
          <> []
          /\ forall s,
               In s (filterStudents toLowerCase localeCompare students
                       "" "all" c "all")
               <-> In s students /\ college s = Some c).
Proof.
  intro students.
  split; [apply NoDup_Set_values |].
  split; [apply NoDup_Set_values |].
  split; [intro d; apply In_menu |].
  split; [intro c; apply In_menu |].
  split.
  - intros d Hd Hall.
    assert (Hiff : forall s,
               In s (filterStudents toLowerCase localeCompare students
                       "" d "all" "all")
               <-> In s students /\ department s = Some d).
    { intro s. rewrite filterStudents_In. intuition congruence. }
    split; [| exact Hiff].
    apply In_menu in Hd. destruct Hd as [_ [s [Hs Hf]]].
    intro E. assert (H : In s []) by (rewrite <- E; apply Hiff; auto).
    exact H.
  - intros c Hc Hall.
    assert (Hiff : forall s,
               In s (filterStudents toLowerCase localeCompare students
                       "" "all" c "all")
               <-> In s students /\ college s = Some c).
    { intro s. rewrite filterStudents_In. intuition congruence. }
    split; [| exact Hiff].
    apply In_menu in Hc. destruct Hc as [_ [s [Hs Hf]]].
    intro E. assert (H : In s []) by (rewrite <- E; apply Hiff; auto).
    exact H.
Qed.

(** X3.  The skill menu lists, each once and none of them the empty
    text, exactly the names of the skills of fetched students.  With the
    search box empty and the other menus on "all", choosing an entry other
    than the text "all" shows a list that is not empty and holds exactly
    the fetched students with a skill of that name. *)
Theorem skill_menu :
  forall students : list Student,
    NoDup (FilterOptions.uniqueSkills students)
    /\ (forall k,
          In k (FilterOptions.uniqueSkills students)
          <-> k <> ""
              /\ exists s sk,
                   In s students /\ In sk (skills s) /\ skill_name sk = k)
    /\ (forall k,
          In k (FilterOptions.uniqueSkills students) -> k <> "all" ->
          filterStudents toLowerCase localeCompare students "" "all" "all" k
          <> []
          /\ forall s,
               In s (filterStudents toLowerCase localeCompare students
                       "" "all" "all" k)
               <-> In s students
                   /\ exists sk, In sk (skills s) /\ skill_name sk = k).
Proof.
  intro students.
  assert (Hmenu : forall k,
            In k (FilterOptions.uniqueSkills students)
            <-> k <> ""
                /\ exists s sk,
                     In s students /\ In sk (skills s) /\ skill_name sk = k).
  { intro k. unfold FilterOptions.uniqueSkills, FilterOptions.spread_Set.
    rewrite In_Set_values, in_flat_map. cbn [In]. split.
    - intros [[s [Hs Hk]] _]. apply filter_In in Hk. destruct Hk as [Hk Ht].
      apply in_map_iff in Hk. destruct Hk as [sk [He Hsk]].
      split; [| eauto].
      unfold Js.truthy_string in Ht. intros ->. discriminate Ht.
    - intros [Hk [s [sk [Hs [Hsk He]]]]]. split; [| tauto].
      exists s. split; [exact Hs |]. apply filter_In. split.
      + apply in_map_iff. eauto.
      + unfold Js.truthy_string. apply String.eqb_neq in Hk. rewrite Hk.
        reflexivity. }
  split; [apply NoDup_Set_values |].
  split; [exact Hmenu |].
  intros k Hk Hall.
  assert (Hiff : forall s,
             In s (filterStudents toLowerCase localeCompare students
                     "" "all" "all" k)
             <-> In s students
                 /\ exists sk, In sk (skills s) /\ skill_name sk = k).
  { intro s. rewrite filterStudents_In. intuition congruence. }
  split; [| exact Hiff].
  apply Hmenu in Hk. destruct Hk as [_ [s [sk [Hs [Hsk He]]]]].
  intro E. assert (H : In s []) by (rewrite <- E; apply Hiff; eauto).
  exact H.
Qed.

End DirectoryFilters.

(** ** Sorting the [students] state in place *)

Section FilterAndSort.

Variable A : Type.
Variable comparefn : A -> A -> Z.

Hypothesis comparefn_total :
  forall a b, comparefn a b <= 0 \/ comparefn b a <= 0.
Hypothesis comparefn_trans :
  forall a b c, comparefn a b <= 0 -> comparefn b c <= 0 -> comparefn a c <= 0.

Lemma StronglySorted_filter (R : A -> A -> Prop) (f : A -> bool) (l : list A) :
  StronglySorted R l -> StronglySorted R (filter f l).
Proof.
  induction 1 as [| a l Hl IH Ha]; cbn [filter]; [constructor |].
  destruct (f a); [| exact IH].
  constructor; [exact IH |].
  rewrite Forall_forall in *. intros x Hx. apply filter_In in Hx.
  apply Ha. apply Hx.
Qed.

Lemma filter_comm (f g : A -> bool) (l : list A) :
  filter f (filter g l) = filter g (filter f l).
Proof.
  rewrite !filter_filter_andb. apply filter_ext. intro x. apply andb_comm.
Qed.

(** Filtering a sorted array and sorting the filtered array give the same
    list. *)
Lemma filter_sort (f : A -> bool) (l : list A) :
  filter f (Js.sort comparefn l) = Js.sort comparefn (filter f l).
Proof.
  apply (sort_unique A comparefn comparefn_total comparefn_trans).
  - apply filter_Permutation, sort_Permutation.
  - apply StronglySorted_filter.
    apply (sort_StronglySorted A comparefn comparefn_total comparefn_trans).
  - intro z. rewrite filter_comm.
    rewrite (sort_stable A comparefn comparefn_trans).
    apply filter_comm.
Qed.

(** Sorting what is sorted changes nothing. *)
Lemma sort_sort (l : list A) :
  Js.sort comparefn (Js.sort comparefn l) = Js.sort comparefn l.
Proof.
  symmetry.
  apply (sort_unique A comparefn comparefn_total comparefn_trans).
  - apply Permutation_refl.
  - apply (sort_StronglySorted A comparefn comparefn_total comparefn_trans).
  - reflexivity.
Qed.

End FilterAndSort.

Section InPlaceSort.

Import StudentSearch.

Variable toLowerCase : string -> string.
Variable localeCompare : string -> string -> Z.

Hypothesis localeCompare_total :
  forall a b, localeCompare a b <= 0 \/ localeCompare b a <= 0.
Hypothesis localeCompare_trans :
  forall a b c,
    localeCompare a b <= 0 -> localeCompare b c <= 0 -> localeCompare a c <= 0.

Lemma filterStudents_of_sorted
    (students : list Student)
    (searchTerm selectedDepartment selectedCollege selectedSkill : string) :
  filterStudents toLowerCase localeCompare
    (Js.sort (comparefn localeCompare) students)
    searchTerm selectedDepartment selectedCollege selectedSkill
  = filterStudents toLowerCase localeCompare students
      searchTerm selectedDepartment selectedCollege selectedSkill.
Proof.
  rewrite !filterStudents_sort_kept.
  rewrite (filter_sort _ _ (comparefn_total _ localeCompare_total)
             (comparefn_trans _ localeCompare_trans)).
  apply (sort_sort _ _ (comparefn_total _ localeCompare_total)
           (comparefn_trans _ localeCompare_trans)).
Qed.

(** X4.  With no filter set [filterStudents] sorts the [students] array
    itself.  This does no harm: after a run with any filter values the
    [students] state holds the same students as before, and the next run,
    with any filter values, shows the list it would have shown on the
    fetched array. *)
Theorem sorting_the_students_state_in_place_is_harmless :
  forall (students : list Student)
         (searchTerm1 selectedDepartment1 selectedCollege1 selectedSkill1 : string)
         (searchTerm2 selectedDepartment2 selectedCollege2 selectedSkill2 : string),
    let students' :=
      fst (FilterOptions.filterStudents_effect toLowerCase localeCompare
             students
             searchTerm1 selectedDepartment1 selectedCollege1 selectedSkill1) in
    Permutation students' students
    /\ snd (FilterOptions.filterStudents_effect toLowerCase localeCompare
              students'
              searchTerm2 selectedDepartment2 selectedCollege2 selectedSkill2)
       = snd (FilterOptions.filterStudents_effect toLowerCase localeCompare
                students
                searchTerm2 selectedDepartment2 selectedCollege2 selectedSkill2).
Proof.
  intros students t1 d1 c1 k1 t2 d2 c2 k2 students'.
  subst students'. unfold FilterOptions.filterStudents_effect. cbn [fst snd].
  destruct (Js.truthy_string t1) eqn:Et; cbn [orb];
    [split; [apply Permutation_refl | reflexivity] |].
  destruct (String.eqb_spec d1 "all") as [-> | Hd]; cbn [negb orb];
    [| split; [apply Permutation_refl | reflexivity]].
  destruct (String.eqb_spec c1 "all") as [-> | Hc]; cbn [negb orb];
    [| split; [apply Permutation_refl | reflexivity]].
  destruct (String.eqb_spec k1 "all") as [-> | Hk]; cbn [negb orb];
    [| split; [apply Permutation_refl | reflexivity]].
  assert (Hterm : t1 = "").
  { unfold Js.truthy_string in Et.
    destruct (String.eqb_spec t1 ""); [assumption | discriminate]. }
  subst t1.
  rewrite (filterStudents_sort_kept toLowerCase localeCompare students
             "" "all" "all" "all").
  assert (Hall : filter (kept toLowerCase "" "all" "all" "all") students
                 = students).
  { clear. induction students as [| s l IH]; [reflexivity |].
    cbn [filter]. unfold kept at 1. cbn. rewrite IH. reflexivity. }
  rewrite Hall. split.
  - apply sort_Permutation.
  - apply filterStudents_of_sorted.
Qed.

End InPlaceSort.

Lemma sorting_the_students_state_in_place_is_harmless_witness :
  snd (FilterOptions.filterStudents_effect toLowerCase_ascii compare_code_units
         (fst (FilterOptions.filterStudents_effect toLowerCase_ascii
                 compare_code_units [amy; sam_1; cy; bob; sam_2]
                 "" "all" "all" "all"))
         "sam" "all" "all" "all")
  = snd (FilterOptions.filterStudents_effect toLowerCase_ascii compare_code_units
           [amy; sam_1; cy; bob; sam_2] "sam" "all" "all" "all").
Proof.
  apply (sorting_the_students_state_in_place_is_harmless
           toLowerCase_ascii compare_code_units
           compare_code_units_total compare_code_units_trans
           [amy; sam_1; cy; bob; sam_2]
           "" "all" "all" "all" "sam" "all" "all" "all").
Defined.

(** ** The directory of the placement portal (PlacementDashboard.tsx) *)

Section PlacementDirectory.

Import PlacementDashboard.

Lemma map_or_throw_Some {A B} (f : A -> option B) (xs : list A) (ys : list B) :
  map_or_throw f xs = Some ys -> Forall2 (fun x y => f x = Some y) xs ys.
Proof.
  revert ys. induction xs as [| x xs IH]; intros ys H; cbn in H.
  - injection H as <-. constructor.
  - destruct (f x) as [y |] eqn:Ex; [| discriminate].
    destruct (map_or_throw f xs) as [ys' |]; [| discriminate].
    injection H as <-. constructor; [exact Ex | apply IH; reflexivity].
Qed.

Lemma map_or_throw_total {A B} (f : A -> option B) (xs : list A) :
  (forall x, In x xs -> f x <> None) -> exists ys, map_or_throw f xs = Some ys.
Proof.
  induction xs as [| x xs IH]; intro H; cbn.
  - eauto.
  - destruct (f x) as [y |] eqn:Ex.
    + destruct IH as [ys Hys]; [intros z Hz; apply H; right; exact Hz |].
      rewrite Hys. eauto.
    + exfalso. apply (H x); [left; reflexivity | exact Ex].
Qed.

(** X5.  In the placement portal every listed student carries what
    [get_student_achievement_points] answers, whoever the caller is: the
    sum of the points of the student's approved documents with more than
    zero points when that sum fits an [integer], and 0 when it does not,
    since the call then fails and its error is not read.  The list has one
    entry for each row of the profile query, in its order; and the list is
    produced whenever every [student_skills] row has its [skills] row. *)
Theorem placement_directory_carries_the_total :
  forall (db : Db) (auth_uid : option uuid),
    (forall students : list Student,
       fetchStudents db auth_uid = Some students ->
       map id students = map Profile.id (StudentSearch.data db auth_uid)
       /\ forall s, In s students ->
            (totalScore_spec (documents db) (id s) <= 2147483647 ->
             achievement_points s = totalScore_spec (documents db) (id s))
            /\ (2147483647 < totalScore_spec (documents db) (id s) ->
                achievement_points s = 0))
    /\ ((forall ss, In ss (student_skills db) -> StudentSkill.skills ss <> None) ->
        exists students, fetchStudents db auth_uid = Some students).
Proof.
  intros db auth_uid. split.
  - intros students H. unfold fetchStudents, studentsData in H.
    apply map_or_throw_Some in H.
    induction H as [| p s ps ss Hps _ IH]; [split; [reflexivity | intros s []] |].
    destruct IH as [IHid IHpts].
    unfold studentWithPoints in Hps.
    destruct (map_or_throw _ _) as [sk |]; [| discriminate].
    injection Hps as <-. cbn [map id]. split.
    + f_equal. exact IHid.
    + intros s [<- | Hs]; [| apply IHpts; exact Hs].
      cbn [achievement_points id].
      rewrite get_student_achievement_points_spec.
      pose proof (totalScore_spec_nonneg (documents db) (Profile.id p)) as H0.
      split; intro Hfit.
      * rewrite to_integer_Some by lia. apply or0_Some.
      * rewrite to_integer_None by lia. reflexivity.
  - intro Hall. unfold fetchStudents. apply map_or_throw_total.
    intros p _. unfold studentWithPoints.
    destruct (map_or_throw_total skill_of
                (StudentSearch.embedded_student_skills db auth_uid p))
      as [sk Hsk].
    + intros ss Hss. unfold StudentSearch.embedded_student_skills in Hss.
      apply filter_In in Hss. destruct Hss as [Hss _].
      unfold skill_of. specialize (Hall ss Hss).
      destruct (StudentSkill.skills ss); [discriminate | contradiction].
    + rewrite Hsk. discriminate.
Qed.

End PlacementDirectory.

(** ** The skills of a listed student (row level security of
    [student_skills]) *)

Section SkillsPrivacy.

Lemma unique_profile_id (ps : list Profile.row) (p q : Profile.row) :
  NoDup (map Profile.id ps) ->
  In p ps -> In q ps -> Profile.id p = Profile.id q -> p = q.
Proof.
  induction ps as [| x ps IH]; intros Hnd Hp Hq He; [contradiction |].
  cbn [map] in Hnd. apply NoDup_cons_iff in Hnd. destruct Hnd as [Hx Hnd].
  destruct Hp as [-> | Hp], Hq as [-> | Hq].
  - reflexivity.
  - exfalso. apply Hx. rewrite He. apply in_map. exact Hq.
  - exfalso. apply Hx. rewrite <- He. apply in_map. exact Hp.
  - apply IH; assumption.
Qed.

Lemma EXISTS_holds {A} (c : A -> Sql.tv) (rows : list A) :
  Sql.holds (Sql.EXISTS (Sql.select_where c rows)) = true
  <-> exists r, In r rows /\ Sql.holds (c r) = true.
Proof.
  unfold Sql.EXISTS, Sql.select_where. split.
  - destruct (filter _ rows) as [| r l] eqn:E; [discriminate |].
    intros _. exists r.
    apply (proj1 (filter_In (fun r => Sql.holds (c r)) r rows)).
    rewrite E. left. reflexivity.
  - intros [r [Hr Hc]].
    destruct (filter _ rows) as [| r' l] eqn:E; [| reflexivity].
    exfalso. revert E. apply (filter_nonempty _ _ r Hr Hc).
Qed.

Lemma holds_AND_true (c : Sql.tv) :
  Sql.holds (Sql.AND (Some true) c) = Sql.holds c.
Proof. destruct c as [[|] |]; reflexivity. Qed.

(** Whether the caller may read a [student_skills] row of the profile
    [p]: the owner may, and another signed-in caller when the flag
    [skills_visible] is true on a profile that the caller may read. *)
Lemma student_skills_select_of (db : Db) (viewer : uuid) (p : Profile.row)
    (ss : StudentSkill.row) :
  NoDup (map Profile.id (profiles db)) ->
  In p (profiles db) ->
  StudentSkill.student_id ss = Profile.id p ->
  Rls.student_skills_select db (Some viewer) ss
  = String.eqb (Profile.user_id p) viewer
    || match Profile.json_get Profile.skills_visible p with
       | Some true => Rls.profiles_select (Some viewer) p
       | _ => false
       end.
Proof.
  intros Hnd Hp Hid.
  unfold Rls.student_skills_select,
    Rls.students_can_view_their_own_skills,
    Rls.others_can_view_skills_if_privacy_allows, Rls.readable_profiles.
  cbn [Sql.IS_NOT_NULL]. rewrite holds_AND_true.
  assert (Hown :
    Sql.holds
      (Sql.EXISTS
         (Sql.select_where
            (fun q =>
               Sql.AND
                 (Sql.EQ String.eqb (Some (Profile.id q))
                    (Some (StudentSkill.student_id ss)))
                 (Sql.EQ String.eqb (Some (Profile.user_id q)) (Some viewer)))
            (profiles db)))
    = String.eqb (Profile.user_id p) viewer).
  { apply eq_true_iff_eq. rewrite EXISTS_holds. split.
    - intros [q [Hq Hc]]. cbn in Hc.
      destruct (String.eqb_spec (Profile.id q) (StudentSkill.student_id ss))
        as [Hi |]; [| discriminate].
      rewrite Hid in Hi. rewrite <- (unique_profile_id _ q p Hnd Hq Hp Hi).
      destruct (String.eqb (Profile.user_id q) viewer); [reflexivity | discriminate].
    - intro H. exists p. split; [exact Hp |]. cbn.
      rewrite Hid, String.eqb_refl, H. reflexivity. }
  assert (Hothers :
    Sql.holds
      (Sql.EXISTS
         (Sql.select_where
            (fun q =>
               Sql.AND
                 (Sql.EQ String.eqb (Some (Profile.id q))
                    (Some (StudentSkill.student_id ss)))
                 (Sql.EQ String.eqb
                    (Profile.json_get_text Profile.skills_visible q)
                    (Some "true")))
            (filter (Rls.profiles_select (Some viewer)) (profiles db))))
    = match Profile.json_get Profile.skills_visible p with
      | Some true => Rls.profiles_select (Some viewer) p
      | _ => false
      end).
  { apply eq_true_iff_eq. rewrite EXISTS_holds. split.
    - intros [q [Hq Hc]]. apply filter_In in Hq. destruct Hq as [Hq Hread].
      cbn in Hc.
      destruct (String.eqb_spec (Profile.id q) (StudentSkill.student_id ss))
        as [Hi |].
      + rewrite Hid in Hi.
        rewrite <- (unique_profile_id _ q p Hnd Hq Hp Hi).
        unfold Profile.json_get_text in Hc.
        destruct (Profile.json_get Profile.skills_visible q) as [[|] |];
          cbn in Hc; congruence.
      + destruct (Profile.json_get_text Profile.skills_visible q);
          cbn in Hc; try destruct (String.eqb _ _); discriminate.
    - intro H. exists p.
      destruct (Profile.json_get Profile.skills_visible p) as [[|] |] eqn:E;
        try discriminate.
      split; [apply filter_In; split; [exact Hp | exact H] |]. cbn.
      rewrite Hid, String.eqb_refl. unfold Profile.json_get_text.
      rewrite E. reflexivity. }
  rewrite Hown, Hothers. reflexivity.
Qed.

(** The sub-selects of the other policies ask for [user_id = auth.uid()]:
    they read rows of the caller, which the caller may always read, so
    the SELECT policies of [profiles] take nothing away from them. *)
Lemma own_rows_readable
    (db : Db) (auth_uid : option uuid) (c : Profile.row -> Sql.tv) :
  (forall p, Sql.holds (c p) = true -> auth_uid = Some (Profile.user_id p)) ->
  Sql.select_where c (Rls.readable_profiles db auth_uid)
  = Sql.select_where c (profiles db).
Proof.
  intro Hown. unfold Rls.readable_profiles, Sql.select_where.
  induction (profiles db) as [| p ps IH]; [reflexivity |].
  cbn [filter].
  destruct (Rls.profiles_select auth_uid p) eqn:Hread.
  - cbn [filter]. rewrite IH. reflexivity.
  - rewrite IH. destruct (Sql.holds (c p)) eqn:Hc; [| reflexivity].
    rewrite (Hown p Hc), profiles_select_owner in Hread. discriminate.
Qed.

Lemma is_faculty_reads_own_rows (db : Db) (auth_uid : option uuid) :
  Rls.is_faculty db auth_uid
  = Sql.EXISTS
      (Sql.select_where
         (fun p =>
            Sql.AND (Sql.EQ String.eqb (Some (Profile.user_id p)) auth_uid)
                    (Sql.EQ Profile.user_type_eqb
                       (Some (Profile.user_type p)) (Some Profile.faculty)))
         (Rls.readable_profiles db auth_uid)).
Proof.
  unfold Rls.is_faculty. rewrite own_rows_readable; [reflexivity |].
  intros p Hc. destruct auth_uid as [u |]; cbn in Hc.
  - destruct (String.eqb_spec (Profile.user_id p) u) as [-> | _];
      [reflexivity | discriminate Hc].
  - destruct (Profile.user_type p); discriminate Hc.
Qed.

(** X6.  With profile ids that are unique, a row of [student_skills] of a
    profile can be read by the owner of the profile, and by another
    signed-in caller exactly when the flags [skills_visible] and
    [profile_visible] of the profile are both true: the policy looks the
    flag up in [profiles] with the rights of the caller.  So the student
    directory, which lists profiles whose [profile_visible] flag is true,
    shows the skills of a listed student to the student, and to another
    caller when the student's [skills_visible] flag is true; when a flag
    is not true another caller is shown no skill of the student. *)
Theorem directory_skills_follow_skills_visible :
  forall (db : Db) (viewer : uuid) (p : Profile.row),
    NoDup (map Profile.id (profiles db)) ->
    In p (profiles db) ->
    (forall ss : StudentSkill.row,
       StudentSkill.student_id ss = Profile.id p ->
       Rls.student_skills_select db (Some viewer) ss = true
       <-> Profile.user_id p = viewer
           \/ (Profile.json_get Profile.skills_visible p = Some true
               /\ Profile.json_get Profile.profile_visible p = Some true))
    /\ (Profile.user_id p = viewer
        \/ (Profile.json_get Profile.skills_visible p = Some true
            /\ Profile.json_get Profile.profile_visible p = Some true) ->
        StudentSearch.embedded_student_skills db (Some viewer) p
        = filter
            (fun ss => String.eqb (StudentSkill.student_id ss) (Profile.id p))
            (student_skills db))
    /\ (Profile.user_id p <> viewer ->
        Profile.json_get Profile.skills_visible p <> Some true
        \/ Profile.json_get Profile.profile_visible p <> Some true ->
        StudentSearch.skills
          (StudentSearch.studentWithPoints db (Some viewer) p) = []).
Proof.
  intros db viewer p Hnd Hp.
  assert (Hiff : forall ss,
            StudentSkill.student_id ss = Profile.id p ->
            Rls.student_skills_select db (Some viewer) ss = true
            <-> Profile.user_id p = viewer
                \/ (Profile.json_get Profile.skills_visible p = Some true
                    /\ Profile.json_get Profile.profile_visible p = Some true)).
  { intros ss Hid.
    rewrite (student_skills_select_of db viewer p ss Hnd Hp Hid).
    destruct (String.eqb_spec (Profile.user_id p) viewer) as [He | Hne].
    - cbn [orb]. intuition.
    - cbn [orb].
      rewrite (profiles_select_other viewer p (not_eq_sym Hne)).
      destruct (Profile.json_get Profile.skills_visible p) as [[|] |];
        destruct (Profile.json_get Profile.profile_visible p) as [[|] |];
        intuition congruence. }
  split; [exact Hiff |].
  unfold StudentSearch.embedded_student_skills.
  split.
  - intros Hsee. apply filter_ext. intro ss.
    destruct (String.eqb_spec (StudentSkill.student_id ss) (Profile.id p))
      as [Hid |]; [| reflexivity].
    cbn [andb]. apply (Hiff ss Hid). exact Hsee.
  - intros Hne Hflag.
    cbn [StudentSearch.skills StudentSearch.studentWithPoints].
    unfold StudentSearch.embedded_student_skills.
    assert (Hnone : forall l : list StudentSkill.row,
              filter (fun ss =>
                        String.eqb (StudentSkill.student_id ss) (Profile.id p)
                        && Rls.student_skills_select db (Some viewer) ss) l
              = []).
    { induction l as [| ss l IH]; [reflexivity |]. cbn [filter].
      destruct (String.eqb_spec (StudentSkill.student_id ss) (Profile.id p))
        as [Hid |]; [| exact IH].
      cbn [andb].
      destruct (Rls.student_skills_select db (Some viewer) ss) eqn:E;
        [| exact IH].
      exfalso. apply (Hiff ss Hid) in E.
      destruct E as [E | [E1 E2]]; [exact (Hne E) |].
      destruct Hflag as [Hf | Hf]; [exact (Hf E1) | exact (Hf E2)]. }
    rewrite Hnone. reflexivity.
Qed.

End SkillsPrivacy.

(** ** Reviews and the total score (DocumentApproval.tsx) *)

Section ReviewEffects.

Import DocumentApproval.

Variable timestamptz_compare : timestamptz -> timestamptz -> Z.

Lemma set_documents_same (db : Db) : set_documents db (documents db) = db.
Proof. destruct db. reflexivity. Qed.

Lemma map_if_false {A} (test : A -> bool) (g : A -> A) (l : list A) :
  (forall x, In x l -> test x = false) ->
  map (fun x => if test x then g x else x) l = l.
Proof.
  induction l as [| x l IH]; intro H; [reflexivity |].
  cbn [map]. rewrite (H x (or_introl eq_refl)).
  f_equal. apply IH. intros y Hy. apply H. right. exact Hy.
Qed.

(** Whether the caller passes the UPDATE policy of [documents]. *)
Lemma is_faculty_holds (db : Db) (auth_uid : option uuid) :
  Sql.holds (Rls.is_faculty db auth_uid) = true
  <-> exists p, In p (profiles db)
                /\ auth_uid = Some (Profile.user_id p)
                /\ Profile.user_type p = Profile.faculty.
Proof.
  unfold Rls.is_faculty. rewrite EXISTS_holds. split.
  - intros [p [Hp Hc]]. exists p. split; [exact Hp |].
    destruct auth_uid as [u |]; cbn in Hc.
    + destruct (String.eqb_spec (Profile.user_id p) u) as [-> |];
        destruct (Profile.user_type p); cbn in Hc; try discriminate. auto.
    + destruct (Profile.user_type p); discriminate.
  - intros [p [Hp [-> Hty]]]. exists p. split; [exact Hp |].
    cbn. rewrite String.eqb_refl, Hty. reflexivity.
Qed.

(** X7.  A caller with no faculty profile changes nothing by
    [handleApproval]: the database after the call is the database before
    it; and when the [facultyProfile] state holds a profile the toast
    still reports the approval or the rejection. *)
Theorem handleApproval_without_faculty_profile_writes_nothing :
  forall (db : Db) (auth_uid : option uuid)
         (facultyProfile : option Profile.row) (now : timestamptz)
         (documentId : uuid) (approved : bool)
         (reason : option string) (points : option Z),
    (forall p, In p (profiles db) ->
       auth_uid = Some (Profile.user_id p) ->
       Profile.user_type p = Profile.student) ->
    fst (handleApproval db auth_uid facultyProfile now documentId approved
           reason points) = db
    /\ (forall fp, facultyProfile = Some fp -> Profile.id fp <> "" ->
        forall message,
          snd (handleApproval db auth_uid facultyProfile now documentId
                 approved reason points)
          <> Error_processing_document message).
Proof.
  intros db auth_uid facultyProfile now documentId approved reason points Hnf.
  assert (Hpol : forall d, update_target db auth_uid documentId d = false).
  { intro d. unfold update_target, Rls.documents_update.
    destruct (Sql.holds (Rls.is_faculty db auth_uid)) eqn:E.
    - apply is_faculty_holds in E. destruct E as [p [Hp [Hu Hty]]].
      rewrite (Hnf p Hp Hu) in Hty. discriminate.
    - destruct auth_uid; cbn [Sql.IS_NOT_NULL].
      + rewrite holds_AND_true, E. apply andb_false_r.
      + destruct (Rls.is_faculty db None) as [[|] |]; apply andb_false_r. }
  assert (Hex : existsb (update_target db auth_uid documentId) (documents db)
                = false).
  { destruct (existsb _ _) eqn:E; [| reflexivity].
    apply existsb_exists in E. destruct E as [d [_ Hd]].
    rewrite Hpol in Hd. discriminate. }
  unfold handleApproval. split.
  - destruct facultyProfile as [fp |]; [| reflexivity].
    destruct (negb (Js.truthy_string (Profile.id fp))); [reflexivity |].
    rewrite Hex. cbn [andb fst].
    rewrite map_if_false; [apply set_documents_same |].
    intros d _. apply Hpol.
  - intros fp -> Hid message.
    unfold Js.truthy_string. apply String.eqb_neq in Hid. rewrite Hid.
    cbn [negb]. rewrite Hex. cbn [andb snd].
    destruct approved; discriminate.
Qed.

(** X8.  Whoever calls [handleApproval] and with whatever arguments, the
    call creates, deletes and reorders no document, leaves the id, the
    owner, the title, the description, the file and the upload time of
    every document as they are, and leaves the other tables alone. *)
Theorem handleApproval_keeps_what_was_submitted :
  forall (db : Db) (auth_uid : option uuid)
         (facultyProfile : option Profile.row) (now : timestamptz)
         (documentId : uuid) (approved : bool)
         (reason : option string) (points : option Z),
    let db' :=
      fst (handleApproval db auth_uid facultyProfile now documentId approved
             reason points) in
    map submitted_part (documents db') = map submitted_part (documents db)
    /\ profiles db' = profiles db
    /\ student_skills db' = student_skills db
    /\ collaboration_requests db' = collaboration_requests db.
Proof.
  intros db auth_uid facultyProfile now documentId approved reason points db'.
  subst db'. unfold handleApproval.
  destruct facultyProfile as [fp |]; [| cbn; auto].
  destruct (negb (Js.truthy_string (Profile.id fp))); [cbn; auto |].
  destruct (existsb _ _ && negb (points_fit _ _)); [cbn; auto |].
  destruct (existsb _ _ && negb _); [cbn; auto |].
  cbn [fst profiles student_skills collaboration_requests documents
       set_documents].
  split; [| auto].
  rewrite map_map. apply map_ext. intro d.
  destruct (update_target db auth_uid documentId d); reflexivity.
Qed.

(** A table with unique ids has one row with a given id: the rows before
    it and after it have other ids. *)
Lemma split_unique_id (docs : list Document.row) (d : Document.row) :
  NoDup (map Document.id docs) ->
  In d docs ->
  exists l1 l2,
    docs = l1 ++ d :: l2
    /\ (forall x, In x l1 -> Document.id x <> Document.id d)
    /\ (forall x, In x l2 -> Document.id x <> Document.id d).
Proof.
  intros Hnd Hin. apply in_split in Hin. destruct Hin as [l1 [l2 ->]].
  exists l1, l2. split; [reflexivity |].
  rewrite map_app in Hnd. cbn [map] in Hnd.
  apply NoDup_remove_2 in Hnd.
  split; intros x Hx He; apply Hnd; apply in_or_app;
    [left | right]; rewrite <- He; apply in_map; exact Hx.
Qed.

Lemma rewrite_one_row (docs l1 l2 : list Document.row) (d : Document.row)
    (g : Document.row -> Document.row) :
  docs = l1 ++ d :: l2 ->
  (forall x, In x l1 -> Document.id x <> Document.id d) ->
  (forall x, In x l2 -> Document.id x <> Document.id d) ->
  map (fun x => if String.eqb (Document.id x) (Document.id d) then g x else x)
    docs
  = l1 ++ g d :: l2.
Proof.
  intros -> H1 H2. rewrite map_app. cbn [map]. rewrite String.eqb_refl.
  f_equal; [| f_equal].
  - apply map_if_false. intros x Hx. apply String.eqb_neq. apply H1. exact Hx.
  - apply map_if_false. intros x Hx. apply String.eqb_neq. apply H2. exact Hx.
Qed.

(** The total after a review by a faculty member that the database takes,
    for every student: the total before, less what the document added,
    plus what it adds now. *)
Lemma handleApproval_total
    (db : Db) (auth_uid : option uuid) (fp : Profile.row)
    (now : timestamptz) (approved : bool)
    (reason : option string) (points : option Z)
    (d : Document.row) (student : uuid) :
  fetchFacultyProfile db auth_uid = Some fp ->
  Profile.user_type fp = Profile.faculty ->
  Profile.id fp <> "" ->
  points_fit approved points = true ->
  NoDup (map Document.id (documents db)) ->
  In d (documents db) ->
  totalScore_spec
    (documents
       (fst (handleApproval db auth_uid (Some fp) now (Document.id d) approved
               reason points))) student
  = totalScore_spec (documents db) student
    - contribution student d
    + contribution student
        (updated_row (Profile.id fp) now approved reason points d).
Proof.
  intros Hfetch Hty Hid Hfit Hnd Hin.
  rewrite (handleApproval_faculty _ _ _ now (Document.id d) approved reason
             points Hfetch Hty Hid Hfit).
  cbn [fst documents set_documents].
  destruct (split_unique_id _ d Hnd Hin) as [l1 [l2 [Hsplit [H1 H2]]]].
  rewrite (rewrite_one_row _ l1 l2 d _ Hsplit H1 H2), Hsplit.
  rewrite !totalScore_spec_app. unfold contribution. lia.
Qed.

(** A review with points that the column cannot hold leaves the database
    as it is. *)
Lemma handleApproval_refused
    (db : Db) (auth_uid : option uuid) (fp : Profile.row)
    (now : timestamptz) (documentId : uuid) (approved : bool)
    (reason : option string) (points : option Z) :
  fetchFacultyProfile db auth_uid = Some fp ->
  Profile.user_type fp = Profile.faculty ->
  Profile.id fp <> "" ->
  points_fit approved points = false ->
  fst (handleApproval db auth_uid (Some fp) now documentId approved reason
         points) = db.
Proof.
  intros Hfetch Hty Hid Hfit.
  destruct (existsb (update_target db auth_uid documentId) (documents db))
    eqn:Hex.
  - apply existsb_exists in Hex. destruct Hex as [d [Hd Ht]].
    unfold update_target in Ht. apply andb_true_iff in Ht.
    destruct Ht as [Ht _]. apply String.eqb_eq in Ht.
    rewrite (handleApproval_out_of_range db auth_uid fp now documentId
               approved reason points d Hfetch Hty Hid Hfit Hd Ht).
    reflexivity.
  - unfold handleApproval, Js.truthy_string.
    apply String.eqb_neq in Hid. rewrite Hid. cbn [negb].
    rewrite Hex. cbn [andb fst].
    rewrite map_if_false; [apply set_documents_same |].
    intros d Hd. destruct (update_target db auth_uid documentId d) eqn:E;
      [| reflexivity].
    assert (H : existsb (update_target db auth_uid documentId) (documents db)
                = true)
      by (apply existsb_exists; exists d; auto).
    congruence.
Qed.

(** X9.  With document ids that are unique, an approval by a faculty
    member with [points] greater than zero that the [integer] column can
    hold changes the total of the owner of the document by [points] less
    what the document added before (which is nothing for a pending or
    rejected document), and the total of no other student; the RPC
    [get_student_achievement_points] then returns the new total when it
    is within the range of [integer], and ends in an error when it is
    not.  An approval with points above that range is refused: nothing is
    written. *)
Theorem approval_adds_the_points_to_the_owner :
  forall (db : Db) (auth_uid : option uuid) (fp : Profile.row)
         (now : timestamptz) (reason : option string) (points : Z)
         (d : Document.row) (student : uuid),
    fetchFacultyProfile db auth_uid = Some fp ->
    Profile.user_type fp = Profile.faculty ->
    Profile.id fp <> "" ->
    NoDup (map Document.id (documents db)) ->
    In d (documents db) ->
    0 < points ->
    let db' :=
      fst (handleApproval db auth_uid (Some fp) now (Document.id d) true
             reason (Some points)) in
    let total' :=
      totalScore_spec (documents db) student
      + (if String.eqb (Document.student_id d) student
         then points - contribution student d
         else 0) in
    (points <= 2147483647 ->
     totalScore_spec (documents db') student = total'
     /\ (total' <= 2147483647 ->
         get_student_achievement_points db' student = Some total')
     /\ (2147483647 < total' ->
         get_student_achievement_points db' student = None))
    /\ (2147483647 < points -> db' = db)
    /\ (Document.status d <> Document.approved -> contribution student d = 0).
Proof.
  intros db auth_uid fp now reason points d student
    Hfetch Hty Hid Hnd Hin Hpos db' total'.
  split; [| split].
  - intro Hmax.
    assert (Hfit : points_fit true (Some points) = true)
      by (apply points_fit_int4; lia).
    assert (Htotal : totalScore_spec (documents db') student = total').
    { subst db' total'.
      rewrite (handleApproval_total db auth_uid fp now true reason
                 (Some points) d student Hfetch Hty Hid Hfit Hnd Hin).
      unfold contribution at 2. unfold counts_for, pointsAwarded.
      cbn [updated_row Document.student_id Document.status
           Document.points_awarded Document.status_eqb andb].
      assert (Hp : (points =? 0) = false) by (apply Z.eqb_neq; lia).
      rewrite Hp. cbn [negb andb].
      assert (Hlt : (0 <? points) = true) by (apply Z.ltb_lt; lia).
      rewrite Hlt, !andb_true_r.
      destruct (String.eqb (Document.student_id d) student) eqn:E; [lia |].
      unfold contribution, counts_for. rewrite E. cbn [andb]. lia. }
    split; [exact Htotal |].
    rewrite get_student_achievement_points_spec, Htotal.
    pose proof (totalScore_spec_nonneg (documents db') student) as H0.
    rewrite Htotal in H0.
    split; intro Hr.
    + apply to_integer_Some. lia.
    + apply to_integer_None. exact Hr.
  - intro Hbig. subst db'.
    apply (handleApproval_refused db auth_uid fp now (Document.id d) true
             reason (Some points) Hfetch Hty Hid).
    apply points_fit_out. right. exact Hbig.
  - intro Hst. unfold contribution.
    rewrite (not_approved_counts_for d student Hst). reflexivity.
Qed.

(** X10.  With document ids that are unique, a rejection by a faculty
    member takes from the total of every student exactly what the document
    added to it, and leaves the stored [points_awarded] of the document as
    it was.  So does the total that the RPC
    [get_student_achievement_points] returns. *)
Theorem rejection_takes_the_points_back :
  forall (db : Db) (auth_uid : option uuid) (fp : Profile.row)
         (now : timestamptz) (reason : option string) (points : option Z)
         (d : Document.row) (student : uuid),
    fetchFacultyProfile db auth_uid = Some fp ->
    Profile.user_type fp = Profile.faculty ->
    Profile.id fp <> "" ->
    NoDup (map Document.id (documents db)) ->
    In d (documents db) ->
    let db' :=
      fst (handleApproval db auth_uid (Some fp) now (Document.id d) false
             reason points) in
    totalScore_spec (documents db') student
    = totalScore_spec (documents db) student - contribution student d
    /\ get_student_achievement_points db' student
       = Sql.to_integer
           (totalScore_spec (documents db) student - contribution student d)
    /\ (forall total : Z,
          get_student_achievement_points db student = Some total ->
          get_student_achievement_points db' student
          = Some (total - contribution student d))
    /\ Document.points_awarded
         (updated_row (Profile.id fp) now false reason points d)
       = Document.points_awarded d.
Proof.
  intros db auth_uid fp now reason points d student Hfetch Hty Hid Hnd Hin db'.
  assert (Htotal :
    totalScore_spec (documents db') student
    = totalScore_spec (documents db) student - contribution student d).
  { subst db'.
    rewrite (handleApproval_total db auth_uid fp now false reason points
               d student Hfetch Hty Hid (points_fit_rejection points) Hnd Hin).
    unfold contribution at 2. unfold counts_for.
    cbn [updated_row Document.student_id Document.status Document.status_eqb].
    rewrite andb_false_r. cbn [andb]. lia. }
  split; [exact Htotal |].
  split; [rewrite get_student_achievement_points_spec, Htotal; reflexivity |].
  split.
  - intros total Hrpc.
    rewrite get_student_achievement_points_spec in Hrpc.
    apply to_integer_inv in Hrpc. destruct Hrpc as [Hrpc Hrange].
    rewrite get_student_achievement_points_spec, Htotal.
    pose proof (totalScore_spec_nonneg (documents db') student) as H0.
    rewrite Htotal in H0.
    assert (Hc : 0 <= contribution student d).
    { unfold contribution. destruct (counts_for student d) eqn:E; [| lia].
      unfold counts_for in E. apply andb_true_iff in E. destruct E as [_ E].
      apply Z.ltb_lt in E. lia. }
    rewrite <- Hrpc. apply to_integer_Some. lia.
  - cbn. destruct points; reflexivity.
Qed.

Lemma Permutation_filter_compat {A} (f : A -> bool) (l l' : list A) :
  Permutation l l' -> Permutation (filter f l) (filter f l').
Proof.
  induction 1 as [| x l l' _ IH | x y l | l l' l'' _ IH1 _ IH2].
  - constructor.
  - cbn [filter]. destruct (f x); [constructor |]; exact IH.
  - cbn [filter]. destruct (f x), (f y);
      first [apply perm_swap | apply Permutation_refl].
  - exact (Permutation_trans IH1 IH2).
Qed.

(** The pending rows that the caller may read, after a review by a faculty
    member that the database takes: the rows of before without the rows of
    the id reviewed, in the order of the table. *)
Lemma pending_rows_after_review
    (db : Db) (auth_uid : option uuid) (fp : Profile.row)
    (now : timestamptz) (documentId : uuid) (approved : bool)
    (reason : option string) (points : option Z) :
  filter (Rls.documents_select db auth_uid)
    (Sql.select_where
       (fun d =>
          Sql.EQ Document.status_eqb (Some (Document.status d))
            (Some Document.pending))
       (map (fun d =>
               if String.eqb (Document.id d) documentId
               then updated_row (Profile.id fp) now approved reason points d
               else d)
          (documents db)))
  = filter (fun d => negb (String.eqb (Document.id d) documentId))
      (filter (Rls.documents_select db auth_uid)
         (Sql.select_where
            (fun d =>
               Sql.EQ Document.status_eqb (Some (Document.status d))
                 (Some Document.pending))
            (documents db))).
Proof.
  unfold Sql.select_where.
  induction (documents db) as [| d docs IH]; [reflexivity |].
  cbn [map filter].
  destruct (String.eqb (Document.id d) documentId) eqn:E.
  - assert (Hgone :
      Sql.holds
        (Sql.EQ Document.status_eqb
           (Some (Document.status
                    (updated_row (Profile.id fp) now approved reason points d)))
           (Some Document.pending)) = false).
    { cbn. destruct approved; reflexivity. }
    rewrite Hgone, IH. clear Hgone.
    destruct (Sql.holds
                (Sql.EQ Document.status_eqb (Some (Document.status d))
                   (Some Document.pending))); [| reflexivity].
    cbn [filter]. destruct (Rls.documents_select db auth_uid d);
      [| reflexivity].
    cbn [filter]. rewrite E. reflexivity.
  - destruct (Sql.holds
                (Sql.EQ Document.status_eqb (Some (Document.status d))
                   (Some Document.pending))); [| exact IH].
    cbn [filter]. destruct (Rls.documents_select db auth_uid d);
      [| exact IH].
    cbn [filter]. rewrite E. cbn [negb]. f_equal. exact IH.
Qed.

(** X11.  After a review by a faculty member that the database takes, a
    rejection or an approval with points that the [integer] column can
    hold, the review list of that member holds the documents of the list
    of before without the document reviewed, each as often as before.
    After an approval with points beyond that range the review list is
    the list of before. *)
Theorem reviewed_document_leaves_the_review_list :
  forall (db : Db) (auth_uid : option uuid) (fp : Profile.row)
         (now : timestamptz) (documentId : uuid) (approved : bool)
         (reason : option string) (points : option Z),
    fetchFacultyProfile db auth_uid = Some fp ->
    Profile.user_type fp = Profile.faculty ->
    Profile.id fp <> "" ->
    let db' :=
      fst (handleApproval db auth_uid (Some fp) now documentId approved
             reason points) in
    ((forall p, approved = true -> points = Some p ->
        -2147483648 <= p <= 2147483647) ->
     Permutation
       (fetchPendingDocuments db' auth_uid timestamptz_compare)
       (filter (fun d => negb (String.eqb (Document.id d) documentId))
          (fetchPendingDocuments db auth_uid timestamptz_compare)))
    /\ (forall p, approved = true -> points = Some p ->
          p < -2147483648 \/ 2147483647 < p ->
          fetchPendingDocuments db' auth_uid timestamptz_compare
          = fetchPendingDocuments db auth_uid timestamptz_compare).
Proof.
  intros db auth_uid fp now documentId approved reason points Hfetch Hty Hid
    db'.
  split.
  - intro Hrange. subst db'.
    rewrite (handleApproval_faculty _ _ _ now documentId approved reason
               points Hfetch Hty Hid (points_fit_true _ _ Hrange)).
    cbn [fst]. unfold fetchPendingDocuments.
    cbn [documents set_documents].
    change (Rls.documents_select (set_documents db _) auth_uid)
      with (Rls.documents_select db auth_uid).
    rewrite pending_rows_after_review.
    eapply Permutation_trans; [apply sort_Permutation |].
    apply Permutation_filter_compat. apply Permutation_sym.
    apply sort_Permutation.
  - intros p -> -> Hout. subst db'.
    rewrite (handleApproval_refused db auth_uid fp now documentId true
               reason (Some p) Hfetch Hty Hid (points_fit_out p Hout)).
    reflexivity.
Qed.

End ReviewEffects.

(** ** File sizes as shown (DocumentApproval.tsx, DocumentUpload.tsx) *)

Section FileSizes.

Import FileSize.

(** [tenths] is the number of tenths nearest to [bytes / unit]. *)
Lemma tenths_nearest (bytes unit : Z) :
  0 < unit ->
  - unit < 2 * unit * tenths bytes unit - 20 * bytes <= unit.
Proof.
  intro Hu. unfold tenths.
  pose proof (Z.div_mod (20 * bytes + unit) (2 * unit)) as Hdm.
  pose proof (Z.mod_pos_bound (20 * bytes + unit) (2 * unit)) as Hb.
  lia.
Qed.

Lemma tenths_monotone (a b unit : Z) :
  0 < unit -> a <= b -> tenths a unit <= tenths b unit.
Proof.
  intros Hu Hab. unfold tenths. apply Z.div_le_mono; lia.
Qed.

Lemma toFixed_1_with_unit (a b u : string) :
  ((a ++ "." ++ b) ++ u = a ++ "." ++ b ++ u)%string.
Proof.
  induction a as [| c a IH]; cbn [append].
  - f_equal.
  - f_equal. exact IH.
Qed.

(** X12.  What [formatFileSize] shows for a size that is not negative.
    Below 1024 bytes it is the number of bytes followed by B.  From 1024
    bytes to one byte less than [1024 * 1024] it is a number of kilobytes
    with one decimal, followed by KB, that is nearest to [bytes / 1024]
    (the larger one of two equally near), so within 0.05 of it, and
    between 1.0 and 1024.0; the last 51 sizes below one megabyte are all
    shown as 1024.0 KB, although the megabyte unit starts only at
    [1024 * 1024] bytes.  From there on it is the number of megabytes
    with one decimal nearest to [bytes / (1024 * 1024)], followed by
    MB. *)
Theorem formatFileSize_kilobytes :
  forall bytes : Z,
    (bytes < 1024 -> formatFileSize bytes = (decimal bytes ++ " B")%string)
    /\ (1024 <= bytes < 1024 * 1024 ->
        exists t : Z,
          formatFileSize bytes
          = (decimal (t / 10) ++ "." ++ decimal (t mod 10) ++ " KB")%string
          /\ 10 <= t <= 10240
          /\ - 1024 < 2048 * t - 20 * bytes <= 1024)
    /\ (1048525 <= bytes < 1024 * 1024 ->
        formatFileSize bytes = "1024.0 KB")
    /\ (1024 * 1024 <= bytes ->
        exists t : Z,
          formatFileSize bytes
          = (decimal (t / 10) ++ "." ++ decimal (t mod 10) ++ " MB")%string
          /\ 10 <= t
          /\ - 1048576 < 2097152 * t - 20 * bytes <= 1048576).
Proof.
  intro bytes. split; [| split; [| split]].
  - intro Hb. unfold formatFileSize.
    assert (H1 : (bytes <? 1024) = true) by (apply Z.ltb_lt; lia).
    rewrite H1. reflexivity.
  - intro Hb. exists (tenths bytes 1024).
    assert (Hnear := tenths_nearest bytes 1024 ltac:(lia)).
    split; [| lia].
    unfold formatFileSize, toFixed_1.
    assert (H1 : (bytes <? 1024) = false) by (apply Z.ltb_ge; lia).
    assert (H2 : (bytes <? 1024 * 1024) = true) by (apply Z.ltb_lt; lia).
    rewrite H1, H2. apply toFixed_1_with_unit.
  - intro Hb.
    assert (Hnear := tenths_nearest bytes 1024 ltac:(lia)).
    assert (Ht : tenths bytes 1024 = 10240) by lia.
    unfold formatFileSize, toFixed_1. rewrite Ht.
    assert (H1 : (bytes <? 1024) = false) by (apply Z.ltb_ge; lia).
    assert (H2 : (bytes <? 1024 * 1024) = true) by (apply Z.ltb_lt; lia).
    rewrite H1, H2. vm_compute. reflexivity.
  - intro Hb. exists (tenths bytes (1024 * 1024)).
    assert (Hnear := tenths_nearest bytes (1024 * 1024) ltac:(lia)).
    split; [| lia].
    unfold formatFileSize, toFixed_1.
    assert (H1 : (bytes <? 1024) = false) by (apply Z.ltb_ge; lia).
    assert (H2 : (bytes <? 1024 * 1024) = false) by (apply Z.ltb_ge; lia).
    rewrite H1, H2. apply toFixed_1_with_unit.
Qed.

End FileSizes.

(** ** The three queries of the analytics dashboard *)

Section Analytics.

Import AnalyticsQueries.

Lemma filter_all {A} (f : A -> bool) (l : list A) :
  (forall x, In x l -> f x = true) -> filter f l = l.
Proof.
  induction l as [| x l IH]; intro H; [reflexivity |].
  cbn [filter]. rewrite (H x (or_introl eq_refl)).
  f_equal. apply IH. intros y Hy. apply H. right. exact Hy.
Qed.

Lemma length_filter_map {A B} (f : A -> B) (p : B -> bool) (l : list A) :
  List.length (filter p (map f l))
  = List.length (filter (fun x => p (f x)) l).
Proof.
  induction l as [| x l IH]; [reflexivity |].
  cbn [map filter]. destruct (p (f x)); cbn [List.length]; rewrite IH;
    reflexivity.
Qed.

Lemma length_filter_le {A} (f g : A -> bool) (l : list A) :
  (forall x, f x = true -> g x = true) ->
  (List.length (filter f l) <= List.length (filter g l))%nat.
Proof.
  intro H. induction l as [| x l IH]; [apply Nat.le_refl |].
  cbn [filter]. destruct (f x) eqn:E.
  - rewrite (H x E). cbn [List.length]. lia.
  - destruct (g x); cbn [List.length]; lia.
Qed.

Lemma sum_filter_le {A} (w : A -> Z) (f g : A -> bool) (l : list A) :
  (forall x, f x = true -> g x = true) ->
  (forall x, g x = true -> 0 <= w x) ->
  0 <= fold_right Z.add 0 (map w (filter f l))
    <= fold_right Z.add 0 (map w (filter g l)).
Proof.
  intros Hfg Hw. induction l as [| x l IH]; [cbn; lia |].
  cbn [filter]. destruct (f x) eqn:E.
  - rewrite (Hfg x E). cbn [map fold_right].
    pose proof (Hw x (Hfg x E)). lia.
  - destruct (g x) eqn:G; cbn [map fold_right]; [| exact IH].
    pose proof (Hw x G). lia.
Qed.

Lemma sum_Permutation {A} (w : A -> Z) (l l' : list A) :
  Permutation l l' ->
  fold_right Z.add 0 (map w l) = fold_right Z.add 0 (map w l').
Proof.
  induction 1 as [| x l l' _ IH | x y l | l l' l'' _ IH1 _ IH2];
    cbn [map fold_right]; lia.
Qed.

Lemma status_counts (l : list Document.status_t) :
  List.length l
  = (List.length (filter (fun d => Document.status_eqb d Document.approved) l)
     + List.length (filter (fun d => Document.status_eqb d Document.pending) l)
     + List.length (filter (fun d => Document.status_eqb d Document.rejected) l))%nat.
Proof.
  induction l as [| x l IH]; [reflexivity |].
  destruct x; cbn [filter Document.status_eqb List.length]; lia.
Qed.

(** X13.  The four figures of [fetchStats] are consistent: every document
    the query returns is counted in exactly one of approved, pending and
    rejected, so these three add up to the total. *)
Theorem fetchStats_counts_add_up :
  forall (db : Db) (auth_uid : option uuid) (profile : Profile.row),
    let stats := fetchStats db auth_uid profile in
    totalDocuments stats
    = approvedDocuments stats + pendingDocuments stats
      + rejectedDocuments stats
    /\ 0 <= approvedDocuments stats
    /\ 0 <= pendingDocuments stats
    /\ 0 <= rejectedDocuments stats.
Proof.
  intros db auth_uid profile stats. subst stats.
  unfold fetchStats, count_status.
  cbn [totalDocuments approvedDocuments pendingDocuments rejectedDocuments].
  rewrite !or0_Some.
  rewrite (status_counts (fetchStats_data db auth_uid profile)) at 1.
  lia.
Qed.

(** The owner of a profile may read the documents of that profile. *)
Lemma documents_select_owner (db : Db) (profile : Profile.row)
    (d : Document.row) :
  In profile (profiles db) ->
  Document.student_id d = Profile.id profile ->
  Rls.documents_select db (Some (Profile.user_id profile)) d = true.
Proof.
  intros Hin Hsid. unfold Rls.documents_select.
  cbn [Sql.IS_NOT_NULL]. rewrite holds_AND_true.
  assert (Hown :
    Sql.IN String.eqb (Some (Document.student_id d))
      (Rls.own_profile_ids db (Some (Profile.user_id profile)))
    = Some true).
  { cbn [Sql.IN]. f_equal. apply existsb_exists.
    exists (Profile.id profile). split.
    - unfold Rls.own_profile_ids, Sql.select_where.
      apply (in_map Profile.id). apply filter_In. split; [exact Hin |].
      cbn. rewrite String.eqb_refl. reflexivity.
    - rewrite Hsid. apply String.eqb_refl. }
  rewrite Hown.
  destruct (Rls.is_faculty db (Some (Profile.user_id profile))) as [[|] |];
    reflexivity.
Qed.

Lemma counts_for_owner (student : uuid) (d : Document.row) :
  counts_for student d = true ->
  Document.student_id d = student
  /\ Document.status d = Document.approved
  /\ 0 < pointsAwarded d.
Proof.
  unfold counts_for. intro H.
  apply andb_prop in H. destruct H as [H Hpos].
  apply andb_prop in H. destruct H as [Hsid Hst].
  split; [apply String.eqb_eq; exact Hsid |].
  split; [destruct (Document.status d); cbn in Hst; congruence |].
  apply Z.ltb_lt. exact Hpos.
Qed.

(** The points of the achievements that the owner of a profile is shown
    add up to the total of the profile. *)
Lemma achievements_of_the_owner_total
    (db : Db) (timestamptz_compare : timestamptz -> timestamptz -> Z)
    (profile : Profile.row) :
  In profile (profiles db) ->
  fold_right Z.add 0
    (map pointsAwarded
       (fetchAchievements db (Some (Profile.user_id profile))
          timestamptz_compare profile))
  = totalScore_spec (documents db) (Profile.id profile).
Proof.
  intro Hin. unfold fetchAchievements.
  rewrite (sum_Permutation pointsAwarded _ _ (sort_Permutation _ _ _)).
  unfold Sql.select_where, totalScore_spec.
  rewrite (filter_ext _ _ (where_counts_for (Profile.id profile))).
  rewrite filter_all; [reflexivity |].
  intros d Hd. apply filter_In in Hd. destruct Hd as [_ Hc].
  apply documents_select_owner; [exact Hin |].
  apply (counts_for_owner _ _ Hc).
Qed.

(** The points of the achievements that any caller is shown add up to a
    number between 0 and the total of the profile. *)
Lemma achievements_total_bounds
    (db : Db) (auth_uid : option uuid)
    (timestamptz_compare : timestamptz -> timestamptz -> Z)
    (profile : Profile.row) :
  0 <= fold_right Z.add 0
         (map pointsAwarded
            (fetchAchievements db auth_uid timestamptz_compare profile))
    <= totalScore_spec (documents db) (Profile.id profile).
Proof.
  unfold fetchAchievements.
  rewrite (sum_Permutation pointsAwarded _ _ (sort_Permutation _ _ _)).
  unfold Sql.select_where, totalScore_spec.
  rewrite (filter_ext _ _ (where_counts_for (Profile.id profile))).
  rewrite filter_filter_andb.
  apply sum_filter_le.
  - intros d Hd. apply andb_prop in Hd. apply Hd.
  - intros d Hd. destruct (counts_for_owner _ _ Hd) as [_ [_ Hpos]]. lia.
Qed.

(** What the [totalPoints] state holds after [fetchTotalPoints]: the total
    of the profile when it is within the range of [integer], and what the
    state held before when it is not. *)
Lemma fetchTotalPoints_total
    (db : Db) (profile : Profile.row) (totalPoints : Z) :
  (totalScore_spec (documents db) (Profile.id profile) <= 2147483647 ->
   fetchTotalPoints db profile totalPoints
   = totalScore_spec (documents db) (Profile.id profile))
  /\ (2147483647 < totalScore_spec (documents db) (Profile.id profile) ->
      fetchTotalPoints db profile totalPoints = totalPoints).
Proof.
  unfold fetchTotalPoints.
  rewrite get_student_achievement_points_spec.
  pose proof (totalScore_spec_nonneg (documents db) (Profile.id profile)) as H0.
  split; intro Hr.
  - rewrite to_integer_Some by lia. apply or0_Some.
  - rewrite to_integer_None by lia. reflexivity.
Qed.

(** X14.  On the dashboard of the owner of a profile the points of the
    listed achievements add up, whatever the order of the list, to the
    total points shown, as long as their sum is within the range of
    [integer]; when it is beyond, the RPC ends in an error and the total
    shown stays what it was, the 0 the dashboard starts with. *)
Theorem achievements_of_the_owner_add_up_to_the_total :
  forall (db : Db) (timestamptz_compare : timestamptz -> timestamptz -> Z)
         (profile : Profile.row) (totalPoints : Z),
    In profile (profiles db) ->
    let sum :=
      fold_right Z.add 0
        (map pointsAwarded
           (fetchAchievements db (Some (Profile.user_id profile))
              timestamptz_compare profile)) in
    (sum <= 2147483647 -> fetchTotalPoints db profile totalPoints = sum)
    /\ (2147483647 < sum ->
        fetchTotalPoints db profile totalPoints = totalPoints).
Proof.
  intros db cmp profile totalPoints Hin sum. subst sum.
  rewrite (achievements_of_the_owner_total db cmp profile Hin).
  apply fetchTotalPoints_total.
Qed.

(** X15.  For every caller, the achievements listed are no more than the
    approved documents counted by [fetchStats], and their points add up to
    a number that is not negative and not above the total of the profile;
    this total is the total points shown when it is within the range of
    [integer]. *)
Theorem achievements_within_the_dashboard_figures :
  forall (db : Db) (auth_uid : option uuid)
         (timestamptz_compare : timestamptz -> timestamptz -> Z)
         (profile : Profile.row) (totalPoints : Z),
    let achievements :=
      fetchAchievements db auth_uid timestamptz_compare profile in
    Z.of_nat (List.length achievements)
    <= approvedDocuments (fetchStats db auth_uid profile)
    /\ 0 <= fold_right Z.add 0 (map pointsAwarded achievements)
         <= totalScore_spec (documents db) (Profile.id profile)
    /\ (totalScore_spec (documents db) (Profile.id profile) <= 2147483647 ->
        fold_right Z.add 0 (map pointsAwarded achievements)
        <= fetchTotalPoints db profile totalPoints).
Proof.
  intros db auth_uid cmp profile totalPoints achievements. subst achievements.
  split; [| split].
  - unfold fetchAchievements.
    rewrite (Permutation_length (sort_Permutation _ _ _)).
    unfold fetchStats, count_status, fetchStats_data.
    cbn [approvedDocuments]. rewrite or0_Some.
    apply inj_le. rewrite length_filter_map.
    unfold Sql.select_where.
    rewrite (filter_ext _ _ (where_counts_for (Profile.id profile))).
    rewrite !filter_filter_andb.
    apply length_filter_le. intros d Hd.
    apply andb_prop in Hd. destruct Hd as [Hc Hvis].
    destruct (counts_for_owner _ _ Hc) as [Hsid [Hst _]].
    rewrite Hvis, Hst, Hsid. cbn. rewrite String.eqb_refl. reflexivity.
  - apply achievements_total_bounds.
  - intro Hr.
    rewrite (proj1 (fetchTotalPoints_total db profile totalPoints) Hr).
    apply achievements_total_bounds.
Qed.

End Analytics.

(** ** Collaboration requests: who can be asked, and by whom *)

Section Invitations.

Import CollaborationInvite.

(** X16.  The students offered in the "new request" dialog of a signed-in
    caller are the student profiles, other than the [profile] prop, that
    are the caller's own or have [profile_visible] set; faculty profiles
    and hidden profiles of others are not offered, every student the
    directory lists other than [profile] is, and without a session the
    list is empty. *)
Theorem invite_list_is_the_visible_other_students :
  forall (db : Db) (viewer : uuid) (profile : Profile.row),
    (forall q,
       In q (fetchStudents db (Some viewer) profile)
       <-> In q (profiles db)
           /\ Profile.user_type q = Profile.student
           /\ Profile.id q <> Profile.id profile
           /\ (viewer = Profile.user_id q
               \/ Profile.json_get Profile.profile_visible q = Some true))
    /\ (forall q,
          In q (StudentSearch.data db (Some viewer)) ->
          Profile.id q <> Profile.id profile ->
          In q (fetchStudents db (Some viewer) profile))
    /\ fetchStudents db None profile = [].
Proof.
  intros db viewer profile.
  assert (Hiff : forall q,
    In q (fetchStudents db (Some viewer) profile)
    <-> In q (profiles db)
        /\ Profile.user_type q = Profile.student
        /\ Profile.id q <> Profile.id profile
        /\ (viewer = Profile.user_id q
            \/ Profile.json_get Profile.profile_visible q = Some true)).
  { intro q. unfold fetchStudents, Sql.select_where. rewrite !filter_In.
    cbn [Sql.EQ Sql.NEQ option_map].
    destruct (String.eqb_spec (Profile.id q) (Profile.id profile)) as [Hid | Hid];
      destruct (Profile.user_type q); cbn;
      try (split; [intros [[_ H] _]; discriminate
                  | intros [_ [H1 [H2 _]]]; congruence]).
    destruct (String.eqb_spec viewer (Profile.user_id q)) as [-> | Hne].
    - rewrite profiles_select_owner. intuition.
    - rewrite (profiles_select_other viewer q Hne).
      destruct (Profile.json_get Profile.profile_visible q) as [[|] |];
        intuition congruence. }
  split; [exact Hiff |]. split.
  - intros q Hq Hid. apply Hiff. apply In_data in Hq.
    destruct Hq as [Hin [Hty [Hvis _]]]. auto.
  - unfold fetchStudents.
    induction (Sql.select_where _ (profiles db)) as [| p l IH];
      [reflexivity |].
    cbn [filter]. rewrite profiles_select_anonymous. exact IH.
Qed.

(** Whether the caller may insert a request in the name of [requester_id]. *)
Lemma collaboration_requests_insert_iff
    (db : Db) (auth_uid : option uuid) (r : CollaborationRequest.row) :
  collaboration_requests_insert db auth_uid r = true
  <-> exists p : Profile.row,
        In p (profiles db)
        /\ Profile.id p = CollaborationRequest.requester_id r
        /\ auth_uid = Some (Profile.user_id p).
Proof.
  unfold collaboration_requests_insert. rewrite EXISTS_holds.
  split; intros [p [Hin H]]; exists p; (split; [exact Hin |]).
  - destruct auth_uid as [u |]; cbn in H.
    + destruct (String.eqb_spec (Profile.id p)
                  (CollaborationRequest.requester_id r));
        destruct (String.eqb_spec (Profile.user_id p) u);
        cbn in H; try discriminate. split; congruence.
    + destruct (String.eqb (Profile.id p)
                  (CollaborationRequest.requester_id r)); discriminate.
  - destruct H as [Hid ->]. cbn. rewrite Hid, !String.eqb_refl. reflexivity.
Qed.

(** X17.  A request sent by the owner of a profile to a profile of the
    database is stored as one new pending request at the end of the table;
    the owner of the invited profile can then answer it with any of the
    three status texts, and the answer is what the request holds
    afterwards. *)
Theorem sent_request_can_be_answered_by_the_invited :
  forall (db : Db) (requester invited : Profile.row)
         (projectTitle projectDescription : string)
         (selectedSkills : list string) (now now' : timestamptz)
         (new_id : uuid) (text : string) (st : CollaborationRequest.status_t),
    In requester (profiles db) ->
    In invited (profiles db) ->
    CollaborationRequest.status_of_text text = Some st ->
    let request :=
      {| CollaborationRequest.id := new_id;
         CollaborationRequest.requester_id := Profile.id requester;
         CollaborationRequest.requested_id := Profile.id invited;
         CollaborationRequest.project_title := projectTitle;
         CollaborationRequest.project_description := Some projectDescription;
         CollaborationRequest.skills_needed := selectedSkills;
         CollaborationRequest.status := CollaborationRequest.pending;
         CollaborationRequest.created_at := now;
         CollaborationRequest.updated_at := now |} in
    let sent :=
      createRequest db (Some (Profile.user_id requester)) (Some requester)
        (Profile.id invited) projectTitle projectDescription selectedSkills
        now new_id in
    let answered :=
      CollaborationRequests.updateRequestStatus (fst sent)
        (Some (Profile.user_id invited)) now' new_id text in
    sent
    = (set_collaboration_requests db (collaboration_requests db ++ [request]),
       Some Request_sent)
    /\ snd answered = CollaborationRequests.Request_updated text
    /\ In (CollaborationRequests.updated_row now' st request)
         (collaboration_requests (fst answered)).
Proof.
  intros db requester invited projectTitle projectDescription selectedSkills
    now now' new_id text st Hreq Hinv Hst request sent answered.
  assert (Hsent :
    sent
    = (set_collaboration_requests db (collaboration_requests db ++ [request]),
       Some Request_sent)).
  { subst sent. unfold createRequest. fold request.
    assert (Hpol : collaboration_requests_insert db
                     (Some (Profile.user_id requester)) request = true).
    { apply collaboration_requests_insert_iff. exists requester. auto. }
    rewrite Hpol. reflexivity. }
  split; [exact Hsent |].
  subst answered. rewrite Hsent. cbn [fst].
  set (db1 := set_collaboration_requests db
                (collaboration_requests db ++ [request])).
  assert (Htarget :
    CollaborationRequests.update_target db1 (Some (Profile.user_id invited))
      new_id request = true).
  { unfold CollaborationRequests.update_target.
    cbn [request CollaborationRequest.id]. rewrite String.eqb_refl.
    cbn [andb]. apply collaboration_requests_update_iff.
    exists invited. auto. }
  assert (Hex :
    existsb
      (CollaborationRequests.update_target db1
         (Some (Profile.user_id invited)) new_id)
      (collaboration_requests db1) = true).
  { apply existsb_exists. exists request. split; [| exact Htarget].
    cbn. apply in_or_app. right. left. reflexivity. }
  unfold CollaborationRequests.updateRequestStatus. rewrite Hex, Hst.
  cbn [fst snd]. split; [reflexivity |].
  cbn [collaboration_requests set_collaboration_requests].
  apply in_map_iff. exists request. rewrite Htarget.
  split; [reflexivity |].
  cbn. apply in_or_app. right. left. reflexivity.
Qed.

(** X18.  Nobody can send a request in the name of a profile of somebody
    else: when no profile with the id of the [profile] prop belongs to the
    caller, [createRequest] stores nothing and shows the error. *)
Theorem request_in_the_name_of_another_is_refused :
  forall (db : Db) (auth_uid : option uuid) (profile : Profile.row)
         (requestedId projectTitle projectDescription : string)
         (selectedSkills : list string) (now : timestamptz) (new_id : uuid),
    (forall p, In p (profiles db) ->
       Profile.id p = Profile.id profile ->
       auth_uid <> Some (Profile.user_id p)) ->
    createRequest db auth_uid (Some profile) requestedId projectTitle
      projectDescription selectedSkills now new_id
    = (db, Some (Error "new row violates row-level security policy")).
Proof.
  intros db auth_uid profile requestedId projectTitle projectDescription
    selectedSkills now new_id Hnot.
  unfold createRequest.
  destruct (collaboration_requests_insert db auth_uid _) eqn:E;
    [| reflexivity].
  apply collaboration_requests_insert_iff in E.
  destruct E as [p [Hin [Hid Hu]]]. exfalso.
  apply (Hnot p Hin); [exact Hid | exact Hu].
Qed.

(** X19.  Whoever calls [updateRequestStatus] and with whatever
    arguments, the call creates, deletes and reorders no request, leaves
    the id, the two parties, the project and the creation time of every
    request as they are, and leaves the other tables alone. *)
Theorem updateRequestStatus_keeps_the_invitation :
  forall (db : Db) (auth_uid : option uuid) (now : timestamptz)
         (requestId : uuid) (status : string),
    let db' :=
      fst (CollaborationRequests.updateRequestStatus db auth_uid now
             requestId status) in
    map invitation_part (collaboration_requests db')
    = map invitation_part (collaboration_requests db)
    /\ profiles db' = profiles db
    /\ student_skills db' = student_skills db
    /\ documents db' = documents db.
Proof.
  intros db auth_uid now requestId status db'. subst db'.
  unfold CollaborationRequests.updateRequestStatus.
  destruct (existsb _ _); [| cbn; auto].
  destruct (CollaborationRequest.status_of_text status) as [st |];
    [| cbn; auto].
  cbn [fst profiles student_skills documents collaboration_requests
       set_collaboration_requests].
  split; [| auto].
  rewrite map_map. apply map_ext. intro r.
  destruct (CollaborationRequests.update_target db auth_uid requestId r);
    reflexivity.
Qed.

End Invitations.

(** ** Object names, file extensions and file paths (DocumentUpload.tsx) *)

Section ObjectNames.

Import JsString.

Local Open Scope string_scope.

Lemma string_app_nil_r (s : string) : s ++ "" = s.
Proof. induction s as [| c s IH]; cbn; [reflexivity | f_equal; exact IH]. Qed.

Lemma string_app_assoc (a b c : string) : (a ++ b) ++ c = a ++ b ++ c.
Proof. induction a as [| x a IH]; cbn; [reflexivity | f_equal; exact IH]. Qed.

Lemma string_app_inv_head (a x y : string) : a ++ x = a ++ y -> x = y.
Proof.
  induction a as [| c a IH]; cbn; intro H; [exact H |].
  injection H as H. apply IH. exact H.
Qed.

Lemma has_char_app (c : ascii) (a b : string) :
  has_char c (a ++ b) = has_char c a || has_char c b.
Proof.
  induction a as [| x a IH]; cbn; [reflexivity |].
  rewrite IH, orb_assoc. reflexivity.
Qed.

Lemma split_from_app (sep : ascii) (cur s1 s2 : string) :
  split_from sep cur (s1 ++ String sep s2)
  = (split_from sep cur s1 ++ split_from sep "" s2)%list.
Proof.
  revert cur. induction s1 as [| c s1 IH]; intro cur;
    cbn [append split_from].
  - rewrite Ascii.eqb_refl. reflexivity.
  - destruct (Ascii.eqb c sep); [cbn [app]; f_equal |]; apply IH.
Qed.

Lemma split_from_no_sep (sep : ascii) (cur s : string) :
  has_char sep s = false -> split_from sep cur s = [cur ++ s].
Proof.
  revert cur. induction s as [| c s IH]; intros cur H; cbn [split_from].
  - rewrite string_app_nil_r. reflexivity.
  - cbn [has_char] in H. apply orb_false_elim in H. destruct H as [Hc Hs].
    rewrite Hc, (IH _ Hs), string_app_assoc. reflexivity.
Qed.

Lemma skipn_length_app {A} (l x : list A) :
  skipn (List.length l) (l ++ x)%list = x.
Proof. induction l as [| a l IH]; [reflexivity | exact IH]. Qed.

(** The last two segments of a path that ends in two segments without a
    slash. *)
Lemma filePath_of_two_segments (prefix a b : string) :
  has_char "/" a = false ->
  has_char "/" b = false ->
  DocumentDelete.filePath_of (prefix ++ "/" ++ a ++ "/" ++ b) = a ++ "/" ++ b.
Proof.
  intros Ha Hb. unfold DocumentDelete.filePath_of, split.
  change (prefix ++ "/" ++ a ++ "/" ++ b)
    with (prefix ++ String "/" (a ++ String "/" b)).
  rewrite !split_from_app.
  rewrite (split_from_no_sep _ "" a Ha), (split_from_no_sep _ "" b Hb).
  cbn [append]. unfold slice_last.
  rewrite length_app. cbn [List.length app].
  replace (List.length (split_from "/" "" prefix) + 2 - 2)%nat
    with (List.length (split_from "/" "" prefix)) by lia.
  rewrite skipn_length_app. reflexivity.
Qed.

(** The decimal notation of an integer holds digits and a sign only. *)
Lemma has_char_string_of_uint (c : ascii) (d : Decimal.uint) :
  c = "/"%char \/ c = "."%char ->
  has_char c (DecimalString.NilEmpty.string_of_uint d) = false.
Proof.
  intros [-> | ->]; induction d; cbn; auto.
Qed.

Lemma has_char_decimal (c : ascii) (n : Z) :
  c = "/"%char \/ c = "."%char -> has_char c (FileSize.decimal n) = false.
Proof.
  intro Hc. unfold FileSize.decimal, DecimalString.NilZero.string_of_int.
  assert (Hu : forall d,
    has_char c (DecimalString.NilZero.string_of_uint d) = false).
  { intro d. unfold DecimalString.NilZero.string_of_uint.
    destruct d; try apply (has_char_string_of_uint c _ Hc).
    destruct Hc as [-> | ->]; reflexivity. }
  destruct (Z.to_int n) as [d | d]; [apply Hu |].
  cbn [has_char]. rewrite Hu. destruct Hc as [-> | ->]; reflexivity.
Qed.

Lemma decimal_inj (a b : Z) : FileSize.decimal a = FileSize.decimal b -> a = b.
Proof.
  unfold FileSize.decimal. intro H.
  assert (Hnn : forall z,
    Z.to_int z <> Decimal.Pos Decimal.Nil
    /\ Z.to_int z <> Decimal.Neg Decimal.Nil).
  { intro z. destruct z as [| p | p]; cbn; split; try discriminate;
      intro E; injection E; apply DecimalPos.Unsigned.to_uint_nonnil. }
  apply (f_equal DecimalString.NilZero.int_of_string) in H.
  rewrite !DecimalString.NilZero.isi in H by apply Hnn.
  injection H as H. apply (f_equal Z.of_int) in H.
  rewrite !DecimalZ.of_to in H. exact H.
Qed.

Lemma first_dot_split (x x' y y' : string) :
  has_char "." x = false ->
  has_char "." x' = false ->
  x ++ String "." y = x' ++ String "." y' ->
  x = x' /\ y = y'.
Proof.
  revert x'. induction x as [| c x IH]; intros [| c' x'] Hx Hx' H;
    cbn [append has_char] in *.
  - injection H as H. auto.
  - injection H as Hc _. subst c'. discriminate.
  - injection H as Hc _. subst c. discriminate.
  - injection H as Hc H. subst c'.
    apply orb_false_elim in Hx. apply orb_false_elim in Hx'.
    destruct (IH x' (proj2 Hx) (proj2 Hx') H) as [-> ->]. auto.
Qed.

(** Two objects of one folder with the same rendered name are the same
    object. *)
Lemma render_inj (n m : DocumentUpload.object_name) :
  DocumentUpload.folder n = DocumentUpload.folder m ->
  DocumentDelete.render n = DocumentDelete.render m ->
  DocumentUpload.object_name_eqb n m = true.
Proof.
  intros Hf H. unfold DocumentDelete.render in H. rewrite Hf in H.
  apply string_app_inv_head in H.
  change ("/" ++ FileSize.decimal (DocumentUpload.stamp n) ++ "."
          ++ DocumentUpload.ext n)
    with (String "/" (FileSize.decimal (DocumentUpload.stamp n)
                      ++ String "." (DocumentUpload.ext n))) in H.
  change ("/" ++ FileSize.decimal (DocumentUpload.stamp m) ++ "."
          ++ DocumentUpload.ext m)
    with (String "/" (FileSize.decimal (DocumentUpload.stamp m)
                      ++ String "." (DocumentUpload.ext m))) in H.
  injection H as H.
  apply first_dot_split in H;
    try (apply has_char_decimal; right; reflexivity).
  destruct H as [Hs He]. apply decimal_inj in Hs.
  unfold DocumentUpload.object_name_eqb.
  rewrite Hf, Hs, He, !String.eqb_refl, Z.eqb_refl. reflexivity.
Qed.

Lemma last_segment_no_dot (acc s : string) :
  has_char "." acc = false ->
  has_char "." (DocumentUpload.last_segment acc s) = false.
Proof.
  revert acc. induction s as [| c s IH]; intros acc Hacc;
    cbn [DocumentUpload.last_segment]; [exact Hacc |].
  destruct (Ascii.eqb c ".") eqn:E; apply IH; [reflexivity |].
  rewrite has_char_app, Hacc. cbn. rewrite E. reflexivity.
Qed.

Lemma last_segment_whole (acc s : string) :
  has_char "." s = false -> DocumentUpload.last_segment acc s = acc ++ s.
Proof.
  revert acc. induction s as [| c s IH]; intros acc H;
    cbn [DocumentUpload.last_segment].
  - rewrite string_app_nil_r. reflexivity.
  - cbn [has_char] in H. apply orb_false_elim in H. destruct H as [Hc Hs].
    rewrite Hc, (IH _ Hs), string_app_assoc. reflexivity.
Qed.

Lemma last_segment_app (acc base e : string) :
  DocumentUpload.last_segment acc (base ++ String "." e)
  = DocumentUpload.last_segment "" e.
Proof.
  revert acc. induction base as [| c base IH]; intro acc;
    cbn [append DocumentUpload.last_segment].
  - reflexivity.
  - destruct (Ascii.eqb c "."); apply IH.
Qed.

(** X20.  [fileExt] is the text after the last dot of the file name: it
    holds no dot; for a name [base.e] with no dot in [e] it is [e]; and
    for a name without a dot it is the whole name, which then follows the
    time stamp in the object name. *)
Theorem fileExt_is_the_text_after_the_last_dot :
  forall file : DocumentUpload.File,
    has_char "." (DocumentUpload.fileExt file) = false
    /\ (forall base e,
          DocumentUpload.name file = base ++ "." ++ e ->
          has_char "." e = false ->
          DocumentUpload.fileExt file = e)
    /\ (has_char "." (DocumentUpload.name file) = false ->
        DocumentUpload.fileExt file = DocumentUpload.name file).
Proof.
  intro file. unfold DocumentUpload.fileExt. split; [| split].
  - apply last_segment_no_dot. reflexivity.
  - intros base e Hname He. rewrite Hname.
    change (base ++ "." ++ e) with (base ++ String "." e).
    rewrite last_segment_app. apply (last_segment_whole "" e He).
  - intro H. apply (last_segment_whole "" _ H).
Qed.

Lemma filePath_of_render
    (fileName : DocumentUpload.object_name) (prefix : string) :
  has_char "/" (DocumentUpload.folder fileName) = false ->
  has_char "/" (DocumentUpload.ext fileName) = false ->
  DocumentDelete.filePath_of (prefix ++ "/" ++ DocumentDelete.render fileName)
  = DocumentDelete.render fileName.
Proof.
  intros Hf He. unfold DocumentDelete.render.
  apply filePath_of_two_segments; [exact Hf |].
  rewrite has_char_app, has_char_decimal by (left; reflexivity).
  cbn. exact He.
Qed.

(** X21.  [handleDeleteDocument] takes the last two segments of the path
    of the URL, whatever stands before them.  When the path ends, letter
    for letter, in a slash and the object name that [handleFileUpload]
    wrote, and neither the user id nor the file extension holds a slash,
    this is that object name.  A path that ends in another text, as when
    the URL writes a character of the file extension in percent-encoded
    form, gives that other text. *)
Theorem filePath_of_public_url_is_the_object_name :
  forall (fileName : DocumentUpload.object_name) (prefix : string),
    has_char "/" (DocumentUpload.folder fileName) = false ->
    has_char "/" (DocumentUpload.ext fileName) = false ->
    (forall pathname : string,
       pathname = prefix ++ "/" ++ DocumentDelete.render fileName ->
       DocumentDelete.filePath_of pathname = DocumentDelete.render fileName)
    /\ (forall folder file : string,
          has_char "/" folder = false ->
          has_char "/" file = false ->
          DocumentDelete.filePath_of (prefix ++ "/" ++ folder ++ "/" ++ file)
          = folder ++ "/" ++ file)
    /\ (forall file : string,
          has_char "/" file = false ->
          file <> FileSize.decimal (DocumentUpload.stamp fileName) ++ "."
                  ++ DocumentUpload.ext fileName ->
          DocumentDelete.filePath_of
            (prefix ++ "/" ++ DocumentUpload.folder fileName ++ "/" ++ file)
          <> DocumentDelete.render fileName).
Proof.
  intros fileName prefix Hf He. split; [| split].
  - intros pathname ->. apply filePath_of_render; assumption.
  - intros folder file Hfo Hfi. apply filePath_of_two_segments; assumption.
  - intros file Hfi Hne.
    rewrite (filePath_of_two_segments prefix _ file Hf Hfi).
    unfold DocumentDelete.render. intro E.
    apply string_app_inv_head in E.
    change ("/" ++ file) with (String "/" file) in E.
    change ("/" ++ FileSize.decimal (DocumentUpload.stamp fileName) ++ "."
            ++ DocumentUpload.ext fileName)
      with (String "/" (FileSize.decimal (DocumentUpload.stamp fileName)
                        ++ "." ++ DocumentUpload.ext fileName)) in E.
    injection E as E. exact (Hne E).
Qed.

End ObjectNames.

(** ** Uploading and deleting documents (DocumentUpload.tsx) *)

Section UploadAndDelete.

Variable getPublicUrl : DocumentUpload.object_name -> string.
Variable URL_pathname : string -> option string.

(** The id of a profile of the caller is among the caller's profile ids. *)
Lemma own_profile_id_IN (db : Db) (profile : Profile.row) :
  In profile (profiles db) ->
  Sql.IN String.eqb (Some (Profile.id profile))
    (Rls.own_profile_ids db (Some (Profile.user_id profile)))
  = Some true.
Proof.
  intro Hin. cbn [Sql.IN]. f_equal. apply existsb_exists.
  exists (Profile.id profile). split; [| apply String.eqb_refl].
  unfold Rls.own_profile_ids, Sql.select_where.
  apply (in_map Profile.id). apply filter_In. split; [exact Hin |].
  cbn. rewrite String.eqb_refl. reflexivity.
Qed.

Lemma own_profile_ids_In (db : Db) (auth_uid : option uuid) (student : uuid) :
  Sql.holds
    (Sql.AND (Sql.IS_NOT_NULL auth_uid)
       (Sql.IN String.eqb (Some student) (Rls.own_profile_ids db auth_uid)))
  = true ->
  exists p, In p (profiles db)
            /\ Profile.id p = student
            /\ auth_uid = Some (Profile.user_id p).
Proof.
  destruct auth_uid as [u |]; cbn [Sql.IS_NOT_NULL].
  - rewrite holds_AND_true. cbn [Sql.IN Sql.holds]. intro H.
    assert (He : existsb (String.eqb student)
                   (Rls.own_profile_ids db (Some u)) = true)
      by (destruct (existsb _ _); [reflexivity | discriminate]).
    apply existsb_exists in He. destruct He as [i [Hi He]].
    apply String.eqb_eq in He. subst i.
    unfold Rls.own_profile_ids, Sql.select_where in Hi.
    apply in_map_iff in Hi. destruct Hi as [p [Hid Hp]].
    apply filter_In in Hp. destruct Hp as [Hp Hu].
    exists p. split; [exact Hp |]. split; [exact Hid |].
    cbn in Hu. destruct (String.eqb_spec (Profile.user_id p) u);
      [congruence | discriminate].
  - intro H. exfalso.
    destruct (Sql.IN String.eqb (Some student) (Rls.own_profile_ids db None))
      as [[|] |]; discriminate.
Qed.

Lemma upload_failure (be : DocumentUpload.backend) (user : option uuid)
    (fileName : DocumentUpload.object_name) (file : DocumentUpload.File)
    (w w1 : DocumentUpload.World) (e : string) :
  DocumentUpload.upload be user fileName file w = (w1, Some e) -> w1 = w.
Proof.
  unfold DocumentUpload.upload. destruct user; [| congruence].
  destruct (DocumentUpload.has_object fileName w); [congruence |].
  destruct (DocumentUpload.upload_error be); [congruence | discriminate].
Qed.

Lemma insert_success (be : DocumentUpload.backend) (user : option uuid)
    (documentData : Document.row) (w w2 : DocumentUpload.World) :
  DocumentUpload.insert be user documentData w = (w2, None) ->
  Rls.documents_insert (DocumentUpload.db w) user documentData = true
  /\ w2 = {| DocumentUpload.db :=
               set_documents (DocumentUpload.db w)
                 (documents (DocumentUpload.db w) ++ [documentData]);
             DocumentUpload.storage := DocumentUpload.storage w |}.
Proof.
  unfold DocumentUpload.insert.
  destruct (Rls.documents_insert _ user documentData); cbn [negb];
    [| discriminate].
  destruct (DocumentUpload.insert_error be); [discriminate |].
  intro H. injection H as <-. auto.
Qed.

(** X22.  Whatever the arguments and the answers of the backend,
    [handleFileUpload] keeps every document and every stored object, adds
    at most one of each, both at the end, adds a document only together
    with its object, and leaves the other tables alone. *)
Theorem handleFileUpload_only_adds :
  forall (be : DocumentUpload.backend) (profile : option Profile.row)
         (user : option uuid) (file : option DocumentUpload.File)
         (title description : string) (Date_now : Z) (now : timestamptz)
         (new_id : uuid) (w : DocumentUpload.World),
    let w' :=
      fst (DocumentUpload.handleFileUpload getPublicUrl be profile user file
             title description Date_now now new_id w) in
    exists docs objs,
      documents (DocumentUpload.db w')
      = documents (DocumentUpload.db w) ++ docs
      /\ DocumentUpload.storage w' = DocumentUpload.storage w ++ objs
      /\ (List.length docs <= List.length objs <= 1)%nat
      /\ profiles (DocumentUpload.db w') = profiles (DocumentUpload.db w)
      /\ student_skills (DocumentUpload.db w')
         = student_skills (DocumentUpload.db w)
      /\ collaboration_requests (DocumentUpload.db w')
         = collaboration_requests (DocumentUpload.db w).
Proof.
  intros be profile user file title description Date_now now new_id w w'.
  subst w'. unfold DocumentUpload.handleFileUpload.
  assert (Hsame : exists docs objs,
    documents (DocumentUpload.db w) = documents (DocumentUpload.db w) ++ docs
    /\ DocumentUpload.storage w = DocumentUpload.storage w ++ objs
    /\ (List.length docs <= List.length objs <= 1)%nat
    /\ profiles (DocumentUpload.db w) = profiles (DocumentUpload.db w)
    /\ student_skills (DocumentUpload.db w)
       = student_skills (DocumentUpload.db w)
    /\ collaboration_requests (DocumentUpload.db w)
       = collaboration_requests (DocumentUpload.db w)).
  { exists [], []. rewrite !app_nil_r. cbn. repeat split; lia. }
  destruct profile as [profile |]; [| exact Hsame].
  destruct file as [file |]; [| exact Hsame].
  set (fileName :=
         {| DocumentUpload.folder :=
              match user with Some u => u | None => "undefined" end;
            DocumentUpload.stamp := Date_now;
            DocumentUpload.ext := DocumentUpload.fileExt file |}).
  destruct (DocumentUpload.upload be user fileName file w)
    as [w1 [uploadError |]] eqn:Eu.
  - apply upload_failure in Eu. subst w1. exact Hsame.
  - apply upload_success in Eu. destruct Eu as [Hfree ->].
    match goal with
    | |- context [DocumentUpload.insert be user ?d ?w1] =>
        destruct (DocumentUpload.insert be user d w1)
          as [w2 [dbError |]] eqn:Ei
    end.
    + apply insert_failure in Ei. subst w2.
      unfold DocumentUpload.remove.
      destruct (DocumentUpload.remove_error be).
      * exists [], [(fileName, file)]. rewrite app_nil_r. cbn.
        repeat split; lia.
      * cbn [fst DocumentUpload.db DocumentUpload.storage].
        rewrite (remove_fresh_object fileName file _ Hfree).
        exact Hsame.
    + apply insert_success in Ei. destruct Ei as [_ ->].
      cbn [fst DocumentUpload.db DocumentUpload.storage documents
           set_documents profiles student_skills collaboration_requests].
      eexists [_], [(fileName, file)]. cbn [List.length].
      repeat split; lia.
Qed.

(** X23.  When [handleFileUpload] reports "Document uploaded", the
    database holds one new document, pending, with 0 points and no
    reviewer, under the profile given; the caller owns that profile; and
    the total of every student is what it was. *)
Theorem uploaded_document_is_pending_and_scores_nothing :
  forall (be : DocumentUpload.backend) (profile : option Profile.row)
         (user : option uuid) (file : option DocumentUpload.File)
         (title description : string) (Date_now : Z) (now : timestamptz)
         (new_id : uuid) (w : DocumentUpload.World),
    let result :=
      DocumentUpload.handleFileUpload getPublicUrl be profile user file
        title description Date_now now new_id w in
    In (DocumentUpload.toast_shown DocumentUpload.Document_uploaded)
      (snd result) ->
    exists (d : Document.row) (owner : Profile.row),
      documents (DocumentUpload.db (fst result))
      = documents (DocumentUpload.db w) ++ [d]
      /\ Document.id d = new_id
      /\ Document.status d = Document.pending
      /\ Document.points_awarded d = Some 0
      /\ Document.approved_by d = None
      /\ profile = Some owner
      /\ Document.student_id d = Profile.id owner
      /\ (exists p, In p (profiles (DocumentUpload.db w))
                    /\ Profile.id p = Profile.id owner
                    /\ user = Some (Profile.user_id p))
      /\ (forall student,
            get_student_achievement_points (DocumentUpload.db (fst result))
              student
            = get_student_achievement_points (DocumentUpload.db w) student).
Proof.
  intros be profile user file title description Date_now now new_id w result.
  subst result. unfold DocumentUpload.handleFileUpload.
  destruct profile as [profile |];
    [| cbn; intros [H | []]; discriminate].
  destruct file as [file |]; [| cbn; intros [H | []]; discriminate].
  set (fileName :=
         {| DocumentUpload.folder :=
              match user with Some u => u | None => "undefined" end;
            DocumentUpload.stamp := Date_now;
            DocumentUpload.ext := DocumentUpload.fileExt file |}).
  destruct (DocumentUpload.upload be user fileName file w)
    as [w1 [uploadError |]] eqn:Eu.
  { cbn. intros [H | [H | []]]; discriminate. }
  apply upload_success in Eu. destruct Eu as [_ ->].
  match goal with
  | |- context [DocumentUpload.insert be user ?d _] => set (documentData := d)
  end.
  destruct (DocumentUpload.insert be user documentData _)
    as [w2 [dbError |]] eqn:Ei.
  { destruct (DocumentUpload.remove be fileName w2) as [w3 removed].
    cbn. intros [H | [H | [H | [H | []]]]]; discriminate. }
  intros _. apply insert_success in Ei. destruct Ei as [Hpol ->].
  cbn [DocumentUpload.db] in Hpol.
  exists documentData, profile.
  cbn [fst DocumentUpload.db documents set_documents].
  repeat (split; [reflexivity |]).
  split.
  - apply (own_profile_ids_In _ _ _ Hpol).
  - intro student. rewrite !get_student_achievement_points_spec.
    cbn [documents set_documents].
    rewrite totalScore_spec_app, app_nil_r.
    rewrite (not_approved_counts_for documentData student);
      [f_equal; lia | discriminate].
Qed.

(** X24.  A document uploaded by the owner of a profile and then deleted
    by the same user, with the file URL stored for it, leaves the database
    and the bucket exactly as they were before the upload, when the id of
    the new row is not in use and the path of the public URL ends in the
    object name. *)
Theorem upload_then_delete_restores_the_world :
  forall (be_up : DocumentUpload.backend) (be_del : DocumentDelete.backend)
         (profile : Profile.row) (file : DocumentUpload.File)
         (title description : string) (Date_now : Z) (now : timestamptz)
         (new_id : uuid) (w : DocumentUpload.World) (prefix : string),
    let user := Profile.user_id profile in
    let fileName :=
      {| DocumentUpload.folder := user;
         DocumentUpload.stamp := Date_now;
         DocumentUpload.ext := DocumentUpload.fileExt file |} in
    In profile (profiles (DocumentUpload.db w)) ->
    JsString.has_char "/" user = false ->
    JsString.has_char "/" (DocumentUpload.fileExt file) = false ->
    URL_pathname (getPublicUrl fileName)
    = Some (prefix ++ "/" ++ DocumentDelete.render fileName)%string ->
    DocumentUpload.has_object fileName w = false ->
    (forall d, In d (documents (DocumentUpload.db w)) ->
       Document.id d <> new_id) ->
    DocumentUpload.upload_error be_up = None ->
    DocumentUpload.insert_error be_up = None ->
    DocumentDelete.delete_error be_del = None ->
    DocumentDelete.remove_error be_del = None ->
    let uploaded :=
      DocumentUpload.handleFileUpload getPublicUrl be_up (Some profile)
        (Some user) (Some file) title description Date_now now new_id w in
    let deleted :=
      DocumentDelete.handleDeleteDocument URL_pathname be_del true
        (Some user) new_id (getPublicUrl fileName) (fst uploaded) in
    In (DocumentUpload.toast_shown DocumentUpload.Document_uploaded)
      (snd uploaded)
    /\ In (DocumentDelete.toast_shown DocumentDelete.Document_deleted)
         (snd deleted)
    /\ fst deleted = w.
Proof.
  intros be_up be_del profile file title description Date_now now new_id w
    prefix user fileName Hin Huser Hext Hurl Hfree Hfresh
    Hup Hins Hdel Hrem uploaded deleted.
  subst user. set (user := Profile.user_id profile) in *.
  set (documentData :=
         {| Document.id := new_id;
            Document.student_id := Profile.id profile;
            Document.title := title;
            Document.description := Some description;
            Document.file_url := getPublicUrl fileName;
            Document.file_type := DocumentUpload.type file;
            Document.file_size := Some (DocumentUpload.size file);
            Document.status := Document.pending;
            Document.uploaded_at := now;
            Document.approved_by := None;
            Document.approved_at := None;
            Document.rejection_reason := None;
            Document.points_awarded := Some 0 |}).
  assert (Hown := own_profile_id_IN (DocumentUpload.db w) profile Hin).
  fold user in Hown.
  assert (Huploaded :
    uploaded
    = ({| DocumentUpload.db :=
            set_documents (DocumentUpload.db w)
              (documents (DocumentUpload.db w) ++ [documentData]);
          DocumentUpload.storage :=
            DocumentUpload.storage w ++ [(fileName, file)] |},
       [DocumentUpload.storage_upload fileName None;
        DocumentUpload.db_insert None;
        DocumentUpload.toast_shown DocumentUpload.Document_uploaded;
        DocumentUpload.form_reset;
        DocumentUpload.fetchDocuments])).
  { subst uploaded. unfold DocumentUpload.handleFileUpload.
    fold fileName. fold documentData.
    unfold DocumentUpload.upload. rewrite Hfree, Hup.
    unfold DocumentUpload.insert.
    cbn [DocumentUpload.db DocumentUpload.storage].
    assert (Hpol : Rls.documents_insert (DocumentUpload.db w) (Some user)
                     documentData = true).
    { unfold Rls.documents_insert. cbn [Sql.IS_NOT_NULL].
      rewrite holds_AND_true. exact (f_equal Sql.holds Hown). }
    rewrite Hpol. cbn [negb]. rewrite Hins. reflexivity. }
  split; [rewrite Huploaded; cbn; auto |].
  subst deleted. rewrite Huploaded. cbn [fst].
  unfold DocumentDelete.handleDeleteDocument. cbn [negb].
  rewrite Hurl, Hdel.
  rewrite (filePath_of_render fileName prefix
             Huser Hext).
  unfold DocumentDelete.remove_path. rewrite Hrem.
  cbn [fst snd DocumentUpload.db DocumentUpload.storage documents
       set_documents].
  split; [cbn; auto |].
  (* the documents *)
  assert (Hdocs :
    filter
      (fun d =>
         negb (DocumentDelete.delete_target
                 (set_documents (DocumentUpload.db w)
                    (documents (DocumentUpload.db w) ++ [documentData]))
                 (Some user) new_id d))
      (documents (DocumentUpload.db w) ++ [documentData])
    = documents (DocumentUpload.db w)).
  { rewrite filter_app. cbn [filter].
    unfold DocumentDelete.delete_target at 2.
    cbn [documentData Document.id]. rewrite String.eqb_refl. cbn [andb].
    fold documentData.
    assert (Hpol :
      DocumentDelete.documents_delete
        (set_documents (DocumentUpload.db w)
           (documents (DocumentUpload.db w) ++ [documentData]))
        (Some user) documentData = true).
    { unfold DocumentDelete.documents_delete. cbn [Sql.IS_NOT_NULL].
      rewrite holds_AND_true. exact (f_equal Sql.holds Hown). }
    rewrite Hpol. cbn [negb]. rewrite app_nil_r.
    apply filter_all. intros d Hd.
    unfold DocumentDelete.delete_target.
    rewrite (proj2 (String.eqb_neq _ _) (Hfresh d Hd)). reflexivity. }
  (* the bucket *)
  assert (Hobjs :
    filter
      (fun o =>
         negb (String.eqb (DocumentDelete.render (fst o))
                 (DocumentDelete.render fileName)
               && DocumentDelete.objects_delete (Some user) (fst o)))
      (DocumentUpload.storage w ++ [(fileName, file)])
    = DocumentUpload.storage w).
  { rewrite filter_app. cbn [filter fst].
    rewrite String.eqb_refl.
    unfold DocumentDelete.objects_delete at 2.
    cbn [Sql.IS_NOT_NULL]. rewrite holds_AND_true.
    cbn [fileName DocumentUpload.folder Sql.EQ Sql.holds].
    rewrite String.eqb_refl. cbn [andb negb]. rewrite app_nil_r.
    apply filter_all. intros o Ho.
    destruct (String.eqb_spec (DocumentDelete.render (fst o))
                (DocumentDelete.render fileName)) as [Hr |];
      [| reflexivity].
    unfold DocumentDelete.objects_delete.
    cbn [Sql.IS_NOT_NULL]. rewrite holds_AND_true. cbn [Sql.EQ Sql.holds].
    destruct (String.eqb_spec (DocumentUpload.folder (fst o)) user)
      as [Hf |]; [| reflexivity].
    exfalso.
    assert (Heq := render_inj (fst o) fileName Hf Hr).
    unfold DocumentUpload.has_object in Hfree.
    assert (Hex : existsb
                    (fun o => DocumentUpload.object_name_eqb (fst o) fileName)
                    (DocumentUpload.storage w) = true).
    { apply existsb_exists. exists o. auto. }
    congruence. }
  rewrite Hdocs, Hobjs. destruct w as [db0 storage0]. destruct db0.
  reflexivity.
Qed.

End UploadAndDelete.

(** ** Deleting a document (DocumentUpload.tsx) *)

Section Deleting.

Variable URL_pathname : string -> option string.

Lemma filter_dropped {A} (f : A -> bool) (l : list A) (x : A) :
  In x l -> ~ In x (filter f l) -> f x = false.
Proof.
  intros Hin Hnot. destruct (f x) eqn:E; [| reflexivity].
  exfalso. apply Hnot. apply filter_In. auto.
Qed.

Ltac unchanged H :=
  cbn [fst snd];
  destruct H as (? & ? & ? & ? & ? & ? & ? & ?);
  repeat (split; [assumption |]);
  intros; first [discriminate | congruence | contradiction].

Lemma filter_kept {A} (f : A -> bool) (l : list A) (x : A) :
  In x (filter f l) -> In x l.
Proof. intro H. apply filter_In in H. apply H. Qed.

(** What the DELETE policy of the bucket asks of the caller. *)
Lemma objects_delete_folder (auth_uid : option uuid)
    (n : DocumentUpload.object_name) :
  DocumentDelete.objects_delete auth_uid n = true ->
  auth_uid = Some (DocumentUpload.folder n).
Proof.
  unfold DocumentDelete.objects_delete.
  destruct auth_uid as [u |]; cbn; [| discriminate].
  destruct (String.eqb_spec (DocumentUpload.folder n) u) as [<- |];
    [reflexivity | discriminate].
Qed.

(** X25.  [handleDeleteDocument] only removes: every document and every
    stored object left was there before; a document that is gone had the
    id given and belongs to a profile of the caller, and an object that is
    gone lies in the folder of the caller; the other tables are left
    alone.  The URL is read before anything is deleted, so a document
    whose file URL does not parse is not deleted; and when the row is
    deleted and the removal from the bucket fails, the bucket is as before
    and the toast still reports the deletion. *)
Theorem handleDeleteDocument_removes_only_what_the_caller_owns :
  forall (be : DocumentDelete.backend) (confirmed : bool)
         (user : option uuid) (documentId : uuid) (fileUrl : string)
         (w : DocumentUpload.World),
    let result :=
      DocumentDelete.handleDeleteDocument URL_pathname be confirmed user
        documentId fileUrl w in
    let w' := fst result in
    (forall d, In d (documents (DocumentUpload.db w')) ->
       In d (documents (DocumentUpload.db w)))
    /\ (forall d, In d (documents (DocumentUpload.db w)) ->
          ~ In d (documents (DocumentUpload.db w')) ->
          Document.id d = documentId
          /\ exists p, In p (profiles (DocumentUpload.db w))
                       /\ Profile.id p = Document.student_id d
                       /\ user = Some (Profile.user_id p))
    /\ (forall o, In o (DocumentUpload.storage w') ->
          In o (DocumentUpload.storage w))
    /\ (forall o, In o (DocumentUpload.storage w) ->
          ~ In o (DocumentUpload.storage w') ->
          user = Some (DocumentUpload.folder (fst o)))
    /\ profiles (DocumentUpload.db w') = profiles (DocumentUpload.db w)
    /\ student_skills (DocumentUpload.db w')
       = student_skills (DocumentUpload.db w)
    /\ collaboration_requests (DocumentUpload.db w')
       = collaboration_requests (DocumentUpload.db w)
    /\ (URL_pathname fileUrl = None -> w' = w)
    /\ (forall e,
          confirmed = true ->
          URL_pathname fileUrl <> None ->
          DocumentDelete.delete_error be = None ->
          DocumentDelete.remove_error be = Some e ->
          DocumentUpload.storage w' = DocumentUpload.storage w
          /\ In (DocumentDelete.toast_shown DocumentDelete.Document_deleted)
               (snd result)).
Proof.
  intros be confirmed user documentId fileUrl w result w'.
  subst w' result. unfold DocumentDelete.handleDeleteDocument.
  assert (Hsame :
    (forall d, In d (documents (DocumentUpload.db w)) ->
       In d (documents (DocumentUpload.db w)))
    /\ (forall d, In d (documents (DocumentUpload.db w)) ->
          ~ In d (documents (DocumentUpload.db w)) ->
          Document.id d = documentId
          /\ exists p, In p (profiles (DocumentUpload.db w))
                       /\ Profile.id p = Document.student_id d
                       /\ user = Some (Profile.user_id p))
    /\ (forall o, In o (DocumentUpload.storage w) ->
          In o (DocumentUpload.storage w))
    /\ (forall o, In o (DocumentUpload.storage w) ->
          ~ In o (DocumentUpload.storage w) ->
          user = Some (DocumentUpload.folder (fst o)))
    /\ profiles (DocumentUpload.db w) = profiles (DocumentUpload.db w)
    /\ student_skills (DocumentUpload.db w)
       = student_skills (DocumentUpload.db w)
    /\ collaboration_requests (DocumentUpload.db w)
       = collaboration_requests (DocumentUpload.db w)
    /\ (URL_pathname fileUrl = None -> w = w)).
  { repeat split; auto; contradiction. }
  destruct confirmed; cbn [negb]; [| unchanged Hsame].
  destruct (URL_pathname fileUrl) as [pathname |]; [| unchanged Hsame].
  destruct (DocumentDelete.delete_error be) as [dbError |];
    [unchanged Hsame |].
  clear Hsame.
  assert (Hgone : forall d,
    In d (documents (DocumentUpload.db w)) ->
    ~ In d (filter
              (fun d =>
                 negb (DocumentDelete.delete_target (DocumentUpload.db w)
                         user documentId d))
              (documents (DocumentUpload.db w))) ->
    Document.id d = documentId
    /\ exists p, In p (profiles (DocumentUpload.db w))
                 /\ Profile.id p = Document.student_id d
                 /\ user = Some (Profile.user_id p)).
  { intros d Hd Hnot. apply (filter_dropped _ _ _ Hd) in Hnot.
    apply negb_false_iff in Hnot.
    unfold DocumentDelete.delete_target in Hnot.
    apply andb_prop in Hnot. destruct Hnot as [Hid Hpol].
    split; [apply String.eqb_eq; exact Hid |].
    apply (own_profile_ids_In _ _ _ Hpol). }
  unfold DocumentDelete.remove_path.
  destruct (DocumentDelete.remove_error be) as [storageError |];
    cbn [fst snd DocumentUpload.db DocumentUpload.storage documents
         set_documents profiles student_skills collaboration_requests].
  - split; [intro d; apply filter_kept |].
    split; [exact Hgone |].
    split; [auto |]. split; [intros; contradiction |].
    repeat (split; [reflexivity |]).
    split; [discriminate |].
    intros e _ _ _ _. split; [reflexivity |]. cbn. auto.
  - split; [intro d; apply filter_kept |].
    split; [exact Hgone |].
    split; [intro o; apply filter_kept |].
    split.
    + intros o Ho Hnot. apply (filter_dropped _ _ _ Ho) in Hnot.
      apply negb_false_iff in Hnot. apply andb_prop in Hnot.
      apply objects_delete_folder. apply Hnot.
    + repeat (split; [reflexivity |]).
      split; discriminate.
Qed.

End Deleting.

(** ** Signing up and the first visit of the dashboard *)

Section SigningUp.

Import Signup.

Lemma filter_none {A} (f : A -> bool) (l : list A) :
  (forall x, In x l -> f x = false) -> filter f l = [].
Proof.
  induction l as [| x l IH]; intro H; [reflexivity |].
  cbn [filter]. rewrite (H x (or_introl eq_refl)).
  apply IH. intros y Hy. apply H. right. exact Hy.
Qed.

Lemma existsb_false_In {A} (f : A -> bool) (l : list A) (x : A) :
  existsb f l = false -> In x l -> f x = false.
Proof.
  intros H Hin. destruct (f x) eqn:E; [| reflexivity].
  assert (Ht : existsb f l = true) by (apply existsb_exists; eauto).
  congruence.
Qed.

(** The profile row that [handle_new_user] writes. *)
Lemma handle_new_user_profile
    (new_id : uuid) (NEW : auth_user) (st st' : State) :
  handle_new_user new_id NEW st = Some st' ->
  user_type (user_metadata NEW) <> Some "placement_officer" ->
  exists p,
    profiles (db st') = profiles (db st) ++ [p]
    /\ placement_officers st' = placement_officers st
    /\ Profile.id p = new_id
    /\ Profile.user_id p = id NEW
    /\ user_type_of_text
         (Sql.COALESCE (user_type (user_metadata NEW)) "student")
       = Some (Profile.user_type p)
    /\ Profile.privacy_settings p = Some default_privacy_settings
    /\ existsb (fun q => String.eqb (Profile.user_id q) (id NEW))
         (profiles (db st)) = false
    /\ student_skills (db st') = student_skills (db st)
    /\ documents (db st') = documents (db st)
    /\ collaboration_requests (db st') = collaboration_requests (db st).
Proof.
  unfold handle_new_user. intros H Hnot.
  assert (Hpo :
    Sql.holds
      (Sql.EQ String.eqb (user_type (user_metadata NEW))
         (Some "placement_officer")) = false).
  { destruct (user_type (user_metadata NEW)) as [t |]; [| reflexivity].
    cbn. destruct (String.eqb_spec t "placement_officer");
      [congruence | reflexivity]. }
  rewrite Hpo in H.
  destruct (user_type_of_text _) as [ut |]; [| discriminate].
  destruct (existsb _ (profiles (db st))) eqn:Eu; [discriminate |].
  injection H as <-. eexists. cbn.
  repeat (split; [reflexivity |]). reflexivity.
Qed.


(** X27.  A signup with a user type other than "student", "faculty" and
    "placement_officer" is refused by the CHECK constraint on
    [profiles.user_type], the empty text included. *)
Theorem signup_with_an_unknown_user_type_is_refused :
  forall (new_id : uuid) (NEW : auth_user) (st : State) (t : string),
    user_type (user_metadata NEW) = Some t ->
    t <> "student" -> t <> "faculty" -> t <> "placement_officer" ->
    handle_new_user new_id NEW st = None.
Proof.
  intros new_id NEW st t Et Hs Hf Hp.
  unfold handle_new_user, user_type_of_text. rewrite Et.
  cbn [Sql.EQ Sql.holds Sql.COALESCE].
  apply String.eqb_neq in Hs, Hf, Hp. rewrite Hs, Hf, Hp. reflexivity.
Qed.

(** X28.  A student who has signed up is in the directory at once: the
    search of every signed-in caller, the new student included, lists the
    new profile, since the default privacy settings make it visible. *)
Theorem new_student_is_listed_in_the_directory :
  forall (new_id : uuid) (NEW : auth_user) (st st' : State) (viewer : uuid),
    handle_new_user new_id NEW st = Some st' ->
    user_type (user_metadata NEW) = None
    \/ user_type (user_metadata NEW) = Some "student" ->
    exists p,
      In p (StudentSearch.data (db st') (Some viewer))
      /\ Profile.id p = new_id
      /\ Profile.user_id p = id NEW.
Proof.
  intros new_id NEW st st' viewer H Hty.
  assert (Hnot : user_type (user_metadata NEW) <> Some "placement_officer")
    by (destruct Hty as [-> | ->]; discriminate).
  destruct (handle_new_user_profile _ _ _ _ H Hnot)
    as [p [Hps [_ [Hid [Hu [Hut [Hpriv _]]]]]]].
  exists p. split; [| auto].
  assert (Hvis : Profile.json_get Profile.profile_visible p = Some true).
  { unfold Profile.json_get. rewrite Hpriv. reflexivity. }
  apply In_data. split; [rewrite Hps; apply in_or_app; right; left; reflexivity |].
  split.
  - destruct Hty as [E | E]; rewrite E in Hut; cbn in Hut; congruence.
  - split; [exact Hvis |]. apply profiles_select_visible. exact Hvis.
Qed.

(** The query of [fetchProfile] when the user has no profile, and after a
    profile of the user has been added. *)
Lemma own_profiles_none (user : uuid) (ps : list Profile.row) :
  existsb (fun p => String.eqb (Profile.user_id p) user) ps = false ->
  filter (Rls.profiles_select (Some user))
    (Sql.select_where
       (fun p => Sql.EQ String.eqb (Some (Profile.user_id p)) (Some user))
       ps)
  = [].
Proof.
  intro H. unfold Sql.select_where.
  rewrite (filter_none (fun p => Sql.holds _) ps); [reflexivity |].
  intros p Hp. cbn. rewrite (existsb_false_In _ _ p H Hp). reflexivity.
Qed.

Lemma own_profiles_added (ps : list Profile.row) (p : Profile.row) :
  existsb (fun q => String.eqb (Profile.user_id q) (Profile.user_id p)) ps
  = false ->
  filter (Rls.profiles_select (Some (Profile.user_id p)))
    (Sql.select_where
       (fun q =>
          Sql.EQ String.eqb (Some (Profile.user_id q))
            (Some (Profile.user_id p)))
       (ps ++ [p]))
  = [p].
Proof.
  intro H. unfold Sql.select_where. rewrite !filter_app.
  fold (Sql.select_where
          (fun q =>
             Sql.EQ String.eqb (Some (Profile.user_id q))
               (Some (Profile.user_id p))) ps).
  rewrite (own_profiles_none _ _ H).
  cbn. rewrite String.eqb_refl. cbn.
  rewrite profiles_select_owner. reflexivity.
Qed.

(** After a call of [fetchProfile] that ends with a profile, the query
    for the profile of the user finds that profile and no other. *)
Lemma fetchProfile_query
    (user : auth_user) (new_id : uuid) (d : Db) (p : Profile.row) :
  snd (fetchProfile user new_id d) = Some p ->
  filter (Rls.profiles_select (Some (id user)))
    (Sql.select_where
       (fun q => Sql.EQ String.eqb (Some (Profile.user_id q)) (Some (id user)))
       (profiles (fst (fetchProfile user new_id d))))
  = [p].
Proof.
  unfold fetchProfile.
  destruct (filter _ (Sql.select_where _ (profiles d)))
    as [| q [| q' l]] eqn:Eq.
  - destruct (user_type_of_text _) as [ut |]; [| discriminate].
    destruct (existsb _ (profiles d)) eqn:Eu; [discriminate |].
    cbn [fst snd profiles set_profiles]. intro Hp. injection Hp as <-.
    match goal with
    | |- _ = [?n] => exact (own_profiles_added (profiles d) n Eu)
    end.
  - cbn [fst snd]. intro Hp. injection Hp as <-. exact Eq.
  - destruct (user_type_of_text _) as [ut |]; [| discriminate].
    destruct (existsb _ (profiles d)) eqn:Eu; [discriminate |].
    exfalso. rewrite (own_profiles_none _ _ Eu) in Eq. discriminate.
Qed.

(** X29.  [fetchProfile] of the dashboard finds the profile that the
    signup trigger has written and adds nothing; and whenever a call of
    [fetchProfile] ends with a profile, a second call ends with the same
    profile and changes nothing, so the dashboard creates at most one
    profile for a user. *)
Theorem fetchProfile_finds_or_creates_one_profile :
  forall (user : auth_user) (d : Db),
    (forall (signup_id new_id : uuid) (st st' : State),
       handle_new_user signup_id user st = Some st' ->
       user_type (user_metadata user) <> Some "placement_officer" ->
       db st' = d ->
       exists p,
         fetchProfile user new_id d = (d, Some p)
         /\ Profile.id p = signup_id)
    /\ (forall (new_id new_id' : uuid) (p : Profile.row),
          snd (fetchProfile user new_id d) = Some p ->
          fetchProfile user new_id' (fst (fetchProfile user new_id d))
          = (fst (fetchProfile user new_id d), Some p)).
Proof.
  intros user d. split.
  - intros signup_id new_id st st' H Hnot <-.
    destruct (handle_new_user_profile _ _ _ _ H Hnot)
      as [p [Hps [_ [Hid [Hu [_ [_ [Hfree _]]]]]]]].
    exists p. split; [| exact Hid].
    unfold fetchProfile. rewrite Hps, <- Hu.
    rewrite own_profiles_added by (rewrite Hu; exact Hfree).
    reflexivity.
  - intros new_id new_id' p Hp.
    assert (Hq := fetchProfile_query user new_id d p Hp).
    set (d1 := fst (fetchProfile user new_id d)) in *.
    unfold fetchProfile. rewrite Hq. reflexivity.
Qed.

End SigningUp.

(** ** The further properties on the example data *)

Ltac distinct_ids :=
  repeat (apply NoDup_cons; [cbn; intuition discriminate |]); apply NoDup_nil.

(** Student C sees the skills of student A and none of student G. *)
Lemma directory_skills_follow_skills_visible_witness :
  StudentSearch.embedded_student_skills skills_db (Some "uC") student_A
  = [make_skill "pA" "React"]
  /\ StudentSearch.skills
       (StudentSearch.studentWithPoints skills_db (Some "uC") student_G)
     = [].
Proof.
  assert (Hids : NoDup (map Profile.id (profiles skills_db)))
    by distinct_ids.
  split.
  - apply (proj1 (proj2 (directory_skills_follow_skills_visible
                           skills_db "uC" student_A Hids
                           (or_introl eq_refl)))).
    right. split; reflexivity.
  - apply (proj2 (proj2 (directory_skills_follow_skills_visible
                           skills_db "uC" student_G Hids
                           (or_intror (or_introl eq_refl)))));
      [discriminate | left; discriminate].
Defined.

(** Student A, holding the own profile as [facultyProfile], approves the
    own document with 100 points: nothing is written. *)
Lemma handleApproval_without_faculty_profile_writes_nothing_witness :
  fst (DocumentApproval.handleApproval review_db (Some "uA") (Some student_A)
         "2025-09-16T09:00:00Z" "d1" true None (Some 100))
  = review_db.
Proof.
  apply (proj1 (handleApproval_without_faculty_profile_writes_nothing
                  review_db (Some "uA") (Some student_A)
                  "2025-09-16T09:00:00Z" "d1" true None (Some 100)
                  ltac:(intros p [<- | [<- | [<- | [<- | []]]]] H;
                        first [reflexivity | discriminate H]))).
Defined.

(** The approval of the pending document of student A with 30 points. *)
Lemma approval_adds_the_points_to_the_owner_witness :
  get_student_achievement_points
    (fst (DocumentApproval.handleApproval review_db (Some "uF")
            (Some faculty_F) "2025-09-16T09:00:00Z" "d1" true None (Some 30)))
    "pA"
  = Some 30.
Proof.
  pose proof (approval_adds_the_points_to_the_owner
                review_db (Some "uF") faculty_F "2025-09-16T09:00:00Z"
                None 30 (make_document "d1" "pA" Document.pending (Some 0))
                "pA" eq_refl eq_refl ltac:(discriminate)
                ltac:(distinct_ids) (or_introl eq_refl) ltac:(lia)) as H.
  cbv zeta in H. destruct H as [H _].
  destruct (H ltac:(lia)) as (_ & Hrpc & _).
  apply Hrpc. vm_compute. discriminate.
Defined.

(** The rejection of the approved document of 30 points of student A. *)
Lemma rejection_takes_the_points_back_witness :
  get_student_achievement_points
    (fst (DocumentApproval.handleApproval score_db (Some "uF")
            (Some faculty_F) "2025-09-16T09:00:00Z" "d1" false
            (Some "not readable") None))
    "pA"
  = Some 0.
Proof.
  pose proof (rejection_takes_the_points_back
                score_db (Some "uF") faculty_F "2025-09-16T09:00:00Z"
                (Some "not readable") None
                (make_document "d1" "pA" Document.approved (Some 30))
                "pA" eq_refl eq_refl ltac:(discriminate)
                ltac:(distinct_ids) (or_introl eq_refl)) as H.
  cbv zeta in H. destruct H as (_ & _ & H & _).
  apply (H 30). reflexivity.
Defined.

Lemma reviewed_document_leaves_the_review_list_witness :
  DocumentApproval.fetchPendingDocuments
    (fst (DocumentApproval.handleApproval review_db (Some "uF")
            (Some faculty_F) "2025-09-16T09:00:00Z" "d1" true None (Some 30)))
    (Some "uF") compare_code_units
  = [].
Proof.
  pose proof (reviewed_document_leaves_the_review_list compare_code_units
                review_db (Some "uF") faculty_F "2025-09-16T09:00:00Z" "d1"
                true None (Some 30) eq_refl eq_refl ltac:(discriminate)) as H.
  cbv zeta in H. destruct H as [H _].
  apply Permutation_nil. apply Permutation_sym. apply H.
  intros p _ Hp. injection Hp as <-. lia.
Defined.

(** One byte less than a megabyte. *)
Lemma formatFileSize_kilobytes_witness :
  FileSize.formatFileSize 1048575 = "1024.0 KB".
Proof.
  destruct (formatFileSize_kilobytes 1048575) as (_ & _ & H & _).
  apply H. lia.
Defined.

(** Student A on the own dashboard: one achievement of 30 points. *)
Lemma achievements_of_the_owner_add_up_to_the_total_witness :
  AnalyticsQueries.fetchTotalPoints score_db student_A 0 = 30.
Proof.
  pose proof (achievements_of_the_owner_add_up_to_the_total
                score_db compare_code_units student_A 0 (or_introl eq_refl))
    as H.
  cbv zeta in H. destruct H as [H _].
  rewrite H; [reflexivity | vm_compute; discriminate].
Defined.

(** Student D asks student E, and E accepts. *)
Lemma sent_request_can_be_answered_by_the_invited_witness :
  In {| CollaborationRequest.id := "r2";
        CollaborationRequest.requester_id := "pD";
        CollaborationRequest.requested_id := "pE";
        CollaborationRequest.project_title := "Timetable";
        CollaborationRequest.project_description :=
          Some "A timetable planner";
        CollaborationRequest.skills_needed := ["Rust"];
        CollaborationRequest.status := CollaborationRequest.accepted;
        CollaborationRequest.created_at := "2025-09-15T10:00:00Z";
        CollaborationRequest.updated_at := "2025-09-16T10:00:00Z" |}
    (collaboration_requests
       (fst (CollaborationRequests.updateRequestStatus
               (fst (CollaborationInvite.createRequest collaboration_db
                       (Some "uD") (Some student_D) "pE" "Timetable"
                       "A timetable planner" ["Rust"]
                       "2025-09-15T10:00:00Z" "r2"))
               (Some "uE") "2025-09-16T10:00:00Z" "r2" "accepted"))).
Proof.
  pose proof (sent_request_can_be_answered_by_the_invited
                collaboration_db student_D student_E "Timetable"
                "A timetable planner" ["Rust"]
                "2025-09-15T10:00:00Z" "2025-09-16T10:00:00Z" "r2"
                "accepted" CollaborationRequest.accepted
                (or_introl eq_refl) (or_intror (or_introl eq_refl)) eq_refl)
    as H.
  cbv zeta in H. destruct H as (_ & _ & H). exact H.
Defined.

(** Student E cannot send a request in the name of student D. *)
Lemma request_in_the_name_of_another_is_refused_witness :
  CollaborationInvite.createRequest collaboration_db (Some "uE")
    (Some student_D) "pE" "Timetable" "A timetable planner" ["Rust"]
    "2025-09-15T10:00:00Z" "r2"
  = (collaboration_db,
     Some (CollaborationInvite.Error
             "new row violates row-level security policy")).
Proof.
  apply (request_in_the_name_of_another_is_refused
           collaboration_db (Some "uE") student_D "pE" "Timetable"
           "A timetable planner" ["Rust"] "2025-09-15T10:00:00Z" "r2").
  intros p [<- | [<- | []]] Hid; [discriminate | discriminate Hid].
Defined.

Lemma filePath_of_public_url_is_the_object_name_witness :
  DocumentDelete.filePath_of
    "/storage/v1/object/public/documents/uA/1757844000000.pdf"
  = "uA/1757844000000.pdf".
Proof.
  apply (proj1 (filePath_of_public_url_is_the_object_name
                  certificate_object "/storage/v1/object/public/documents"
                  eq_refl eq_refl)).
  reflexivity.
Defined.

(** Student A uploads a certificate into the empty bucket. *)
Lemma uploaded_document_is_pending_and_scores_nothing_witness :
  exists d : Document.row,
    documents
      (DocumentUpload.db
         (fst (DocumentUpload.handleFileUpload storage_url upload_succeeds
                 (Some student_A) (Some "uA") (Some certificate_pdf)
                 "Certificate" "Course certificate" 1757844000000
                 "2025-09-14T10:00:00Z" "d9" empty_world)))
    = [d]
    /\ Document.status d = Document.pending
    /\ Document.points_awarded d = Some 0.
Proof.
  destruct (uploaded_document_is_pending_and_scores_nothing
              storage_url upload_succeeds
              (Some student_A) (Some "uA") (Some certificate_pdf)
              "Certificate" "Course certificate" 1757844000000
              "2025-09-14T10:00:00Z" "d9" empty_world
              ltac:(vm_compute; right; right; left; reflexivity))
    as (d & owner & Hdocs & _ & Hst & Hpts & _).
  exists d. split; [exact Hdocs |]. split; [exact Hst | exact Hpts].
Defined.

(** Student A uploads a certificate and deletes it again. *)
Lemma upload_then_delete_restores_the_world_witness :
  fst (DocumentDelete.handleDeleteDocument pathname_of delete_succeeds true
         (Some "uA") "d9" (storage_url certificate_object)
         (fst (DocumentUpload.handleFileUpload storage_url upload_succeeds
                 (Some student_A) (Some "uA") (Some certificate_pdf)
                 "Certificate" "Course certificate" 1757844000000
                 "2025-09-14T10:00:00Z" "d9" empty_world)))
  = empty_world.
Proof.
  apply (upload_then_delete_restores_the_world
           storage_url pathname_of upload_succeeds delete_succeeds
           student_A certificate_pdf "Certificate" "Course certificate"
           1757844000000 "2025-09-14T10:00:00Z" "d9" empty_world
           "/storage/v1/object/public/documents"
           (or_introl eq_refl) eq_refl eq_refl eq_refl eq_refl
           ltac:(intros d [])
           eq_refl eq_refl eq_refl eq_refl).
Defined.


Lemma signup_with_an_unknown_user_type_is_refused_witness :
  Signup.handle_new_user "pI" new_intern signup_state = None.
Proof.
  apply (signup_with_an_unknown_user_type_is_refused
           "pI" new_intern signup_state "intern" eq_refl);
    discriminate.
Defined.

(** Student C finds the student who has just signed up. *)
Lemma new_student_is_listed_in_the_directory_witness :
  exists st' : Signup.State,
    Signup.handle_new_user "pN" new_student signup_state = Some st'
    /\ exists p,
         In p (StudentSearch.data (Signup.db st') (Some "uC"))
         /\ Profile.id p = "pN"
         /\ Profile.user_id p = "uN".
Proof.
  eexists. split; [reflexivity |].
  apply (new_student_is_listed_in_the_directory
           "pN" new_student signup_state _ "uC" eq_refl).
  left. reflexivity.
Defined.
